(** * SweetAware API: the prediction controller

    A shallow embedding of [src/controllers/predictionController.js]
    (the four hapi handlers [createPrediction], [getPredictionHistory],
    [getPredictionById] and [deletePrediction]) together with the parts of
    the JavaScript runtime, of Joi and of the Mongoose model they rely on,
    followed by the properties the specification states about them. *)

From Stdlib Require Import String Ascii List ZArith QArith Qround Qabs Qpower.
From Stdlib Require Import Bool Lia DecimalString Permutation Sorted.
Import ListNotations.

Local Open Scope string_scope.
Local Open Scope list_scope.
Local Open Scope Z_scope.

(* ================================================================== *)
(** ** JavaScript values and the built-ins the controller calls *)
(* ================================================================== *)

Module JS.

(** The values a JSON payload carries.  [Num] holds a finite double, read
    as the rational it denotes (every threshold the controller compares
    with, 140, 6.5 and 25, is a double); [Infinity] is what a numeral
    beyond the doubles, such as 1e400, is parsed to.  [Object] stands for
    a nested object or array; [undefined] is the [None] of a failed
    property lookup. *)
Inductive value :=
| Null
| Bool (b : bool)
| Num (q : Q)
| Infinity (positive : bool)
| Str (s : string)
| Object.

(** An object literal: its own properties in insertion order. *)
Definition object := list (string * value).

(** The first property of an object named [k], [None] for [undefined]. *)
Fixpoint own (k : string) (o : object) : option value :=
  match o with
  | [] => None
  | (k', v) :: o' => if String.eqb k k' then Some v else own k o'
  end.

(** [o.k = v] on a copy of [o]: replaces in place, appends a new key. *)
Fixpoint set (k : string) (v : value) (o : object) : object :=
  match o with
  | [] => [(k, v)]
  | (k', v') :: o' =>
      if String.eqb k k' then (k, v) :: o' else (k', v') :: set k v o'
  end.

(** What [request.payload] can be, and what a record holds as its
    [inputData]: an object; a string, together with the object it spells
    as JSON when it spells one; or one of the values without members of
    their own that a JSON body can be, [null] (also the payload of an
    empty body), an array, a number or a boolean. *)
Inductive body :=
| Fields (o : object)
| Text (s : string) (spelled : option object)
| NullBody
| ArrayBody
| NumberBody (q : Q)
| BooleanBody (b : bool).

(** [b.k], for the names the controller reads: only an object has such a
    member.  (On [null] the read would throw; the controller reads no
    member of a payload the schema refused, and it refuses [null].) *)
Definition get (k : string) (b : body) : option value :=
  match b with
  | Fields o => own k o
  | _ => None
  end.

(** ToBoolean, as the conditional operator applies it. *)
Definition truthy (v : option value) : bool :=
  match v with
  | None => false
  | Some Null => false
  | Some (Bool b) => b
  | Some (Num q) => negb (Qeq_bool q 0)
  | Some (Infinity _) => true
  | Some (Str s) => negb (String.eqb s "")
  | Some Object => true
  end.

(** What ToNumber gives: a finite number, an infinity or NaN. *)
Inductive numeric :=
| Finite (q : Q)
| Infinite (positive : bool)
| NotANumber.

Section Coercion.

(** ToNumber on a string (StringNumericLiteral); [None] is NaN. *)
Variable StringToNumber : string -> option Q.

(** ToNumber.  [undefined] and a nested object are NaN (the schema lets
    no array through to a comparison). *)
Definition ToNumber (v : option value) : numeric :=
  match v with
  | None => NotANumber
  | Some Null => Finite 0
  | Some (Bool true) => Finite 1
  | Some (Bool false) => Finite 0
  | Some (Num q) => Finite q
  | Some (Infinity positive) => Infinite positive
  | Some (Str s) =>
      match StringToNumber s with
      | Some q => Finite q
      | None => NotANumber
      end
  | Some Object => NotANumber
  end.

(** [v > t] against a number literal [t]: numeric comparison after
    ToNumber, false as soon as an operand is NaN. *)
Definition gt (v : option value) (t : Q) : bool :=
  match ToNumber v with
  | Finite q => negb (Qle_bool q t)
  | Infinite positive => positive
  | NotANumber => false
  end.

End Coercion.

(** [String.prototype.startsWith]. *)
Definition startsWith (s p : string) : bool := String.prefix p s.

(** [String.prototype.includes]. *)
Fixpoint includes (s needle : string) : bool :=
  String.prefix needle s ||
  match s with
  | EmptyString => false
  | String _ s' => includes s' needle
  end.

(** [String.prototype.toLowerCase] on the ASCII letters. *)
Definition lower_ascii (c : ascii) : ascii :=
  let n := nat_of_ascii c in
  if (Nat.leb 65 n && Nat.leb n 90)%bool then ascii_of_nat (n + 32) else c.

Fixpoint toLowerCase (s : string) : string :=
  match s with
  | EmptyString => EmptyString
  | String c s' => String (lower_ascii c) (toLowerCase s')
  end.

(** Number-to-string conversion of an integer, as a template literal
    performs it. *)
Definition string_of_Z (z : Z) : string :=
  NilZero.string_of_int (Z.to_int z).

(** *** Doubles *)

(** [p / d] rounded to the nearest integer, to the even one of the two
    when it is half way; [d] is positive. *)
Definition round_half_even (p d : Z) : Z :=
  let f := p / d in
  let r := p mod d in
  if 2 * r <? d then f
  else if d <? 2 * r then f + 1
  else if Z.even f then f else f + 1.

(** A rational rounded to the nearest integer, to the even one of the
    two when it is half way. *)
Definition round_Q (x : Q) : Z :=
  round_half_even (Qnum x) (Zpos (Qden x)).

(** [2^k] for an integer [k] of either sign. *)
Definition pow2 (k : Z) : Q := Qpower 2 k.

(** The binary exponent of a positive rational [x]: the [e] with
    [2^e <= x < 2^(e+1)]. *)
Definition exponent (x : Q) : Z :=
  let e := Z.log2 (Qnum x) - Z.log2 (Zpos (Qden x)) in
  if Qle_bool (pow2 e) x then e else e - 1.

(** The double nearest to a rational, ties to the even significand: what
    an arithmetic operation on doubles makes of its exact result.  A
    significand has 53 bits, so that the last of them is worth
    [2^(e - 52)] for a number of exponent [e], and no less than
    [2^-1074].  For rationals below 2^1024 in magnitude. *)
Definition fl (q : Q) : Q :=
  if Qeq_bool q 0 then 0%Q
  else
    let a := Qabs q in
    let k := Z.max (exponent a - 52) (- 1074) in
    (inject_Z (Z.sgn (Qnum q) * round_Q (a * pow2 (- k))) * pow2 k)%Q.

(** The numbers the pagination computes with: the integers a double
    holds, the two infinities and NaN. *)
Inductive number :=
| NaN
| Fin (z : Z)
| Inf (positive : bool).

(** The double nearest to an integer, ties to the even significand;
    infinite from 2^1024 on. *)
Definition round_double (z : Z) : number :=
  let a := Z.abs z in
  if a <? 2 ^ 53 then Fin z
  else
    let e := Z.log2 a - 52 in
    let m := round_half_even a (2 ^ e) * 2 ^ e in
    if 2 ^ 1024 <=? m then Inf (0 <? z) else Fin (Z.sgn z * m).

(** [a - b] for an integer [b]. *)
Definition sub (a : number) (b : Z) : number :=
  match a with
  | Fin x => round_double (x - b)
  | _ => a
  end.

(** [a * b]. *)
Definition mul (a b : number) : number :=
  match a, b with
  | NaN, _ => NaN
  | _, NaN => NaN
  | Fin x, Fin y => round_double (x * y)
  | Fin x, Inf s => if x =? 0 then NaN else Inf (if 0 <? x then s else negb s)
  | Inf s, Fin y => if y =? 0 then NaN else Inf (if 0 <? y then s else negb s)
  | Inf s, Inf t => Inf (Bool.eqb s t)
  end.

(** [x || d] on a number: NaN and 0 are the falsy ones. *)
Definition or_default (x : number) (d : Z) : number :=
  match x with
  | NaN => Fin d
  | Fin 0 => Fin d
  | _ => x
  end.

(** The integer a finite number is; 0 for the others. *)
Definition integer (x : number) : Z :=
  match x with
  | Fin z => z
  | _ => 0
  end.

(** [Math.ceil(a / b)] for integers [a] and [b], [b] not 0. *)
Definition ceil_div (a b : Z) : Z := - ((- a) / b).

(** [Math.ceil(a / b)] for a count [a] (not negative, below 2^53: the
    quotient of the doubles then rounds to no other integer than its
    own ceiling) and a number [b]: dividing by 0 gives an infinity, or
    NaN for [0 / 0]; dividing by an infinity gives 0. *)
Definition ceil_quotient (a : Z) (b : number) : number :=
  match b with
  | NaN => NaN
  | Fin 0 => if a =? 0 then NaN else Inf true
  | Fin y => Fin (ceil_div a y)
  | Inf _ => Fin 0
  end.

(** *** parseInt *)

(** The white space [parseInt] skips (StrWhiteSpaceChar), in a string
    held as UTF-8: TAB, LF, VT, FF, CR and SP, one byte each; U+00A0, two
    bytes; U+1680, U+2000 to U+200A, U+2028, U+2029, U+202F, U+205F,
    U+3000 and U+FEFF, three bytes each. *)
Definition is_space (c : ascii) : bool :=
  let n := nat_of_ascii c in
  (Nat.leb 9 n && Nat.leb n 13)%bool || Nat.eqb n 32.

Definition is_space2 (c1 c2 : ascii) : bool :=
  (Nat.eqb (nat_of_ascii c1) 194 && Nat.eqb (nat_of_ascii c2) 160)%bool.

Definition is_space3 (c1 c2 c3 : ascii) : bool :=
  let n1 := nat_of_ascii c1 in
  let n2 := nat_of_ascii c2 in
  let n3 := nat_of_ascii c3 in
  (Nat.eqb n1 225 && Nat.eqb n2 154 && Nat.eqb n3 128)%bool
  || (Nat.eqb n1 226 && Nat.eqb n2 128
      && ((Nat.leb 128 n3 && Nat.leb n3 138)
          || Nat.eqb n3 168 || Nat.eqb n3 169 || Nat.eqb n3 175))%bool
  || (Nat.eqb n1 226 && Nat.eqb n2 129 && Nat.eqb n3 159)%bool
  || (Nat.eqb n1 227 && Nat.eqb n2 128 && Nat.eqb n3 128)%bool
  || (Nat.eqb n1 239 && Nat.eqb n2 187 && Nat.eqb n3 191)%bool.

Fixpoint trimStart (s : string) : string :=
  match s with
  | EmptyString => EmptyString
  | String c1 s1 =>
      if is_space c1 then trimStart s1
      else
        match s1 with
        | String c2 s2 =>
            if is_space2 c1 c2 then trimStart s2
            else
              match s2 with
              | String c3 s3 =>
                  if is_space3 c1 c2 c3 then trimStart s3 else s
              | EmptyString => s
              end
        | EmptyString => s
        end
  end.

(** The value of [c] as a digit, when it is one in the given radix. *)
Definition digit (radix : Z) (c : ascii) : option Z :=
  let n := Z.of_nat (nat_of_ascii c) in
  let d :=
    if (48 <=? n) && (n <=? 57) then Some (n - 48)
    else if (97 <=? n) && (n <=? 122) then Some (n - 87)
    else if (65 <=? n) && (n <=? 90) then Some (n - 55)
    else None in
  match d with
  | Some k => if k <? radix then Some k else None
  | None => None
  end.

(** The longest prefix of digits, read in the radix; [acc] is [None]
    until a first digit is seen. *)
Fixpoint digits (radix : Z) (s : string) (acc : option Z) : option Z :=
  match s with
  | String c s' =>
      match digit radix c with
      | Some d =>
          digits radix s'
            (Some (radix * match acc with Some a => a | None => 0 end + d))
      | None => acc
      end
  | EmptyString => acc
  end.

(** [parseInt(x)] without a radix, on a query parameter: [None] is
    [undefined], which reads as the string "undefined".  The integer the
    digits spell is rounded to a double. *)
Definition parseInt (x : option string) : number :=
  let s := trimStart (match x with Some s => s | None => "undefined" end) in
  let '(sign, s) :=
    match s with
    | String "-" s' => (-1, s')
    | String "+" s' => (1, s')
    | _ => (1, s)
    end in
  let '(radix, s) :=
    match s with
    | String "0" (String "x" s') => (16, s')
    | String "0" (String "X" s') => (16, s')
    | _ => (10, s)
    end in
  match digits radix s None with
  | Some n => round_double (sign * n)
  | None => NaN
  end.

(** *** The order of the keys of an object *)

Fixpoint all_digits (s : string) : bool :=
  match s with
  | EmptyString => true
  | String c s' =>
      match digit 10 c with
      | Some _ => all_digits s'
      | None => false
      end
  end.

(** The array index a key spells: a decimal numeral without a leading
    zero, below 2^32 - 1. *)
Definition index_of (k : string) : option Z :=
  match k with
  | EmptyString => None
  | String c rest =>
      if all_digits k && (negb (Ascii.eqb c "0") || String.eqb rest "")
      then
        match digits 10 k None with
        | Some n => if n <=? 4294967294 then Some n else None
        | None => None
        end
      else None
  end.

Fixpoint insert_index (i : Z) (k : string) (l : list (Z * string))
  : list (Z * string) :=
  match l with
  | [] => [(i, k)]
  | (j, k') :: l' =>
      if i <? j then (i, k) :: l else (j, k') :: insert_index i k l'
  end.

(** The keys that are array indices, in ascending order. *)
Fixpoint index_keys (ks : list string) : list (Z * string) :=
  match ks with
  | [] => []
  | k :: ks' =>
      match index_of k with
      | Some i => insert_index i k (index_keys ks')
      | None => index_keys ks'
      end
  end.

(** [Object.keys(o)]: the array indices first, in ascending order, then
    the other keys in insertion order. *)
Definition keys (o : object) : list string :=
  map snd (index_keys (map fst o))
  ++ filter (fun k => match index_of k with Some _ => false | None => true end)
       (map fst o).

End JS.

(** An object is a payload, and an integer is a number. *)
Coercion JS.Fields : JS.object >-> JS.body.
Coercion JS.Fin : Z >-> JS.number.

(* ================================================================== *)
(** ** Joi: the object schema and its validation *)
(* ================================================================== *)

Module Joi.

(** The three kinds of rule the schema uses. *)
Inductive type :=
| string_valid (allowed : list string)   (* Joi.string().valid(...) *)
| number                                 (* Joi.number() *)
| boolean.                               (* Joi.boolean() *)

(** One key of [Joi.object({...})]: its rule, its presence and its
    default. *)
Record key := {
  name : string;
  rule : type;
  required : bool;
  default : option JS.value
}.

(** The error types the schema can report. *)
Inductive code :=
| any_required
| any_only (allowed : list string)
| number_base
| number_infinity
| number_unsafe
| boolean_base
| object_unknown
| object_base.

(** A validation error.  Joi validates with [abortEarly], so an error
    holds exactly one detail: [error.details[0]]. *)
Record error := { label : string; reason : code }.

(** The double quote Joi wraps a label in. *)
Definition dquote : string := String (ascii_of_nat 34) EmptyString.

(** [error.details[0].message]. *)
Definition message (e : error) : string :=
  String.append (String.append dquote (String.append (label e) dquote))
    match reason e with
    | any_required => " is required"
    | any_only allowed =>
        String.append " must be one of ["
          (String.append (String.concat ", " allowed) "]")
    | number_base => " must be a number"
    | number_infinity => " cannot be infinity"
    | number_unsafe => " must be a safe number"
    | boolean_base => " must be a boolean"
    | object_unknown => " is not allowed"
    | object_base => " must be of type object"
    end.

(** The outcome of [schema.validate(payload)]: [{ error, value }]. *)
Record result := { error_of : option error; value : JS.body }.

(** [Number.MAX_SAFE_INTEGER], 2^53 - 1. *)
Definition max_safe : Z := 2 ^ 53 - 1.

(** A number is safe between [-max_safe] and [max_safe]. *)
Definition safe (q : Q) : bool :=
  Qle_bool (inject_Z (- max_safe)) q && Qle_bool q (inject_Z max_safe).

(** What an object schema validates of a payload: the object itself, or
    the object a string spells. *)
Definition as_object (raw : JS.body) : option JS.object :=
  match raw with
  | JS.Fields o => Some o
  | JS.Text _ spelled => spelled
  | _ => None
  end.

Section Validate.

(** Joi's reading of a string as a number (validation converts by
    default); [None] when the string is not one.  A numeral Joi refuses
    because a double does not hold it reads as a number that is not
    safe. *)
Variable coerceNumber : string -> option Q.

(** A number, converted or not, has to be safe. *)
Definition check_number (q : Q) : code + JS.value :=
  if safe q then inr (JS.Num q) else inl number_unsafe.

(** One rule on one value: the error type, or the converted value. *)
Definition check (t : type) (v : JS.value) : code + JS.value :=
  match t with
  | string_valid allowed =>
      match v with
      | JS.Str s =>
          if existsb (String.eqb s) allowed then inr v
          else inl (any_only allowed)
      | _ => inl (any_only allowed)
      end
  | number =>
      match v with
      | JS.Num q => check_number q
      | JS.Infinity _ => inl number_infinity
      | JS.Str s =>
          match coerceNumber s with
          | Some q => check_number q
          | None => inl number_base
          end
      | _ => inl number_base
      end
  | boolean =>
      match v with
      | JS.Bool _ => inr v
      | JS.Str s =>
          if String.eqb (JS.toLowerCase s) "true" then inr (JS.Bool true)
          else if String.eqb (JS.toLowerCase s) "false"
               then inr (JS.Bool false)
          else inl boolean_base
      | _ => inl boolean_base
      end
  end.

(** The keys of the schema, in their order, against the object [raw];
    [acc] is the copy that receives converted values and defaults.  The
    first violated rule ends the validation. *)
Fixpoint validate_keys (ks : list key) (raw acc : JS.object)
  : error + JS.object :=
  match ks with
  | [] => inr acc
  | k :: ks' =>
      match JS.own (name k) raw with
      | None =>
          if required k
          then inl {| label := name k; reason := any_required |}
          else validate_keys ks' raw
                 match default k with
                 | Some d => JS.set (name k) d acc
                 | None => acc
                 end
      | Some v =>
          match check (rule k) v with
          | inl c => inl {| label := name k; reason := c |}
          | inr v' => validate_keys ks' raw (JS.set (name k) v' acc)
          end
      end
  end.

(** The first key of the object, in the order of [Object.keys], that the
    schema does not know. *)
Definition unknown_key (ks : list key) (raw : JS.object) : option string :=
  find (fun k => negb (existsb (String.eqb k) (map name ks))) (JS.keys raw).

(** [Joi.object(ks).validate(raw)]: the payload has to be an object, or
    a string that spells one; then the keys of the schema come first and
    the unknown keys of the object after them. *)
Definition validate (ks : list key) (raw : JS.body) : result :=
  match as_object raw with
  | None =>
      {| error_of := Some {| label := "value"; reason := object_base |};
         value := raw |}
  | Some o =>
      match validate_keys ks o o with
      | inl e => {| error_of := Some e; value := raw |}
      | inr v =>
          match unknown_key ks o with
          | Some k =>
              {| error_of := Some {| label := k; reason := object_unknown |};
                 value := raw |}
          | None => {| error_of := None; value := JS.Fields v |}
          end
      end
  end.

End Validate.

End Joi.

(* ================================================================== *)
(** ** The controller's data *)
(* ================================================================== *)

(** Lines 7-16. *)
Definition predictionValidation : list Joi.key :=
  [ {| Joi.name := "gender";
       Joi.rule := Joi.string_valid ["Male"; "Female"];
       Joi.required := true; Joi.default := None |};
    {| Joi.name := "age"; Joi.rule := Joi.number;
       Joi.required := true; Joi.default := None |};
    {| Joi.name := "hypertension"; Joi.rule := Joi.boolean;
       Joi.required := false; Joi.default := Some (JS.Bool false) |};
    {| Joi.name := "heartDisease"; Joi.rule := Joi.boolean;
       Joi.required := true; Joi.default := None |};
    {| Joi.name := "smokingHistory";
       Joi.rule := Joi.string_valid ["never"; "former"; "current"];
       Joi.required := true; Joi.default := None |};
    {| Joi.name := "bmi"; Joi.rule := Joi.number;
       Joi.required := true; Joi.default := None |};
    {| Joi.name := "hbA1cLevel"; Joi.rule := Joi.number;
       Joi.required := false; Joi.default := None |};
    {| Joi.name := "bloodGlucoseLevel"; Joi.rule := Joi.number;
       Joi.required := false; Joi.default := None |} ].

(** [result.recommendations]. *)
Record Recommendations := {
  lifestyle : list string;
  monitoring : list string;
  consultation : list string
}.

(** The [result] of a prediction; [factors] is [details.factors], a
    mapping from factor name to label, and [recommendations] is absent
    until it is assigned. *)
Record PredictionResult := {
  prediction : string;
  riskScore : Q;
  factors : list (string * string);
  recommendations : option Recommendations
}.

(** A prediction record, as a document of the store and as the mock
    records have it; [createdAt] is in milliseconds since the epoch. *)
Record Prediction := {
  _id : string;
  user : string;
  inputData : JS.body;
  result : PredictionResult;
  createdAt : Z
}.

(** [total] is a count of records; [page], [limit] and [pages] are what
    the arithmetic on the query parameters gives. *)
Record Pagination := {
  total : Z;
  page : JS.number;
  limit : JS.number;
  pages : JS.number
}.

(** The [data] member of a response, one shape per handler. *)
Inductive Data :=
| Created (id : string) (input : JS.body) (res : PredictionResult)
          (created : Z)
| History (predictions : list Prediction) (pagination : Pagination)
| Single (found : Prediction).

(** [h.response({ status, message, data }).code(code)]; a member the
    handler does not write is [None]. *)
Record Response := {
  code : Z;
  status : string;
  message : option string;
  data : option Data
}.

(** What a handler reads of the request: [request.payload],
    [request.query.page], [request.query.limit], [request.params.id] and
    [request.auth.credentials.id].  A query parameter is held as the
    string [parseInt] reads it as (for a parameter given several times,
    its values joined by commas); [None] is a parameter that is not
    given. *)
Record Request := {
  payload : JS.body;
  query_page : option string;
  query_limit : option string;
  params_id : string;
  credentials_id : string
}.

(** A call either returns or throws an error with a message. *)
Inductive outcome (A : Type) :=
| Returns (a : A)
| Throws (msg : string).
Arguments Returns {A} a.
Arguments Throws {A} msg.

(** The operations of the [Prediction] model the controller calls. *)
Inductive StoreOp :=
| Save (doc : Prediction)
| Find (owner : string) (skip lim : JS.number)
| CountDocuments (owner : string)
| FindOne (id owner : string)
| FindOneAndDelete (id owner : string).

(** What surrounds a request and the handler does not control: the state
    of the connection, the clock, the random source (doubles of [0, 1)),
    the identifiers mongoose mints, the inference service and the
    failures of the store. *)
Record Env := {
  readyState : Z;
  clock : nat -> Z;
  entropy : nat -> Q;
  objectId : nat -> string;
  makePrediction : JS.body -> outcome PredictionResult;
  getRecommendations : PredictionResult -> outcome Recommendations;
  storeError : StoreOp -> option string
}.

(** What a request changes: how often the clock and the random source
    were read, how many identifiers were minted, the collection, and the
    operations sent to the store (latest first). *)
Record World := {
  ticks : nat;
  draws : nat;
  minted : nat;
  collection : list Prediction;
  calls : list StoreOp
}.

(** *** The monad of a handler body: state and exceptions *)

Definition M (A : Type) : Type := World -> outcome A * World.

Definition ret {A} (a : A) : M A := fun w => (Returns a, w).

Definition bind {A B} (m : M A) (k : A -> M B) : M B :=
  fun w =>
    match m w with
    | (Returns a, w') => k a w'
    | (Throws msg, w') => (Throws msg, w')
    end.

Definition throw {A} (msg : string) : M A := fun w => (Throws msg, w).

(** [try { m } catch (e) { h(e.message) }]: what [m] did to the world
    before it threw stays done. *)
Definition try_catch {A} (m : M A) (h : string -> M A) : M A :=
  fun w =>
    match m w with
    | (Returns a, w') => (Returns a, w')
    | (Throws msg, w') => h msg w'
    end.

(** The outermost [try]/[catch] of a handler, whose [catch] only builds
    a response: the handler always answers. *)
Definition answer (m : M Response) (h : string -> Response)
  : World -> Response * World :=
  fun w =>
    match m w with
    | (Returns r, w') => (r, w')
    | (Throws msg, w') => (h msg, w')
    end.

(** A call to a collaborator that touches no state of ours. *)
Definition call {A} (o : outcome A) : M A := fun w => (o, w).

Declare Scope handler_scope.
Delimit Scope handler_scope with handler.
Notation "x <- c ;; k" := (bind c (fun x => k))
  (at level 61, c at next level, right associativity) : handler_scope.
Notation "' pat <- c ;; k" := (bind c (fun x => match x with pat => k end))
  (at level 61, pat pattern, c at next level, right associativity)
  : handler_scope.

Fixpoint mapM {A B} (f : A -> M B) (l : list A) : M (list B) :=
  match l with
  | [] => ret []
  | a :: l' =>
      (b <- f a ;;
       bs <- mapM f l' ;;
       ret (b :: bs))%handler
  end.

(** *** World updates *)

Definition tick (w : World) : World :=
  {| ticks := S (ticks w); draws := draws w; minted := minted w;
     collection := collection w; calls := calls w |}.

Definition draw (w : World) : World :=
  {| ticks := ticks w; draws := S (draws w); minted := minted w;
     collection := collection w; calls := calls w |}.

Definition mint (w : World) : World :=
  {| ticks := ticks w; draws := draws w; minted := S (minted w);
     collection := collection w; calls := calls w |}.

Definition record_call (op : StoreOp) (w : World) : World :=
  {| ticks := ticks w; draws := draws w; minted := minted w;
     collection := collection w; calls := op :: calls w |}.

Definition with_collection (c : list Prediction) (w : World) : World :=
  {| ticks := ticks w; draws := draws w; minted := minted w;
     collection := c; calls := calls w |}.

(** *** Queries on a collection *)

Definition owned_by (owner : string) (d : Prediction) : bool :=
  String.eqb (user d) owner.

Definition matches (id owner : string) (d : Prediction) : bool :=
  String.eqb (_id d) id && String.eqb (user d) owner.

(** [.sort({ createdAt: -1 })]: most recent first. *)
Fixpoint insert_desc (d : Prediction) (l : list Prediction) : list Prediction :=
  match l with
  | [] => [d]
  | x :: l' =>
      if createdAt x <=? createdAt d then d :: l else x :: insert_desc d l'
  end.

Definition sort_desc (l : list Prediction) : list Prediction :=
  fold_right insert_desc [] l.

(** [.skip(n)] for an [n] that is not negative: [n] records are passed
    over, all of them when [n] is infinite. *)
Definition skip_docs (n : JS.number) (l : list Prediction)
  : list Prediction :=
  match n with
  | JS.Fin z => skipn (Z.to_nat z) l
  | _ => []
  end.

(** [.limit(n)]: 0 is no limit, nor is an infinite one; a negative limit
    counts by its absolute value. *)
Definition limit_docs (n : JS.number) (l : list Prediction)
  : list Prediction :=
  match n with
  | JS.Fin z => if z =? 0 then l else firstn (Z.to_nat (Z.abs z)) l
  | _ => l
  end.

(** The skips the store refuses: the negative ones and NaN. *)
Definition bad_skip (n : JS.number) : bool :=
  match n with
  | JS.Fin z => z <? 0
  | JS.Inf positive => negb positive
  | JS.NaN => true
  end.

(** The first document that matches, taken out of the collection. *)
Fixpoint remove_first (f : Prediction -> bool) (l : list Prediction)
  : list Prediction :=
  match l with
  | [] => []
  | d :: l' => if f d then l' else d :: remove_first f l'
  end.

(** *** Constants of the controller *)

(** Lines 32-33. *)
Definition optional_hint : string :=
  ". Anda dapat melanjutkan tanpa mengisi nilai ini, sistem akan memberikan estimasi berdasarkan data lain yang Anda berikan.".

(** Lines 76-83. *)
Definition static_recommendations : Recommendations :=
  {| lifestyle :=
       [ "Maintain a balanced diet rich in vegetables and fruits";
         "Regular physical activity (at least 150 minutes per week)" ];
     monitoring := [ "Regular blood glucose monitoring" ];
     consultation := [ "Follow up with your primary care physician" ] |}.

(** Lines 230 and 320. *)
Definition sentinel_id : string := "60d21b4667d0d8992e610c85".

(** [24 * 60 * 60 * 1000], line 165. *)
Definition day_ms : Z := 24 * 60 * 60 * 1000.

(** Lines 242-260: the canned record of the mock lookup. *)
Definition canned_inputData : JS.object :=
  [ ("glucose", JS.Num 140); ("bloodPressure", JS.Num 80);
    ("skinThickness", JS.Num 25); ("insulin", JS.Num 120);
    ("bmi", JS.Num (49 # 2)); ("age", JS.Num 45) ].

Definition canned_result : PredictionResult :=
  {| prediction := "High Risk";
     riskScore := 3 # 4;
     factors := [ ("glucose", "High"); ("bloodPressure", "Normal");
                  ("bmi", "Normal") ];
     recommendations := None |}.

Definition not_found : Response :=
  {| code := 404; status := "error";
     message := Some "Prediction not found"; data := None |}.

(** The [catch] of every handler, lines 124-131, 206-213, 297-304 and
    360-367. *)
Definition internal_error (msg : string) : Response :=
  {| code := 500; status := "error"; message := Some msg; data := None |}.
(* ================================================================== *)
(** ** The handlers *)
(* ================================================================== *)

Section Controller.

(** ToNumber on strings, Joi's reading of a string as a number, and the
    surroundings of the request. *)
Variable StringToNumber : string -> option Q.
Variable coerceNumber : string -> option Q.
Variable env : Env.

Local Open Scope handler_scope.

(** [Date.now()] and [new Date()]: one reading of the clock each. *)
Definition Date_now : M Z :=
  fun w => (Returns (clock env (ticks w)), tick w).

(** [Math.random()]. *)
Definition Math_random : M Q :=
  fun w => (Returns (entropy env (draws w)), draw w).

(** *** The [Prediction] model *)

(** An operation reaches the store, which may fail it. *)
Definition store (op : StoreOp) : M unit :=
  fun w =>
    match storeError env op with
    | Some msg => (Throws msg, record_call op w)
    | None => (Returns tt, record_call op w)
    end.

(** Modelled from the spec: [models/Prediction] is not part of the
    sources.  [new Prediction({ user, inputData, result })] gives the
    record its identifier and its creation time ("id: store-assigned
    when persisted", "createdAt: timestamp, set once at creation") and
    keeps the three members as they are given. *)
Definition new_Prediction (owner : string) (input : JS.body)
    (res : PredictionResult) : M Prediction :=
  fun w =>
    (Returns {| _id := objectId env (minted w); user := owner;
                inputData := input; result := res;
                createdAt := clock env (ticks w) |},
     tick (mint w)).

(** Modelled from the spec: [prediction.save()], the store's
    "create(record) -> persistedRecord": the record joins the
    collection. *)
Definition save (doc : Prediction) : M unit :=
  _ <- store (Save doc) ;;
  fun w => (Returns tt, with_collection (collection w ++ [doc]) w).

(** Modelled from the spec: [Prediction.find({ user })
    .sort({ createdAt: -1 }).skip(skip).limit(limit)], the store's
    "findByOwner": the owner's records, most recent first, [skip] of
    them passed over and at most [limit] kept.  The spec is silent on a
    [skip] that is negative or NaN; the server refuses one. *)
Definition find_sorted (owner : string) (skip lim : JS.number)
  : M (list Prediction) :=
  _ <- store (Find owner skip lim) ;;
  fun w =>
    if bad_skip skip
    then (Throws "Skip value must be non-negative", w)
    else
      (Returns
         (limit_docs lim
            (skip_docs skip
               (sort_desc (filter (owned_by owner) (collection w))))),
       w).

(** Modelled from the spec: [Prediction.countDocuments({ user })]. *)
Definition countDocuments (owner : string) : M Z :=
  _ <- store (CountDocuments owner) ;;
  fun w =>
    (Returns (Z.of_nat (length (filter (owned_by owner) (collection w)))),
     w).

(** Modelled from the spec: [Prediction.findOne({ _id, user })], the
    store's "findOne(id, owner) -> record|absent". *)
Definition findOne (id owner : string) : M (option Prediction) :=
  _ <- store (FindOne id owner) ;;
  fun w => (Returns (find (matches id owner) (collection w)), w).

(** Modelled from the spec: [Prediction.findOneAndDelete({ _id, user })],
    the store's "deleteOne(id, owner) -> record|absent". *)
Definition findOneAndDelete (id owner : string) : M (option Prediction) :=
  _ <- store (FindOneAndDelete id owner) ;;
  fun w =>
    (Returns (find (matches id owner) (collection w)),
     with_collection (remove_first (matches id owner) (collection w)) w).

(** [mongoose.connection.readyState !== 1]. *)
Definition disconnected : bool := negb (readyState env =? 1).

(** *** createPrediction, lines 19-132 *)

(** Lines 67-74: [details.factors] of the fallback. *)
Definition threshold_factors (input : JS.body) : list (string * string) :=
  [ ("bloodGlucoseLevel",
     if JS.gt StringToNumber (JS.get "bloodGlucoseLevel" input) 140
     then "High" else "Normal");
    ("hbA1cLevel",
     if JS.gt StringToNumber (JS.get "hbA1cLevel" input) (13 # 2)
     then "Elevated" else "Normal");
    ("bmi",
     if JS.gt StringToNumber (JS.get "bmi" input) 25
     then "Overweight" else "Normal");
    ("hypertension",
     if JS.truthy (JS.get "hypertension" input)
     then "Present" else "Absent");
    ("heartDisease",
     if JS.truthy (JS.get "heartDisease" input)
     then "Present" else "Absent") ].

(** Lines 63-84: the [catch] of the inner [try]. *)
Definition fallback (input : JS.body) : M PredictionResult :=
  r1 <- Math_random ;;
  r2 <- Math_random ;;
  ret {| prediction :=
           if negb (Qle_bool r1 (1 # 2)) then "High Risk" else "Low Risk";
         riskScore := r2;
         factors := threshold_factors input;
         recommendations := Some static_recommendations |}.

(** Lines 49-85: the inner [try]/[catch]. *)
Definition predict (input : JS.body) : M PredictionResult :=
  try_catch
    (predictionResult <- call (makePrediction env input) ;;
     recs <- call (getRecommendations env predictionResult) ;;
     ret {| prediction := prediction predictionResult;
            riskScore := riskScore predictionResult;
            factors := factors predictionResult;
            recommendations := Some recs |})
    (fun _ => fallback input).

(** Lines 24-34: the message of a validation error. *)
Definition error_message (e : Joi.error) : string :=
  let errorMessage := Joi.message e in
  if JS.includes errorMessage "hbA1cLevel"
     || JS.includes errorMessage "bloodGlucoseLevel"
     || JS.includes errorMessage "hypertension"
  then String.append errorMessage optional_hint
  else errorMessage.

Definition createPrediction (request : Request)
  : World -> Response * World :=
  answer
    (match
       Joi.error_of
         (Joi.validate coerceNumber predictionValidation (payload request))
     with
     | Some error =>
         ret {| code := 400; status := "error";
                message := Some (error_message error); data := None |}
     | None =>
         let input := payload request in
         predictionResult <- predict input ;;
         if disconnected then
           stamp <- Date_now ;;
           created <- Date_now ;;
           ret {| code := 201; status := "success";
                  message :=
                    Some "Prediction created successfully (MOCK - No DB)";
                  data :=
                    Some (Created
                            (String.append "mock-" (JS.string_of_Z stamp))
                            input predictionResult created) |}
         else
           doc <- new_Prediction (credentials_id request) input
                    predictionResult ;;
           _ <- save doc ;;
           ret {| code := 201; status := "success";
                  message := Some "Prediction created successfully";
                  data :=
                    Some (Created (_id doc) (inputData doc) (result doc)
                            (createdAt doc)) |}
     end)
    internal_error.

(** *** getPredictionHistory, lines 135-214 *)

(** [base + Math.floor(Math.random() * n)]: the product is a double, its
    floor and the sum are integers a double holds. *)
Definition vital (base n : Z) (r : Q) : JS.value :=
  JS.Num (inject_Z (base + Qfloor (JS.fl (r * inject_Z n)))).

(** [22 + Math.random() * 10], line 157: the product and the sum are
    doubles. *)
Definition mock_bmi (r : Q) : JS.value :=
  JS.Num (JS.fl (22 + JS.fl (r * 10))).

(** Lines 150-167: the callback of [map], at index [i]. *)
Definition mock_prediction (userId : string) (i : Z) : M Prediction :=
  stamp <- Date_now ;;
  glucose <- Math_random ;;
  bloodPressure <- Math_random ;;
  skinThickness <- Math_random ;;
  insulin <- Math_random ;;
  bmi <- Math_random ;;
  age <- Math_random ;;
  r1 <- Math_random ;;
  r2 <- Math_random ;;
  now <- Date_now ;;
  ret {| _id :=
           String.append "mock-"
             (String.append (JS.string_of_Z i)
                (String.append "-" (JS.string_of_Z stamp)));
         inputData :=
           JS.Fields
             [ ("glucose", vital 110 70 glucose);
               ("bloodPressure", vital 70 40 bloodPressure);
               ("skinThickness", vital 20 15 skinThickness);
               ("insulin", vital 50 100 insulin);
               ("bmi", mock_bmi bmi);
               ("age", vital 25 40 age) ];
         result :=
           {| prediction :=
                if negb (Qle_bool r1 (1 # 2))
                then "High Risk" else "Low Risk";
              riskScore := r2;
              factors := [];
              recommendations := None |};
         createdAt := now - i * 24 * 60 * 60 * 1000;
         user := userId |}.

(** [parseInt(request.query.page) || 1], line 138. *)
Definition page_number (request : Request) : JS.number :=
  JS.or_default (JS.parseInt (query_page request)) 1.

(** [parseInt(request.query.limit) || 10], line 139. *)
Definition limit_number (request : Request) : JS.number :=
  JS.or_default (JS.parseInt (query_limit request)) 10.

(** [(page - 1) * limit], line 140. *)
Definition skip_number (request : Request) : JS.number :=
  JS.mul (JS.sub (page_number request) 1) (limit_number request).

(** The page and the limit as integers, when they are finite. *)
Definition page_of (request : Request) : Z :=
  JS.integer (page_number request).

Definition limit_of (request : Request) : Z :=
  JS.integer (limit_number request).

Definition getPredictionHistory (request : Request)
  : World -> Response * World :=
  answer
    (let userId := credentials_id request in
     let page := page_number request in
     let limit := limit_number request in
     let skip := JS.mul (JS.sub page 1) limit in
     if disconnected then
       mockPredictions <- mapM (mock_prediction userId) [0; 1; 2; 3; 4] ;;
       ret {| code := 200; status := "success"; message := None;
              data :=
                Some (History mockPredictions
                        {| total := Z.of_nat (length mockPredictions);
                           page := 1; limit := 10; pages := 1 |}) |}
     else
       predictions <- find_sorted userId skip limit ;;
       total <- countDocuments userId ;;
       ret {| code := 200; status := "success"; message := None;
              data :=
                Some (History predictions
                        {| total := total; page := page; limit := limit;
                           pages := JS.ceil_quotient total limit |}) |})
    internal_error.

(** *** getPredictionById, lines 217-305 *)

(** Lines 228-231 and 318-321: the identifiers the mock paths refuse. *)
Definition refused (predictionId : string) : bool :=
  negb (JS.startsWith predictionId "mock-")
  && negb (String.eqb predictionId sentinel_id).

Definition getPredictionById (request : Request)
  : World -> Response * World :=
  answer
    (let predictionId := params_id request in
     let userId := credentials_id request in
     if disconnected then
       if refused predictionId then ret not_found
       else
         now <- Date_now ;;
         let mockPrediction :=
           {| _id := predictionId; inputData := canned_inputData;
              result := canned_result; createdAt := now;
              user := userId |} in
         ret {| code := 200; status := "success"; message := None;
                data := Some (Single mockPrediction) |}
     else
       found <- findOne predictionId userId ;;
       match found with
       | None => ret not_found
       | Some doc =>
           ret {| code := 200; status := "success"; message := None;
                  data := Some (Single doc) |}
       end)
    internal_error.

(** *** deletePrediction, lines 308-368 *)

Definition deletePrediction (request : Request)
  : World -> Response * World :=
  answer
    (let predictionId := params_id request in
     let userId := credentials_id request in
     if disconnected then
       if refused predictionId then ret not_found
       else
         ret {| code := 200; status := "success";
                message :=
                  Some "Prediction deleted successfully (MOCK - No DB)";
                data := None |}
     else
       found <- findOneAndDelete predictionId userId ;;
       match found with
       | None =>
           ret {| code := 404; status := "error";
                  message :=
                    Some "Prediction not found or you don't have permission to delete it";
                  data := None |}
       | Some _ =>
           ret {| code := 200; status := "success";
                  message := Some "Prediction deleted successfully";
                  data := None |}
       end)
    internal_error.

End Controller.

(* ================================================================== *)
(** ** Vocabulary of the statements *)
(* ================================================================== *)

(** The marker of degraded mode. *)
Definition marker : string := "(MOCK - No DB)".

(** The response carries a message that contains the marker. *)
Definition marked (r : Response) : Prop :=
  exists m, message r = Some m /\ JS.includes m marker = true.

(** The identifiers the mock lookup and the mock delete accept. *)
Definition accepted (id : string) : Prop :=
  JS.startsWith id "mock-" = true \/ id = sentinel_id.

(** The store fails none of the operations sent to it. *)
Definition store_healthy (env : Env) : Prop :=
  forall op, storeError env op = None.

(** No two documents of the collection share an identifier. *)
Definition unique_ids (w : World) : Prop :=
  NoDup (map _id (collection w)).

(** The identifier mongoose mints next is not in the collection. *)
Definition fresh_id (env : Env) (w : World) : Prop :=
  ~ In (objectId env (minted w)) (map _id (collection w)).

(** The inference collaborator fails on [input]: [makePrediction] throws,
    or [getRecommendations] throws on what it returned. *)
Definition inference_fails (env : Env) (input : JS.body) : Prop :=
  match makePrediction env input with
  | Throws _ => True
  | Returns r =>
      match getRecommendations env r with
      | Throws _ => True
      | Returns _ => False
      end
  end.

(** The payload passes the schema. *)
Definition valid (coerceNumber : string -> option Q) (p : JS.body) : Prop :=
  Joi.error_of (Joi.validate coerceNumber predictionValidation p) = None.

(** The required and the optional keys of the schema. *)
Definition required_fields : list string :=
  ["gender"; "age"; "heartDisease"; "smokingHistory"; "bmi"].

Definition optional_fields : list string :=
  ["hypertension"; "hbA1cLevel"; "bloodGlucoseLevel"].

(** What a rule takes for a value: a string among the allowed ones; a
    number between -(2^53 - 1) and 2^53 - 1, or a string Joi reads as
    one; a boolean, or a string that spells one whatever the case of its
    letters. *)
Definition acceptable (coerceNumber : string -> option Q) (t : Joi.type)
    (v : JS.value) : Prop :=
  match t, v with
  | Joi.string_valid allowed, JS.Str s => In s allowed
  | Joi.number, JS.Num q =>
      (- inject_Z (2 ^ 53 - 1) <= q)%Q /\ (q <= inject_Z (2 ^ 53 - 1))%Q
  | Joi.number, JS.Str s =>
      exists q, coerceNumber s = Some q
                /\ (- inject_Z (2 ^ 53 - 1) <= q)%Q
                /\ (q <= inject_Z (2 ^ 53 - 1))%Q
  | Joi.boolean, JS.Bool _ => True
  | Joi.boolean, JS.Str s =>
      JS.toLowerCase s = "true" \/ JS.toLowerCase s = "false"
  | _, _ => False
  end.

(** The object satisfies the rule of key [k]: the key is there and the
    rule takes its value, or the key is missing and optional. *)
Definition satisfies (coerceNumber : string -> option Q) (p : JS.object)
    (k : Joi.key) : Prop :=
  match JS.own (Joi.name k) p with
  | None => Joi.required k = false
  | Some v => acceptable coerceNumber (Joi.rule k) v
  end.

(** The result of the fallback on the draws [r1] and [r2]. *)
Definition fallback_result (StringToNumber : string -> option Q)
    (input : JS.body) (r1 r2 : Q) : PredictionResult :=
  {| prediction :=
       if negb (Qle_bool r1 (1 # 2)) then "High Risk" else "Low Risk";
     riskScore := r2;
     factors := threshold_factors StringToNumber input;
     recommendations := Some static_recommendations |}.

(** The label [l] of a measurement against its threshold [t]: [above]
    when a number is greater than [t], [below] when it is not and when
    the key is missing; a string is compared as the number JavaScript
    reads it as, and is [below] when it reads as none. *)
Definition threshold_label (StringToNumber : string -> option Q)
    (v : option JS.value) (t : Q) (above below l : string) : Prop :=
  match v with
  | None => l = below
  | Some (JS.Num q) =>
      ((t < q)%Q /\ l = above) \/ ((q <= t)%Q /\ l = below)
  | Some (JS.Str s) =>
      match StringToNumber s with
      | Some q => ((t < q)%Q /\ l = above) \/ ((q <= t)%Q /\ l = below)
      | None => l = below
      end
  | Some _ => True
  end.

(** The label [l] of a flag: "Present" for [true], "Absent" for [false]
    and for a missing key.  A string that spells a boolean is a string
    that is not empty: "Present". *)
Definition flag_label (v : option JS.value) (l : string) : Prop :=
  match v with
  | None => l = "Absent"
  | Some (JS.Bool true) => l = "Present"
  | Some (JS.Bool false) => l = "Absent"
  | Some (JS.Str s) => s <> "" -> l = "Present"
  | Some _ => True
  end.

(** The error types a rule can report on a value it refuses. *)
Definition codes_of (t : Joi.type) : list Joi.code :=
  match t with
  | Joi.string_valid allowed => [Joi.any_only allowed]
  | Joi.number => [Joi.number_base; Joi.number_infinity; Joi.number_unsafe]
  | Joi.boolean => [Joi.boolean_base]
  end.

(** What the handler makes of the error [c] on key [k]: the message
    names the key, carries the hint when the key is optional and is
    Joi's own when the key is required. *)
Definition message_ok (k : Joi.key) (c : Joi.code) : bool :=
  let e := {| Joi.label := Joi.name k; Joi.reason := c |} in
  JS.includes (error_message e) (Joi.name k)
  && JS.startsWith (error_message e)
       (String.append Joi.dquote (String.append (Joi.name k) Joi.dquote))
  && (if existsb (String.eqb (Joi.name k)) optional_fields
      then String.eqb (error_message e)
             (String.append (Joi.message e) optional_hint)
      else String.eqb (error_message e) (Joi.message e))
  && negb (existsb (String.eqb (Joi.name k)) optional_fields
           && existsb (String.eqb (Joi.name k)) required_fields).

(** The message for a payload that is not an object. *)
Definition not_an_object_message : string :=
  Joi.message {| Joi.label := "value"; Joi.reason := Joi.object_base |}.

(** The ASCII letters. *)
Definition ascii_letter (c : ascii) : bool :=
  let n := nat_of_ascii c in
  (Nat.leb 65 n && Nat.leb n 90)%bool || (Nat.leb 97 n && Nat.leb n 122)%bool.


(** The names of the keys the schema knows. *)
Definition schema_names : list string := map Joi.name predictionValidation.

(** Every key of the object is one the schema knows. *)
Definition known_keys (p : JS.object) : Prop :=
  Forall (fun k => In k schema_names) (JS.keys p).

(** The service's result once [getRecommendations] has been assigned to
    its [recommendations], lines 56-60. *)
Definition with_recommendations (r : PredictionResult)
    (recs : Recommendations) : PredictionResult :=
  {| prediction := prediction r; riskScore := riskScore r;
     factors := factors r; recommendations := Some recs |}.


(** The uniform envelope: a success carries 200 or 201, an error carries
    400, 404 or 500 together with a message and no data. *)
Definition envelope (r : Response) : Prop :=
  (status r = "success" /\ (code r = 200 \/ code r = 201))
  \/ (status r = "error"
      /\ (code r = 400 \/ code r = 404 \/ code r = 500)
      /\ message r <> None /\ data r = None).

(** The records a List response carries. *)
Definition items (r : Response) : list Prediction :=
  match data r with
  | Some (History predictions _) => predictions
  | _ => []
  end.

(** The total a List response reports. *)
Definition reported_total (r : Response) : option Z :=
  match data r with
  | Some (History _ pagination) => Some (total pagination)
  | _ => None
  end.

(** A draw of [Math.random]: a double of [0, 1), hence at most
    1 - 2^-53. *)
Definition random_double (r : Q) : Prop :=
  (0 <= r)%Q /\ (r <= 1 - (1 # 9007199254740992))%Q.

(** A vital sign of a mock record lies between [lo] and [hi]. *)
Definition vital_between (lo hi : Z) (v : option JS.value) : Prop :=
  exists n : Z, v = Some (JS.Num (inject_Z n)) /\ lo <= n <= hi.

(** What every record of the mock history looks like: it names the
    requester, its identifier is one the mock lookup accepts, its vital
    signs lie in the ranges of lines 153-158, and its result is a label
    with a score below 1, without factors or recommendations. *)
Definition plausible_mock_record (owner : string) (d : Prediction) : Prop :=
  user d = owner
  /\ accepted (_id d)
  /\ (exists o, inputData d = JS.Fields o
                /\ map fst o
                   = ["glucose"; "bloodPressure"; "skinThickness";
                      "insulin"; "bmi"; "age"])
  /\ vital_between 110 179 (JS.get "glucose" (inputData d))
  /\ vital_between 70 109 (JS.get "bloodPressure" (inputData d))
  /\ vital_between 20 34 (JS.get "skinThickness" (inputData d))
  /\ vital_between 50 149 (JS.get "insulin" (inputData d))
  /\ vital_between 25 64 (JS.get "age" (inputData d))
  /\ (exists q, JS.get "bmi" (inputData d) = Some (JS.Num q)
                /\ (22 <= q)%Q /\ (q <= 32)%Q)
  /\ (prediction (result d) = "High Risk"
      \/ prediction (result d) = "Low Risk")
  /\ (0 <= riskScore (result d))%Q /\ (riskScore (result d) < 1)%Q
  /\ factors (result d) = []
  /\ recommendations (result d) = None.

(* ================================================================== *)
(** ** Sample requests and surroundings *)
(* ================================================================== *)

Module Sample.

(** No string reads as a number. *)
Definition no_number (s : string) : option Q := None.

(** A store that is down, an inference service that is down, a clock
    that ticks by one and a constant random source. *)
Definition env_down : Env :=
  {| readyState := 0;
     clock := fun k => 1700000000000 + Z.of_nat k;
     entropy := fun _ => 1 # 4;
     objectId := fun k => String.append "id-" (JS.string_of_Z (Z.of_nat k));
     makePrediction := fun _ => Throws "model not loaded";
     getRecommendations := fun _ => Throws "model not loaded";
     storeError := fun _ => None |}.

(** The same with the store connected. *)
Definition env_up : Env :=
  {| readyState := 1;
     clock := clock env_down;
     entropy := entropy env_down;
     objectId := objectId env_down;
     makePrediction := makePrediction env_down;
     getRecommendations := getRecommendations env_down;
     storeError := storeError env_down |}.

(** The same with a store that fails every count. *)
Definition env_count_fails : Env :=
  {| readyState := 1;
     clock := clock env_down;
     entropy := entropy env_down;
     objectId := objectId env_down;
     makePrediction := makePrediction env_down;
     getRecommendations := getRecommendations env_down;
     storeError :=
       fun op =>
         match op with
         | CountDocuments _ => Some "connection reset"
         | _ => None
         end |}.

(** An inference service that reports what it was given for
    [hypertension], store down. *)
Definition env_echo : Env :=
  {| readyState := 0;
     clock := clock env_down;
     entropy := entropy env_down;
     objectId := objectId env_down;
     makePrediction :=
       fun input =>
         Returns
           {| prediction := "Low Risk"; riskScore := 1 # 10;
              factors :=
                [ ("hypertension",
                   match JS.get "hypertension" input with
                   | Some (JS.Bool true) => "Present"
                   | Some (JS.Bool false) => "Absent"
                   | Some _ => "not a boolean"
                   | None => "undefined"
                   end) ];
              recommendations := None |};
     getRecommendations := fun _ => Returns static_recommendations;
     storeError := fun _ => None |}.

Definition empty_world : World :=
  {| ticks := 0; draws := 0; minted := 0; collection := []; calls := [] |}.

(** A valid payload that omits the optional keys. *)
Definition payload_without_hypertension : JS.object :=
  [ ("gender", JS.Str "Male"); ("age", JS.Num 45);
    ("heartDisease", JS.Bool false); ("smokingHistory", JS.Str "never");
    ("bmi", JS.Num 30) ].

(** The same without [bmi], a required key. *)
Definition payload_without_bmi : JS.object :=
  [ ("gender", JS.Str "Male"); ("age", JS.Num 45);
    ("heartDisease", JS.Bool false); ("smokingHistory", JS.Str "never") ].

(** A valid payload that gives [hypertension] as the string "false". *)
Definition payload_with_string_flag : JS.object :=
  ("hypertension", JS.Str "false") :: payload_without_hypertension.

(** A payload whose [hypertension], an optional key, is [null]. *)
Definition payload_with_null_flag : JS.object :=
  ("hypertension", JS.Null) :: payload_without_hypertension.

(** A valid payload with every key, as numbers and booleans. *)
Definition payload_with_every_key : JS.object :=
  [ ("gender", JS.Str "Female"); ("age", JS.Num 61);
    ("hypertension", JS.Bool true); ("heartDisease", JS.Bool false);
    ("smokingHistory", JS.Str "former"); ("bmi", JS.Num (49 # 2));
    ("hbA1cLevel", JS.Num 7); ("bloodGlucoseLevel", JS.Num 140) ].


Definition request_with (who : string) (p : JS.body) (id : string)
    (page_q limit_q : option string) : Request :=
  {| payload := p; query_page := page_q; query_limit := limit_q;
     params_id := id; credentials_id := who |}.

Definition request_of (who : string) (p : JS.object) (id : string)
    (page_q limit_q : option string) : Request :=
  request_with who p id page_q limit_q.

Definition alice_creates : Request :=
  request_of "alice" payload_without_hypertension "" None None.

Definition alice_sends (p : JS.body) : Request :=
  request_with "alice" p "" None None.

Definition alice_looks_up (id : string) : Request :=
  request_of "alice" [] id None None.

Definition alice_lists (page_q limit_q : option string) : Request :=
  request_of "alice" [] "" page_q limit_q.

Definition alice_deletes (id : string) : Request :=
  request_of "alice" [] id None None.

Definition bob_looks_up (id : string) : Request :=
  request_of "bob" [] id None None.

(** Three stored records: two of alice's, one of bob's in between. *)
Definition stored (id owner : string) (at_ms : Z) : Prediction :=
  {| _id := id; user := owner; inputData := payload_without_hypertension;
     result := canned_result; createdAt := at_ms |}.

Definition busy_world : World :=
  {| ticks := 0; draws := 0; minted := 3;
     collection :=
       [ stored "a1" "alice" 100; stored "b1" "bob" 200;
         stored "a2" "alice" 300 ];
     calls := [] |}.

End Sample.

(* ================================================================== *)
(** ** Properties *)
(* ================================================================== *)

(** *** Arithmetic of the pagination *)

Lemma or_default_nonzero (x : JS.number) (d : Z) :
  d <> 0 -> JS.or_default x d <> JS.Fin 0 /\ JS.or_default x d <> JS.NaN.
Proof.
  intros Hd. unfold JS.or_default.
  destruct x as [|z|s]; try (split; congruence).
  destruct z; split; congruence.
Qed.

Lemma or_default_falsy (x : JS.number) (d : Z) :
  x = JS.NaN \/ x = JS.Fin 0 -> JS.or_default x d = JS.Fin d.
Proof. intros [-> | ->]; reflexivity. Qed.

Lemma or_default_kept (x : JS.number) (d : Z) :
  x <> JS.NaN -> x <> JS.Fin 0 -> JS.or_default x d = x.
Proof.
  intros Hnan H0. destruct x as [|z|s]; try reflexivity; try congruence.
  destruct z; try reflexivity; congruence.
Qed.

Lemma ceil_div_bounds (a b : Z) :
  0 < b -> (JS.ceil_div a b - 1) * b < a <= JS.ceil_div a b * b.
Proof.
  intros Hb. unfold JS.ceil_div.
  pose proof (Z.div_mod (- a) b ltac:(lia)) as Hdm.
  pose proof (Z.mod_pos_bound (- a) b Hb) as Hmod.
  nia.
Qed.

(** A finite number of at least 1 is the integer it holds. *)
Lemma integer_finite (x : JS.number) :
  1 <= JS.integer x -> x = JS.Fin (JS.integer x).
Proof. destruct x; simpl; intros H; [lia | reflexivity | lia]. Qed.

Lemma round_half_even_lower (p d : Z) : p / d <= JS.round_half_even p d.
Proof.
  unfold JS.round_half_even.
  destruct (2 * (p mod d) <? d); [lia|].
  destruct (d <? 2 * (p mod d)); [lia|].
  destruct (Z.even (p / d)); lia.
Qed.

(** What rounding does to an integer that is not negative: nothing below
    2^53; from there on the result is at least 2^53, or infinite. *)
Lemma round_double_nonneg (z : Z) :
  0 <= z ->
  (z < 2 ^ 53 /\ JS.round_double z = JS.Fin z)
  \/ (2 ^ 53 <= z
      /\ ((exists m, JS.round_double z = JS.Fin m /\ 2 ^ 53 <= m)
          \/ JS.round_double z = JS.Inf true)).
Proof.
  intros Hz. unfold JS.round_double. rewrite (Z.abs_eq z Hz).
  destruct (Z.ltb_spec z (2 ^ 53)) as [Hsmall | Hbig]; [left; tauto|].
  right. split; [exact Hbig|].
  assert (Hpos : 0 < z) by (pose proof (Z.pow_pos_nonneg 2 53); lia).
  set (e := Z.log2 z - 52).
  assert (Hlog : 53 <= Z.log2 z).
  { rewrite <- (Z.log2_pow2 53) by lia. apply Z.log2_le_mono. exact Hbig. }
  assert (He : 1 <= e) by (unfold e; lia).
  assert (Hpow : 0 < 2 ^ e) by (apply Z.pow_pos_nonneg; lia).
  assert (Hq : 2 ^ 52 <= z / 2 ^ e).
  { apply Z.div_le_lower_bound; [exact Hpow|].
    rewrite <- Z.pow_add_r by lia.
    replace (e + 52) with (Z.log2 z) by (unfold e; lia).
    apply Z.log2_spec. exact Hpos. }
  pose proof (round_half_even_lower z (2 ^ e)) as Hr.
  set (r := JS.round_half_even z (2 ^ e)) in *.
  assert (Hm : 2 ^ 53 <= r * 2 ^ e).
  { replace (2 ^ 53) with (2 ^ 52 * 2 ^ 1) by reflexivity.
    assert (H2 : 2 ^ 1 <= 2 ^ e) by (apply Z.pow_le_mono_r; lia).
    assert (H52 : 0 < 2 ^ 52) by reflexivity.
    nia. }
  destruct (2 ^ 1024 <=? r * 2 ^ e).
  - right. destruct (Z.ltb_spec 0 z); [reflexivity | lia].
  - left. exists (r * 2 ^ e). split; [|exact Hm].
    rewrite (Z.sgn_pos z Hpos). f_equal. lia.
Qed.

(** The skip of a page and a limit of at least 1 is one the store takes:
    it is the product [(p - 1) * l] itself below 2^53, and in any case
    not below a count [n] of records that the product is not below. *)
Lemma skip_of_page (p l : Z) :
  1 <= p -> 1 <= l ->
  let skip := JS.mul (JS.sub (JS.Fin p) 1) (JS.Fin l) in
  bad_skip skip = false
  /\ ((p - 1) * l < 2 ^ 53 -> skip = JS.Fin ((p - 1) * l))
  /\ (forall n, n < 2 ^ 53 -> n <= (p - 1) * l ->
                skip = JS.Inf true \/ exists s, skip = JS.Fin s /\ n <= s).
Proof.
  intros Hp Hl. cbv zeta. unfold JS.sub.
  assert (H53 : 0 < 2 ^ 53) by reflexivity.
  assert (Hinf : JS.mul (JS.Inf true) (JS.Fin l) = JS.Inf true).
  { simpl. destruct (Z.eqb_spec l 0); [lia|].
    destruct (Z.ltb_spec 0 l); [reflexivity | lia]. }
  assert (Hfin : forall a, 0 <= a ->
    bad_skip (JS.mul (JS.Fin a) (JS.Fin l)) = false
    /\ (a * l < 2 ^ 53 -> JS.mul (JS.Fin a) (JS.Fin l) = JS.Fin (a * l))
    /\ (forall n, n < 2 ^ 53 -> n <= a * l ->
          JS.mul (JS.Fin a) (JS.Fin l) = JS.Inf true
          \/ exists s, JS.mul (JS.Fin a) (JS.Fin l) = JS.Fin s /\ n <= s)).
  { intros a Ha. simpl.
    destruct (round_double_nonneg (a * l) ltac:(nia))
      as [[Hsmall ->] | [Hbig [(m & -> & Hm) | ->]]].
    - split; [simpl; apply Z.ltb_ge; nia|].
      split; [reflexivity|]. intros n _ Hn. right. exists (a * l). tauto.
    - split; [simpl; apply Z.ltb_ge; lia|].
      split; [lia|]. intros n Hn _. right. exists m. split; [reflexivity | lia].
    - split; [reflexivity|]. split; [lia|]. intros n _ _. left. reflexivity. }
  destruct (round_double_nonneg (p - 1) ltac:(lia))
    as [[Hsmall ->] | [Hbig [(m & -> & Hm) | ->]]].
  - apply Hfin. lia.
  - destruct (Hfin m ltac:(lia)) as (Hok & _ & Hlow).
    split; [exact Hok|]. split; [nia|].
    intros n Hn _. apply Hlow; [exact Hn | nia].
  - rewrite Hinf. split; [reflexivity|]. split; [nia|].
    intros n _ _. left. reflexivity.
Qed.

(** A string that starts with a letter is not a number for [parseInt]. *)
Lemma parseInt_word (c : ascii) (s : string) :
  ascii_letter c = true -> JS.parseInt (Some (String c s)) = JS.NaN.
Proof.
  intros Hc.
  destruct c as [[] [] [] [] [] [] [] []]; try discriminate Hc;
    destruct s as [|c2 [|c3 s3]]; reflexivity.
Qed.

Lemma disconnected_true (env : Env) :
  readyState env <> 1 -> disconnected env = true.
Proof.
  intros H. unfold disconnected.
  destruct (Z.eqb_spec (readyState env) 1); [contradiction | reflexivity].
Qed.

Lemma disconnected_false (env : Env) :
  readyState env = 1 -> disconnected env = false.
Proof. intros H. unfold disconnected. rewrite H. reflexivity. Qed.
(** *** The mock history *)

(** The five mock records, with the readings of the clock written out. *)
Lemma mock_history_unfold (env : Env) (request : Request) (w : World) :
  readyState env <> 1 ->
  exists d0 d1 d2 d3 d4 w',
    getPredictionHistory env request w
    = ({| code := 200; status := "success"; message := None;
          data :=
            Some (History [d0; d1; d2; d3; d4]
                    {| total := 5; page := 1; limit := 10; pages := 1 |}) |},
       w')
    /\ createdAt d0 = clock env (1 + ticks w)%nat - 0 * day_ms
    /\ createdAt d1 = clock env (3 + ticks w)%nat - 1 * day_ms
    /\ createdAt d2 = clock env (5 + ticks w)%nat - 2 * day_ms
    /\ createdAt d3 = clock env (7 + ticks w)%nat - 3 * day_ms
    /\ createdAt d4 = clock env (9 + ticks w)%nat - 4 * day_ms
    /\ Forall (fun d => user d = credentials_id request) [d0; d1; d2; d3; d4]
    /\ collection w' = collection w
    /\ calls w' = calls w.
Proof.
  intros Hdown.
  unfold getPredictionHistory, answer.
  rewrite (disconnected_true env Hdown).
  cbn -[JS.string_of_Z String.append vital mock_bmi Z.mul Z.sub Z.add].
  do 6 eexists. split; [reflexivity|].
  cbn -[Z.mul Z.sub Z.add].
  unfold day_ms.
  repeat split; try lia; repeat constructor.
Qed.

(** C4.  When the store is unavailable, the List handler answers 200 with
    exactly 5 synthesized records and the pagination
    [{total: 5, page: 1, limit: 10, pages: 1}], whatever [page] and
    [limit] the query asks for.  Record [i] is [i] days old: its
    [createdAt] is the reading of the clock at its creation less [i]
    days, so that, the clock standing at [now] during the request, record
    [i] is stamped [now - i] days and consecutive records are one day
    apart, most recent first.  No operation reaches the store. *)
Theorem getPredictionHistory_mock :
  forall (env : Env) (request : Request) (w : World),
    readyState env <> 1 ->
    exists predictions w',
      getPredictionHistory env request w
      = ({| code := 200; status := "success"; message := None;
            data :=
              Some (History predictions
                      {| total := 5; page := 1; limit := 10; pages := 1 |}) |},
         w')
      /\ length predictions = 5%nat
      /\ (forall i d,
            nth_error predictions i = Some d ->
            createdAt d
            = clock env (ticks w + 2 * i + 1)%nat - Z.of_nat i * day_ms)
      /\ (forall now,
            (forall k, (ticks w <= k < ticks w + 10)%nat -> clock env k = now) ->
            (forall i d,
               nth_error predictions i = Some d ->
               createdAt d = now - Z.of_nat i * day_ms)
            /\ (forall i a b,
                  nth_error predictions i = Some a ->
                  nth_error predictions (S i) = Some b ->
                  createdAt a - createdAt b = day_ms))
      /\ collection w' = collection w
      /\ calls w' = calls w.
Proof.
  intros env request w Hdown.
  destruct (mock_history_unfold env request w Hdown)
    as (d0 & d1 & d2 & d3 & d4 & w' & Hrun & H0 & H1 & H2 & H3 & H4
        & _ & Hcoll & Hcalls).
  exists [d0; d1; d2; d3; d4], w'.
  assert (Hstamp : forall i d,
             nth_error [d0; d1; d2; d3; d4] i = Some d ->
             createdAt d
             = clock env (ticks w + 2 * i + 1)%nat - Z.of_nat i * day_ms).
  { intros i d Hi.
    do 5 (destruct i as [|i];
          [ simpl in Hi; injection Hi as <-;
            first [rewrite H0 | rewrite H1 | rewrite H2 | rewrite H3
                  | rewrite H4];
            match goal with
            | |- clock env ?a - _ = clock env ?b - _ =>
                replace b with a by lia
            end; simpl Z.of_nat; lia | ]).
    destruct i; discriminate. }
  assert (Hlt : forall i (d : Prediction),
             nth_error [d0; d1; d2; d3; d4] i = Some d -> (i < 5)%nat).
  { intros i d Hi. apply (nth_error_Some [d0; d1; d2; d3; d4] i). congruence. }
  split; [exact Hrun|].
  split; [reflexivity|].
  split; [exact Hstamp|].
  split; [|split; assumption].
  intros now Hfrozen. split.
  - intros i d Hi. rewrite (Hstamp i d Hi).
    rewrite (Hfrozen (ticks w + 2 * i + 1)%nat); [reflexivity|].
    pose proof (Hlt i d Hi). lia.
  - intros i a b Ha Hb.
    rewrite (Hstamp i a Ha), (Hstamp (S i) b Hb).
    pose proof (Hlt (S i) b Hb).
    rewrite !Hfrozen by lia. lia.
Qed.


(** *** The real history *)

(** What the List handler does against a connected store. *)
Lemma real_history_unfold (env : Env) (request : Request) (w : World) :
  readyState env = 1 ->
  let owner := credentials_id request in
  let skip := skip_number request in
  let find_op := Find owner skip (limit_number request) in
  let count_op := CountDocuments owner in
  getPredictionHistory env request w
  = match storeError env find_op with
    | Some msg => (internal_error msg, record_call find_op w)
    | None =>
        if bad_skip skip
        then (internal_error "Skip value must be non-negative",
              record_call find_op w)
        else
          match storeError env count_op with
          | Some msg =>
              (internal_error msg,
               record_call count_op (record_call find_op w))
          | None =>
              let total :=
                Z.of_nat (length (filter (owned_by owner) (collection w))) in
              ({| code := 200; status := "success"; message := None;
                  data :=
                    Some (History
                            (limit_docs (limit_number request)
                               (skip_docs skip
                                  (sort_desc
                                     (filter (owned_by owner)
                                        (collection w)))))
                            {| total := total;
                               page := page_number request;
                               limit := limit_number request;
                               pages :=
                                 JS.ceil_quotient total
                                   (limit_number request) |}) |},
               record_call count_op (record_call find_op w))
          end
    end.
Proof.
  intros Hup owner skip find_op count_op.
  unfold getPredictionHistory, answer.
  rewrite (disconnected_false env Hup).
  unfold find_sorted, countDocuments, store, bind, ret.
  fold (skip_number request). fold owner skip find_op count_op.
  destruct (storeError env find_op); [reflexivity|].
  simpl. fold skip.
  destruct (bad_skip skip); [reflexivity|].
  destruct (storeError env count_op); reflexivity.
Qed.

(** The same for a page and a limit that are finite and at least 1, against
    a store that fails no operation. *)
Lemma real_history_page (env : Env) (request : Request) (w : World)
    (p l : Z) :
  readyState env = 1 ->
  store_healthy env ->
  page_number request = JS.Fin p ->
  limit_number request = JS.Fin l ->
  1 <= p -> 1 <= l ->
  let owner := credentials_id request in
  let mine := sort_desc (filter (owned_by owner) (collection w)) in
  getPredictionHistory env request w
  = ({| code := 200; status := "success"; message := None;
        data :=
          Some (History
                  (firstn (Z.to_nat l) (skip_docs (skip_number request) mine))
                  {| total :=
                       Z.of_nat
                         (length (filter (owned_by owner) (collection w)));
                     page := p; limit := l;
                     pages :=
                       JS.ceil_div
                         (Z.of_nat
                            (length (filter (owned_by owner) (collection w))))
                         l |}) |},
     record_call (CountDocuments owner)
       (record_call (Find owner (skip_number request) l) w)).
Proof.
  intros Hup Hhealthy Hpage Hlimit Hp Hl owner mine.
  rewrite (real_history_unfold env request w Hup). cbv zeta.
  rewrite !Hhealthy. fold owner mine.
  destruct (skip_of_page p l Hp Hl) as (Hok & _).
  assert (Hskip : skip_number request
                  = JS.mul (JS.sub (JS.Fin p) 1) (JS.Fin l))
    by (unfold skip_number; rewrite Hpage, Hlimit; reflexivity).
  rewrite Hskip in *. rewrite Hok, Hpage, Hlimit.
  unfold limit_docs, JS.ceil_quotient.
  destruct (Z.eqb_spec l 0) as [H0 | _]; [lia|].
  rewrite (Z.abs_eq l) by lia.
  destruct l; try lia. reflexivity.
Qed.

(** C10.  [parseInt] is NaN on an absent parameter, on an empty one and
    on one that starts with a letter.  Whenever [parseInt] gives NaN or 0,
    [page] is 1 and [limit] is 10, and otherwise they are what [parseInt]
    gave; hence neither is ever 0 or NaN.  Every List response reports a
    limit that is neither 0 nor NaN, and on the real path its [pages] is
    [ceil(total / limit)] for that limit: a finite number, not the
    infinity or the NaN of a division by zero. *)
Theorem page_and_limit_defaults :
  forall (env : Env) (request : Request) (w : World),
    JS.parseInt None = JS.NaN
    /\ JS.parseInt (Some "") = JS.NaN
    /\ (forall c s, ascii_letter c = true ->
                    JS.parseInt (Some (String c s)) = JS.NaN)
    /\ (JS.parseInt (query_page request) = JS.NaN
        \/ JS.parseInt (query_page request) = JS.Fin 0 ->
        page_number request = JS.Fin 1)
    /\ (JS.parseInt (query_limit request) = JS.NaN
        \/ JS.parseInt (query_limit request) = JS.Fin 0 ->
        limit_number request = JS.Fin 10)
    /\ (query_page request = None -> page_number request = JS.Fin 1)
    /\ (query_limit request = None -> limit_number request = JS.Fin 10)
    /\ (JS.parseInt (query_page request) <> JS.NaN ->
        JS.parseInt (query_page request) <> JS.Fin 0 ->
        page_number request = JS.parseInt (query_page request))
    /\ (JS.parseInt (query_limit request) <> JS.NaN ->
        JS.parseInt (query_limit request) <> JS.Fin 0 ->
        limit_number request = JS.parseInt (query_limit request))
    /\ page_number request <> JS.Fin 0
    /\ page_number request <> JS.NaN
    /\ limit_number request <> JS.Fin 0
    /\ limit_number request <> JS.NaN
    /\ (forall predictions pagination,
          data (fst (getPredictionHistory env request w))
          = Some (History predictions pagination) ->
          limit pagination <> JS.Fin 0
          /\ limit pagination <> JS.NaN
          /\ (readyState env = 1 ->
              limit pagination = limit_number request
              /\ pages pagination
                 = JS.ceil_quotient (total pagination) (limit_number request)
              /\ exists n : Z, pages pagination = JS.Fin n)).
Proof.
  intros env request w.
  destruct (or_default_nonzero (JS.parseInt (query_page request)) 1
              ltac:(discriminate)) as [Hpage0 HpageNaN].
  destruct (or_default_nonzero (JS.parseInt (query_limit request)) 10
              ltac:(discriminate)) as [Hlimit0 HlimitNaN].
  fold (page_number request) in Hpage0, HpageNaN.
  fold (limit_number request) in Hlimit0, HlimitNaN.
  split; [reflexivity|].
  split; [reflexivity|].
  split; [exact parseInt_word|].
  split; [apply or_default_falsy|].
  split; [apply or_default_falsy|].
  split; [unfold page_number; intros ->; reflexivity|].
  split; [unfold limit_number; intros ->; reflexivity|].
  split; [apply or_default_kept|].
  split; [apply or_default_kept|].
  split; [exact Hpage0|]. split; [exact HpageNaN|].
  split; [exact Hlimit0|]. split; [exact HlimitNaN|].
  intros predictions pagination.
  destruct (Z.eq_dec (readyState env) 1) as [Hup | Hdown].
  - rewrite (real_history_unfold env request w Hup).
    destruct (storeError env _); [discriminate|].
    destruct (bad_skip _); [discriminate|].
    destruct (storeError env _); [discriminate|].
    simpl. intros H; inversion H; subst; clear H. simpl.
    split; [exact Hlimit0|]. split; [exact HlimitNaN|].
    intros _. split; [reflexivity|]. split; [reflexivity|].
    unfold JS.ceil_quotient.
    destruct (limit_number request) as [|l|s]; [congruence | | exists 0; reflexivity].
    destruct l; [congruence | eexists; reflexivity | eexists; reflexivity].
  - destruct (mock_history_unfold env request w Hdown)
      as (d0 & d1 & d2 & d3 & d4 & w' & -> & _).
    simpl. intros H; inversion H; subst; clear H. simpl.
    split; [discriminate|]. split; [discriminate | contradiction].
Qed.
(** *** The inner [try]/[catch] of Create *)

Section Create.

Variable StringToNumber : string -> option Q.
Variable coerceNumber : string -> option Q.
Variable env : Env.

Lemma fallback_run (input : JS.body) (w : World) :
  fallback StringToNumber env input w
  = (Returns (fallback_result StringToNumber input (entropy env (draws w))
                (entropy env (S (draws w)))),
     draw (draw w)).
Proof. reflexivity. Qed.

(** The inner [try] never throws, reads no clock and touches no store. *)
Lemma predict_returns (input : JS.body) (w : World) :
  exists res w',
    predict StringToNumber env input w = (Returns res, w')
    /\ ticks w' = ticks w /\ minted w' = minted w
    /\ collection w' = collection w /\ calls w' = calls w.
Proof.
  unfold predict, try_catch, bind, call, ret.
  destruct (makePrediction env input) as [r | msg].
  - destruct (getRecommendations env r) as [recs | msg].
    + eexists _, w. repeat split; reflexivity.
    + rewrite fallback_run. eexists _, _. repeat split; reflexivity.
  - rewrite fallback_run. eexists _, _. repeat split; reflexivity.
Qed.

(** When the inference fails, the result is the fallback's. *)
Lemma predict_fallback (input : JS.body) (w : World) :
  inference_fails env input ->
  predict StringToNumber env input w
  = (Returns (fallback_result StringToNumber input (entropy env (draws w))
                (entropy env (S (draws w)))),
     draw (draw w)).
Proof.
  unfold inference_fails, predict, try_catch, bind, call, ret.
  destruct (makePrediction env input) as [r | msg].
  - destruct (getRecommendations env r) as [recs | msg];
      [contradiction | intros _; apply fallback_run].
  - intros _. apply fallback_run.
Qed.

(** Create on a payload the schema refuses. *)
Lemma create_invalid (request : Request) (w : World) (e : Joi.error) :
  Joi.error_of
    (Joi.validate coerceNumber predictionValidation (payload request))
  = Some e ->
  createPrediction StringToNumber coerceNumber env request w
  = ({| code := 400; status := "error";
        message := Some (error_message e); data := None |}, w).
Proof.
  intros He. unfold createPrediction, answer. rewrite He. reflexivity.
Qed.

(** Create on a valid payload while the store is unavailable. *)
Lemma create_mock (request : Request) (w : World) :
  valid coerceNumber (payload request) ->
  readyState env <> 1 ->
  forall res w',
    predict StringToNumber env (payload request) w = (Returns res, w') ->
    createPrediction StringToNumber coerceNumber env request w
    = ({| code := 201; status := "success";
          message := Some "Prediction created successfully (MOCK - No DB)";
          data :=
            Some (Created
                    (String.append "mock-"
                       (JS.string_of_Z (clock env (ticks w'))))
                    (payload request) res
                    (clock env (S (ticks w')))) |},
       tick (tick w')).
Proof.
  intros Hvalid Hdown res w' Hrun.
  unfold createPrediction, answer. rewrite Hvalid.
  unfold bind. rewrite Hrun, (disconnected_true env Hdown).
  reflexivity.
Qed.

(** Create on a valid payload against a connected store. *)
Lemma create_real (request : Request) (w : World) :
  valid coerceNumber (payload request) ->
  readyState env = 1 ->
  forall res w',
    predict StringToNumber env (payload request) w = (Returns res, w') ->
    let doc :=
      {| _id := objectId env (minted w');
         user := credentials_id request;
         inputData := payload request; result := res;
         createdAt := clock env (ticks w') |} in
    let w1 := record_call (Save doc) (tick (mint w')) in
    createPrediction StringToNumber coerceNumber env request w
    = match storeError env (Save doc) with
      | Some msg => (internal_error msg, w1)
      | None =>
          ({| code := 201; status := "success";
              message := Some "Prediction created successfully";
              data :=
                Some (Created (_id doc) (payload request) res
                        (createdAt doc)) |},
           with_collection (collection w' ++ [doc]) w1)
      end.
Proof.
  intros Hvalid Hup res w' Hrun doc w1.
  unfold createPrediction, answer. rewrite Hvalid.
  unfold bind at 1. rewrite Hrun, (disconnected_false env Hup).
  unfold new_Prediction, save, store, bind, ret. fold doc.
  destruct (storeError env (Save doc)); reflexivity.
Qed.

End Create.

(** *** The mock lookup and the mock delete *)

Lemma refused_iff (id : string) : refused id = false <-> accepted id.
Proof.
  unfold refused, accepted.
  destruct (JS.startsWith id "mock-"); simpl.
  - split; [intros _; left; reflexivity | reflexivity].
  - destruct (String.eqb_spec id sentinel_id) as [-> | Hne]; simpl.
    + split; [intros _; right; reflexivity | reflexivity].
    + split; [discriminate | intros [H | H]; [discriminate | contradiction]].
Qed.

Lemma refused_true_iff (id : string) : refused id = true <-> ~ accepted id.
Proof.
  rewrite <- refused_iff. destruct (refused id); split; congruence.
Qed.

Lemma mock_lookup_refused (env : Env) (request : Request) (w : World) :
  readyState env <> 1 ->
  refused (params_id request) = true ->
  getPredictionById env request w = (not_found, w).
Proof.
  intros Hdown Hid. unfold getPredictionById, answer.
  rewrite (disconnected_true env Hdown), Hid. reflexivity.
Qed.

Lemma mock_lookup_accepted (env : Env) (request : Request) (w : World) :
  readyState env <> 1 ->
  refused (params_id request) = false ->
  getPredictionById env request w
  = ({| code := 200; status := "success"; message := None;
        data :=
          Some (Single
                  {| _id := params_id request;
                     user := credentials_id request;
                     inputData := canned_inputData;
                     result := canned_result;
                     createdAt := clock env (ticks w) |}) |},
     tick w).
Proof.
  intros Hdown Hid. unfold getPredictionById, answer.
  rewrite (disconnected_true env Hdown), Hid. reflexivity.
Qed.

Lemma mock_delete_refused (env : Env) (request : Request) (w : World) :
  readyState env <> 1 ->
  refused (params_id request) = true ->
  deletePrediction env request w = (not_found, w).
Proof.
  intros Hdown Hid. unfold deletePrediction, answer.
  rewrite (disconnected_true env Hdown), Hid. reflexivity.
Qed.

Lemma mock_delete_accepted (env : Env) (request : Request) (w : World) :
  readyState env <> 1 ->
  refused (params_id request) = false ->
  deletePrediction env request w
  = ({| code := 200; status := "success";
        message := Some "Prediction deleted successfully (MOCK - No DB)";
        data := None |},
     w).
Proof.
  intros Hdown Hid. unfold deletePrediction, answer.
  rewrite (disconnected_true env Hdown), Hid. reflexivity.
Qed.

(** C5, amended.  When the store is unavailable, GetByOne and Delete
    answer 200 exactly for the identifiers that start with "mock-" or
    equal the sentinel, and 404 "Prediction not found" for the others.
    On acceptance GetByOne returns a record whose [inputData] and
    [result] are the same canned values for every accepted identifier,
    while its [_id] is the requested identifier, its [user] the requester
    and its [createdAt] the time of the request; Delete acknowledges
    success and changes no state. *)
Theorem mock_lookup_and_delete :
  forall (env : Env) (request : Request) (w : World),
    readyState env <> 1 ->
    (code (fst (getPredictionById env request w)) = 200
     <-> accepted (params_id request))
    /\ (code (fst (deletePrediction env request w)) = 200
        <-> accepted (params_id request))
    /\ (~ accepted (params_id request) ->
        getPredictionById env request w = (not_found, w)
        /\ deletePrediction env request w = (not_found, w))
    /\ (accepted (params_id request) ->
        fst (getPredictionById env request w)
        = {| code := 200; status := "success"; message := None;
             data :=
               Some (Single
                       {| _id := params_id request;
                          user := credentials_id request;
                          inputData := canned_inputData;
                          result := canned_result;
                          createdAt := clock env (ticks w) |}) |}
        /\ collection (snd (getPredictionById env request w)) = collection w
        /\ calls (snd (getPredictionById env request w)) = calls w
        /\ deletePrediction env request w
           = ({| code := 200; status := "success";
                 message :=
                   Some "Prediction deleted successfully (MOCK - No DB)";
                 data := None |},
              w)).
Proof.
  intros env request w Hdown.
  destruct (refused (params_id request)) eqn:Hid.
  - pose proof (proj1 (refused_true_iff _) Hid) as Hno.
    rewrite (mock_lookup_refused env request w Hdown Hid).
    rewrite (mock_delete_refused env request w Hdown Hid).
    simpl. repeat split; try (intros; contradiction); try discriminate.
  - pose proof (proj1 (refused_iff _) Hid) as Hyes.
    rewrite (mock_lookup_accepted env request w Hdown Hid).
    rewrite (mock_delete_accepted env request w Hdown Hid).
    simpl. repeat split; try (intros; contradiction); auto.
Qed.

Lemma startsWith_append (p s : string) :
  JS.startsWith (String.append p s) p = true.
Proof.
  unfold JS.startsWith.
  induction p as [|c p IH]; simpl.
  - destruct s; reflexivity.
  - destruct (ascii_dec c c) as [_ | Hne]; [exact IH | contradiction].
Qed.

(** C9.  When the store is unavailable, Create on a valid payload answers
    201 with the identifier "mock-" followed by the reading of the clock,
    the payload as it came, the result the inner [try]/[catch] computed
    and the next reading of the clock as [createdAt]; no operation reaches
    the store and the collection is as it was. *)
Theorem createPrediction_mock :
  forall (StringToNumber coerceNumber : string -> option Q) (env : Env)
         (request : Request) (w : World),
    readyState env <> 1 ->
    valid coerceNumber (payload request) ->
    exists res w1 w',
      predict StringToNumber env (payload request) w = (Returns res, w1)
      /\ createPrediction StringToNumber coerceNumber env request w
         = ({| code := 201; status := "success";
               message := Some "Prediction created successfully (MOCK - No DB)";
               data :=
                 Some (Created
                         (String.append "mock-"
                            (JS.string_of_Z (clock env (ticks w))))
                         (payload request) res
                         (clock env (S (ticks w)))) |},
            w')
      /\ JS.startsWith
           (String.append "mock-" (JS.string_of_Z (clock env (ticks w))))
           "mock-" = true
      /\ collection w' = collection w
      /\ calls w' = calls w
      /\ minted w' = minted w.
Proof.
  intros StringToNumber coerceNumber env request w Hdown Hvalid.
  destruct (predict_returns StringToNumber env (payload request) w)
    as (res & w1 & Hrun & Hticks & Hminted & Hcoll & Hcalls).
  exists res, w1, (tick (tick w1)).
  split; [exact Hrun|].
  split.
  - rewrite (create_mock StringToNumber coerceNumber env request w
               Hvalid Hdown res w1 Hrun).
    rewrite Hticks. reflexivity.
  - split; [apply startsWith_append|]. simpl. repeat split; assumption.
Qed.

(** *** The threshold rules *)

Lemma gt_label (StringToNumber : string -> option Q) (v : option JS.value)
    (t : Q) (above below : string) :
  threshold_label StringToNumber v t above below
    (if JS.gt StringToNumber v t then above else below).
Proof.
  assert (Hnum : forall q,
    ((t < q)%Q /\ (if negb (Qle_bool q t) then above else below) = above)
    \/ ((q <= t)%Q /\ (if negb (Qle_bool q t) then above else below) = below)).
  { intros q. destruct (Qle_bool q t) eqn:E; simpl.
    - right. split; [apply Qle_bool_iff; exact E | reflexivity].
    - left. split; [|reflexivity]. apply Qnot_le_lt. intros Hle.
      apply Qle_bool_iff in Hle. congruence. }
  unfold threshold_label, JS.gt.
  destruct v as [[| b | q | p | s |]|]; simpl; try exact I.
  - apply Hnum.
  - destruct (StringToNumber s) as [q|]; [apply Hnum | reflexivity].
  - reflexivity.
Qed.

Lemma truthy_label (v : option JS.value) :
  flag_label v (if JS.truthy v then "Present" else "Absent").
Proof.
  unfold flag_label.
  destruct v as [[| [] | q | p | s |]|]; simpl; try exact I; try reflexivity.
  intros Hs. destruct (String.eqb_spec s ""); [contradiction | reflexivity].
Qed.

(** Create on a valid payload on which the inference fails, the store
    being down or taking the record: 201 with the fallback's result. *)
Lemma create_fallback (StringToNumber coerceNumber : string -> option Q)
    (env : Env) (request : Request) (w : World) :
  valid coerceNumber (payload request) ->
  inference_fails env (payload request) ->
  (readyState env = 1 -> forall doc, storeError env (Save doc) = None) ->
  exists id created w',
    createPrediction StringToNumber coerceNumber env request w
    = ({| code := 201; status := "success";
          message :=
            Some (if disconnected env
                  then "Prediction created successfully (MOCK - No DB)"
                  else "Prediction created successfully");
          data :=
            Some (Created id (payload request)
                    (fallback_result StringToNumber (payload request)
                       (entropy env (draws w)) (entropy env (S (draws w))))
                    created) |},
       w').
Proof.
  intros Hvalid Hfails Hstore.
  pose proof (predict_fallback StringToNumber env (payload request) w Hfails)
    as Hrun.
  destruct (Z.eq_dec (readyState env) 1) as [Hup | Hdown].
  - pose proof (create_real StringToNumber coerceNumber env request w
                  Hvalid Hup _ _ Hrun) as Hcreate.
    cbv zeta in Hcreate. rewrite (Hstore Hup) in Hcreate.
    rewrite (disconnected_false env Hup).
    eexists _, _, _. exact Hcreate.
  - pose proof (create_mock StringToNumber coerceNumber env request w
                  Hvalid Hdown _ _ Hrun) as Hcreate.
    rewrite (disconnected_true env Hdown).
    eexists _, _, _. exact Hcreate.
Qed.

(** C1, at the failing input.  The payload is valid and gives
    [hypertension] as the string "false", which the validator reads as
    the boolean [false]; the inference service is down.  Create answers
    201 with a fallback result, but the fallback reads [request.payload],
    where the string is truthy: the factor is labelled "Present", where
    the rule of the claim gives "Absent" for a flag that is false. *)
Theorem createPrediction_labels_a_false_flag_present :
  let p := Sample.payload_with_string_flag in
  let validated := Joi.validate Sample.no_number predictionValidation p in
  JS.get "hypertension" p = Some (JS.Str "false")
  /\ valid Sample.no_number p
  /\ JS.get "hypertension" (Joi.value validated) = Some (JS.Bool false)
  /\ inference_fails Sample.env_down p
  /\ (exists id res created w',
        createPrediction Sample.no_number Sample.no_number Sample.env_down
          (Sample.alice_sends p) Sample.empty_world
        = ({| code := 201; status := "success";
              message := Some "Prediction created successfully (MOCK - No DB)";
              data := Some (Created id p res created) |}, w')
        /\ factors res
           = [ ("bloodGlucoseLevel", "Normal"); ("hbA1cLevel", "Normal");
               ("bmi", "Overweight"); ("hypertension", "Present");
               ("heartDisease", "Absent") ])
  /\ (exists doc w',
        createPrediction Sample.no_number Sample.no_number Sample.env_up
          (Sample.alice_sends p) Sample.empty_world
        = ({| code := 201; status := "success";
              message := Some "Prediction created successfully";
              data :=
                Some (Created (_id doc) p (result doc) (createdAt doc)) |},
           w')
        /\ collection w' = [doc]
        /\ In ("hypertension", "Present") (factors (result doc))).
Proof.
  cbv zeta.
  split; [reflexivity|].
  split; [reflexivity|].
  split; [reflexivity|].
  split; [exact I|].
  split.
  - do 4 eexists. split; reflexivity.
  - do 2 eexists. split; [reflexivity|]. split; [reflexivity|].
    simpl. tauto.
Qed.

(** On a valid payload on which the inference fails, Create answers 201
    (the store being down, or taking the record) with the payload and a
    result made on the spot: [prediction] is "High Risk" when the first
    draw of [Math.random] is above 0.5 and "Low Risk" otherwise,
    [riskScore] is the second draw, [details.factors] has the
    five factors in the order of lines 67-74, each labelled from the value
    the payload holds for it, and the static recommendations are
    attached.  A measurement is "High", "Elevated" or "Overweight" exactly
    when its number is greater than 140, 6.5 or 25, and "Normal" when it
    is not or is missing; a flag is "Present" for [true], "Absent" for
    [false] and when missing, and "Present" for a string. *)
Theorem fallback_follows_the_payload :
  forall (StringToNumber coerceNumber : string -> option Q) (env : Env)
         (request : Request) (w : World),
    valid coerceNumber (payload request) ->
    inference_fails env (payload request) ->
    (forall k, (0 <= entropy env k)%Q /\ (entropy env k < 1)%Q) ->
    (readyState env = 1 -> forall doc, storeError env (Save doc) = None) ->
    exists id res created w',
      createPrediction StringToNumber coerceNumber env request w
      = ({| code := 201; status := "success";
            message :=
              Some (if disconnected env
                    then "Prediction created successfully (MOCK - No DB)"
                    else "Prediction created successfully");
            data := Some (Created id (payload request) res created) |},
         w')
      /\ (prediction res = "High Risk" \/ prediction res = "Low Risk")
      /\ (prediction res = "High Risk"
          <-> (1 # 2 < entropy env (draws w))%Q)
      /\ riskScore res = entropy env (S (draws w))
      /\ (0 <= riskScore res)%Q /\ (riskScore res < 1)%Q
      /\ (exists glucose hba1c bmi hypertension heartDisease,
            factors res
            = [ ("bloodGlucoseLevel", glucose); ("hbA1cLevel", hba1c);
                ("bmi", bmi); ("hypertension", hypertension);
                ("heartDisease", heartDisease) ]
            /\ threshold_label StringToNumber
                 (JS.get "bloodGlucoseLevel" (payload request)) 140
                 "High" "Normal" glucose
            /\ threshold_label StringToNumber
                 (JS.get "hbA1cLevel" (payload request)) (13 # 2)
                 "Elevated" "Normal" hba1c
            /\ threshold_label StringToNumber
                 (JS.get "bmi" (payload request)) 25
                 "Overweight" "Normal" bmi
            /\ flag_label (JS.get "hypertension" (payload request))
                 hypertension
            /\ flag_label (JS.get "heartDisease" (payload request))
                 heartDisease)
      /\ recommendations res = Some static_recommendations.
Proof.
  intros StringToNumber coerceNumber env request w Hvalid Hfails Hrand Hstore.
  destruct (create_fallback StringToNumber coerceNumber env request w
              Hvalid Hfails Hstore) as (id & created & w' & Hrun).
  eexists id, _, created, w'. split; [exact Hrun|].
  split.
  { simpl. destruct (negb (Qle_bool (entropy env (draws w)) (1 # 2)));
      [left | right]; reflexivity. }
  split.
  { simpl. destruct (Qle_bool (entropy env (draws w)) (1 # 2)) eqn:E; simpl.
    - apply Qle_bool_iff in E. split; [discriminate|].
      intros Hlt. exfalso. exact (Qlt_not_le _ _ Hlt E).
    - split; [intros _ | reflexivity]. apply Qnot_le_lt. intros Hle.
      apply Qle_bool_iff in Hle. congruence. }
  split; [reflexivity|].
  split; [apply (Hrand (S (draws w)))|].
  split; [apply (Hrand (S (draws w)))|].
  split; [|reflexivity].
  do 5 eexists. split; [reflexivity|].
  split; [apply gt_label|]. split; [apply gt_label|].
  split; [apply gt_label|]. split; apply truthy_label.
Qed.

(** *** The marker of degraded mode *)

(** C2, amended.  When the store is unavailable, the success responses
    that carry a message, Create's 201 and Delete's 200, contain the
    marker "(MOCK - No DB)".  The success responses of List and GetByOne
    carry no message at all, and the 404 of GetByOne and of Delete carries
    "Prediction not found", without the marker. *)
Theorem mock_marker_where_a_message_is_written :
  forall (StringToNumber coerceNumber : string -> option Q) (env : Env)
         (request : Request) (w : World),
    readyState env <> 1 ->
    (valid coerceNumber (payload request) ->
     code (fst (createPrediction StringToNumber coerceNumber env request w))
     = 201
     /\ marked (fst (createPrediction StringToNumber coerceNumber env
                       request w)))
    /\ (accepted (params_id request) ->
        code (fst (deletePrediction env request w)) = 200
        /\ marked (fst (deletePrediction env request w)))
    /\ (code (fst (getPredictionHistory env request w)) = 200
        /\ message (fst (getPredictionHistory env request w)) = None)
    /\ (accepted (params_id request) ->
        code (fst (getPredictionById env request w)) = 200
        /\ message (fst (getPredictionById env request w)) = None)
    /\ (~ accepted (params_id request) ->
        message (fst (getPredictionById env request w))
        = Some "Prediction not found"
        /\ message (fst (deletePrediction env request w))
           = Some "Prediction not found"
        /\ ~ marked (fst (getPredictionById env request w))
        /\ ~ marked (fst (deletePrediction env request w))).
Proof.
  intros StringToNumber coerceNumber env request w Hdown.
  split; [|split; [|split; [|split]]].
  - intros Hvalid.
    destruct (predict_returns StringToNumber env (payload request) w)
      as (res & w1 & Hrun & _).
    rewrite (create_mock StringToNumber coerceNumber env request w
               Hvalid Hdown res w1 Hrun).
    split; [reflexivity|]. eexists. split; reflexivity.
  - intros Hid. apply refused_iff in Hid.
    rewrite (mock_delete_accepted env request w Hdown Hid).
    split; [reflexivity|]. eexists. split; reflexivity.
  - destruct (mock_history_unfold env request w Hdown)
      as (d0 & d1 & d2 & d3 & d4 & w' & -> & _).
    split; reflexivity.
  - intros Hid. apply refused_iff in Hid.
    rewrite (mock_lookup_accepted env request w Hdown Hid).
    split; reflexivity.
  - intros Hid. apply refused_true_iff in Hid.
    rewrite (mock_lookup_refused env request w Hdown Hid).
    rewrite (mock_delete_refused env request w Hdown Hid).
    simpl. repeat split; try reflexivity;
      intros (m & Hm & Hmark); injection Hm as <-; discriminate.
Qed.

(** C2, as stated, fails on the List handler: with the store down its
    response carries no message, hence no marker. *)
Lemma mock_history_carries_no_marker :
  readyState Sample.env_down <> 1
  /\ code (fst (getPredictionHistory Sample.env_down
                  (Sample.alice_lists None None) Sample.empty_world)) = 200
  /\ message (fst (getPredictionHistory Sample.env_down
                     (Sample.alice_lists None None) Sample.empty_world))
     = None
  /\ ~ marked (fst (getPredictionHistory Sample.env_down
                      (Sample.alice_lists None None) Sample.empty_world)).
Proof.
  split; [discriminate|].
  split; [reflexivity|].
  split; [reflexivity|].
  intros (m & Hm & _). discriminate Hm.
Qed.

(** C5, as stated, fails on the record GetByOne returns: two accepted
    identifiers get two different records, each with its own [_id]. *)
Lemma mock_lookup_echoes_the_id :
  readyState Sample.env_down <> 1
  /\ accepted "mock-1" /\ accepted "mock-2"
  /\ data (fst (getPredictionById Sample.env_down
                  (Sample.alice_looks_up "mock-1") Sample.empty_world))
     <> data (fst (getPredictionById Sample.env_down
                     (Sample.alice_looks_up "mock-2") Sample.empty_world)).
Proof.
  split; [discriminate|].
  split; [left; reflexivity|].
  split; [left; reflexivity|].
  simpl. intros H. discriminate H.
Qed.

(** C3, at the failing input.  The payload omits [hypertension]; the
    validator's [value] holds the default [false], but the handler goes
    on with [request.payload]: the inference service is handed an input
    without the key, and the [inputData] that is returned, and the one
    that is stored, are without it too. *)
Theorem createPrediction_drops_the_default :
  let p := Sample.payload_without_hypertension in
  let validated := Joi.validate Sample.no_number predictionValidation p in
  JS.get "hypertension" p = None
  /\ Joi.error_of validated = None
  /\ JS.get "hypertension" (Joi.value validated) = Some (JS.Bool false)
  /\ (exists id res created w',
        createPrediction Sample.no_number Sample.no_number Sample.env_echo
          Sample.alice_creates Sample.empty_world
        = ({| code := 201; status := "success";
              message := Some "Prediction created successfully (MOCK - No DB)";
              data := Some (Created id p res created) |}, w')
        /\ factors res = [("hypertension", "undefined")])
  /\ (exists doc res w',
        createPrediction Sample.no_number Sample.no_number Sample.env_up
          Sample.alice_creates Sample.empty_world
        = ({| code := 201; status := "success";
              message := Some "Prediction created successfully";
              data := Some (Created (_id doc) p res (createdAt doc)) |}, w')
        /\ collection w' = [doc]
        /\ inputData doc = p
        /\ JS.get "hypertension" (inputData doc) = None).
Proof.
  cbv zeta.
  split; [reflexivity|].
  split; [reflexivity|].
  split; [reflexivity|].
  split.
  - do 4 eexists. split; reflexivity.
  - do 3 eexists. split; [reflexivity|].
    split; [reflexivity|]. split; reflexivity.
Qed.

(** *** Validation errors *)

Lemma check_code (coerceNumber : string -> option Q) (t : Joi.type)
    (v : JS.value) (c : Joi.code) :
  Joi.check coerceNumber t v = inl c -> In c (codes_of t).
Proof.
  assert (Hnum : forall q, Joi.check_number q = inl c ->
                           In c (codes_of Joi.number)).
  { intros q. unfold Joi.check_number. destruct (Joi.safe q); [discriminate|].
    intros H; injection H as <-. simpl. tauto. }
  destruct t as [allowed | |]; destruct v as [| b | q | p | s |]; simpl;
    try (intros H; injection H as <-; tauto);
    try discriminate.
  - destruct (existsb _ _); [discriminate|].
    intros H; injection H as <-; tauto.
  - apply Hnum.
  - destruct (coerceNumber s) as [q|]; [apply Hnum|].
    intros H; injection H as <-; tauto.
  - destruct (String.eqb _ "true"); [discriminate|].
    destruct (String.eqb _ "false"); [discriminate|].
    intros H; injection H as <-; tauto.
Qed.

Lemma In_existsb_eqb (x : string) (l : list string) :
  In x l <-> existsb (String.eqb x) l = true.
Proof.
  rewrite existsb_exists. split.
  - intros H. exists x. split; [exact H | apply String.eqb_refl].
  - intros (y & Hy & Heq). apply String.eqb_eq in Heq. subst. exact Hy.
Qed.

(** A number is safe between the two bounds. *)
Lemma safe_iff (q : Q) :
  Joi.safe q = true
  <-> (- inject_Z (2 ^ 53 - 1) <= q)%Q /\ (q <= inject_Z (2 ^ 53 - 1))%Q.
Proof.
  unfold Joi.safe, Joi.max_safe.
  rewrite andb_true_iff, !Qle_bool_iff. reflexivity.
Qed.

Lemma check_accepts (coerceNumber : string -> option Q) (t : Joi.type)
    (v : JS.value) :
  (exists v', Joi.check coerceNumber t v = inr v')
  <-> acceptable coerceNumber t v.
Proof.
  assert (Hnum : forall q,
            (exists v', Joi.check_number q = inr v') <-> Joi.safe q = true).
  { intros q. unfold Joi.check_number. destruct (Joi.safe q); split;
      try discriminate; try (intros _; eexists; reflexivity); try reflexivity.
    intros (v' & H). discriminate. }
  destruct t as [allowed | |]; destruct v as [| b | q | p | s |]; simpl;
    try (split; [intros (v' & H); discriminate | contradiction]).
  - rewrite In_existsb_eqb. destruct (existsb (String.eqb s) allowed); split;
      try discriminate; try reflexivity; try (intros _; eexists; reflexivity).
    intros (v' & H). discriminate.
  - rewrite Hnum. apply safe_iff.
  - destruct (coerceNumber s) as [q|].
    + rewrite Hnum, safe_iff. split; [intros H; exists q; tauto|].
      intros (q' & Hq & Hsafe). injection Hq as <-. exact Hsafe.
    + split; [intros (v' & H); discriminate
             | intros (q & H & _); discriminate].
  - split; [tauto | intros _; eexists; reflexivity].
  - destruct (String.eqb_spec (JS.toLowerCase s) "true") as [-> | Hne1].
    + split; [tauto | intros _; eexists; reflexivity].
    + destruct (String.eqb_spec (JS.toLowerCase s) "false") as [-> | Hne2].
      * split; [tauto | intros _; eexists; reflexivity].
      * split; [intros (v' & H); discriminate | tauto].
Qed.

(** An object satisfies the rule of a key exactly when Joi's check of
    the value passes, or the key is missing and optional. *)
Lemma satisfies_check (coerceNumber : string -> option Q) (p : JS.object)
    (k : Joi.key) :
  satisfies coerceNumber p k
  <-> match JS.own (Joi.name k) p with
      | None => Joi.required k = false
      | Some v => exists v', Joi.check coerceNumber (Joi.rule k) v = inr v'
      end.
Proof.
  unfold satisfies. destruct (JS.own (Joi.name k) p) as [v|];
    [symmetry; apply check_accepts | reflexivity].
Qed.

(** The keys of a schema stop at the first rule the object violates. *)
Lemma validate_keys_first_violation (coerceNumber : string -> option Q)
    (raw : JS.object) (ks : list Joi.key) :
  Exists (fun k => ~ satisfies coerceNumber raw k) ks ->
  forall acc,
  exists before k after c,
    ks = before ++ k :: after
    /\ Forall (satisfies coerceNumber raw) before
    /\ ~ satisfies coerceNumber raw k
    /\ Joi.validate_keys coerceNumber ks raw acc
       = inl {| Joi.label := Joi.name k; Joi.reason := c |}
    /\ (c = Joi.any_required /\ JS.own (Joi.name k) raw = None
        \/ In c (codes_of (Joi.rule k)) /\ JS.own (Joi.name k) raw <> None).
Proof.
  induction ks as [|k ks IH]; intros Hex acc.
  - inversion Hex.
  - simpl.
    destruct (JS.own (Joi.name k) raw) as [v|] eqn:Hget.
    + destruct (Joi.check coerceNumber (Joi.rule k) v) as [c | v'] eqn:Hcheck.
      * exists [], k, ks, c. simpl.
        split; [reflexivity|]. split; [constructor|].
        split; [rewrite satisfies_check; rewrite Hget, Hcheck;
                intros (v' & Hv'); discriminate|].
        split; [reflexivity|]. right.
        split; [exact (check_code _ _ _ _ Hcheck) | rewrite Hget; discriminate].
      * assert (Htail : Exists (fun k => ~ satisfies coerceNumber raw k) ks).
        { inversion Hex as [? ? Hk | ? ? Hk]; subst; [|exact Hk].
          exfalso. apply Hk. rewrite satisfies_check. rewrite Hget, Hcheck.
          exists v'. reflexivity. }
        destruct (IH Htail (JS.set (Joi.name k) v' acc))
          as (before & k' & after & c & -> & Hbefore & Hk' & Hrun & Hc).
        exists (k :: before), k', after, c.
        split; [reflexivity|].
        split; [constructor; [|exact Hbefore];
                rewrite satisfies_check; rewrite Hget, Hcheck; exists v'; reflexivity|].
        split; [exact Hk'|]. split; [exact Hrun | exact Hc].
    + destruct (Joi.required k) eqn:Hreq.
      * exists [], k, ks, Joi.any_required. simpl.
        split; [reflexivity|]. split; [constructor|].
        split; [rewrite satisfies_check; rewrite Hget, Hreq; discriminate|].
        split; [reflexivity|]. left. split; [reflexivity | exact Hget].
      * assert (Htail : Exists (fun k => ~ satisfies coerceNumber raw k) ks).
        { inversion Hex as [? ? Hk | ? ? Hk]; subst; [|exact Hk].
          exfalso. apply Hk. rewrite satisfies_check. rewrite Hget. exact Hreq. }
        destruct (IH Htail
                    match Joi.default k with
                    | Some d => JS.set (Joi.name k) d acc
                    | None => acc
                    end)
          as (before & k' & after & c & -> & Hbefore & Hk' & Hrun & Hc).
        exists (k :: before), k', after, c.
        split; [reflexivity|].
        split; [constructor; [|exact Hbefore];
                rewrite satisfies_check; rewrite Hget; exact Hreq|].
        split; [exact Hk'|]. split; [exact Hrun | exact Hc].
Qed.

Lemma schema_messages_ok :
  forallb
    (fun k => message_ok k Joi.any_required
              && forallb (message_ok k) (codes_of (Joi.rule k)))
    predictionValidation = true.
Proof. vm_compute. reflexivity. Qed.

Lemma string_append_assoc (a b c : string) :
  String.append (String.append a b) c = String.append a (String.append b c).
Proof. induction a as [|x a IH]; simpl; [reflexivity | rewrite IH; reflexivity]. Qed.

(** A missing required key is a violated rule of the schema. *)
Lemma missing_required_violates (coerceNumber : string -> option Q)
    (p : JS.object) (f : string) :
  In f required_fields ->
  JS.own f p = None ->
  exists k,
    In k predictionValidation /\ Joi.name k = f
    /\ ~ satisfies coerceNumber p k.
Proof.
  intros Hin Hget.
  assert (Hkey : exists k, In k predictionValidation /\ Joi.name k = f
                           /\ Joi.required k = true).
  { simpl in Hin.
    repeat (destruct Hin as [<- | Hin];
            [ let rec go l :=
                lazymatch l with
                | ?k :: ?l' =>
                    first [ exists k; split;
                            [simpl; tauto | split; reflexivity]
                          | go l' ]
                end in
              let l := eval unfold predictionValidation in
                         predictionValidation in
              go l
            | ]).
    contradiction. }
  destruct Hkey as (k & Hk & Hname & Hreq).
  exists k. split; [exact Hk|]. split; [exact Hname|].
  rewrite satisfies_check. rewrite Hname, Hget, Hreq. discriminate.
Qed.

(** Create on a payload the schema does not take for an object. *)
Lemma create_not_an_object (StringToNumber coerceNumber : string -> option Q)
    (env : Env) (request : Request) (w : World) :
  Joi.as_object (payload request) = None ->
  createPrediction StringToNumber coerceNumber env request w
  = ({| code := 400; status := "error";
        message := Some not_an_object_message; data := None |}, w).
Proof.
  intros Hnone.
  apply (create_invalid StringToNumber coerceNumber env request w
           {| Joi.label := "value"; Joi.reason := Joi.object_base |}).
  unfold Joi.validate. rewrite Hnone. reflexivity.
Qed.

(** C7, amended.  A payload that is an object, or a string that spells
    one, and that misses a required key (gender, age, heartDisease,
    smokingHistory or bmi), and more generally one that violates a rule
    of the schema, gets 400 with status "error" and the message of the
    first violated rule only, in the order of the schema: every key
    before it is satisfied.  The message names the key of that rule, in
    quotes at its start; it is ["key" is required] when that key is the
    missing one; and when that key is one of the optional ones
    (hypertension, hbA1cLevel, bloodGlucoseLevel) the message ends with
    the guidance that the value may be left out.  A payload that is
    neither (null, an array, a number, a boolean, another string) gets
    400 with status "error" and ["value" must be of type object]. *)
Theorem createPrediction_validation_error :
  forall (StringToNumber coerceNumber : string -> option Q) (env : Env)
         (request : Request) (w : World),
    (forall o,
        Joi.as_object (payload request) = Some o ->
        (exists f, In f required_fields /\ JS.own f o = None)
        \/ (exists k, In k predictionValidation
                      /\ ~ satisfies coerceNumber o k) ->
        exists before k after e msg,
          predictionValidation = before ++ k :: after
          /\ Forall (satisfies coerceNumber o) before
          /\ ~ satisfies coerceNumber o k
          /\ Joi.label e = Joi.name k
          /\ createPrediction StringToNumber coerceNumber env request w
             = ({| code := 400; status := "error"; message := Some msg;
                   data := None |}, w)
          /\ JS.includes msg (Joi.name k) = true
          /\ JS.startsWith msg
               (String.append Joi.dquote
                  (String.append (Joi.name k) Joi.dquote))
             = true
          /\ (forall f,
                In f required_fields -> JS.own f o = None ->
                In f (map Joi.name (k :: after))
                /\ (Joi.name k = f ->
                    msg = String.append Joi.dquote
                            (String.append f
                               (String.append Joi.dquote " is required"))))
          /\ (In (Joi.name k) optional_fields ->
              msg = String.append (Joi.message e) optional_hint)
          /\ (In (Joi.name k) required_fields -> msg = Joi.message e))
    /\ (Joi.as_object (payload request) = None ->
        createPrediction StringToNumber coerceNumber env request w
        = ({| code := 400; status := "error";
              message := Some not_an_object_message; data := None |}, w)).
Proof.
  intros StringToNumber coerceNumber env request w.
  split; [|apply create_not_an_object].
  intros p Hobject Hviol.
  assert (Hex : Exists (fun k => ~ satisfies coerceNumber p k)
                  predictionValidation).
  { apply Exists_exists.
    destruct Hviol as [(f & Hf & Hget) | Hk]; [|exact Hk].
    destruct (missing_required_violates coerceNumber p f Hf Hget)
      as (k & Hk & _ & Hno).
    exists k. split; assumption. }
  destruct (validate_keys_first_violation coerceNumber p predictionValidation
              Hex p)
    as (before & k & after & c & Hsplit & Hbefore & Hk & Hrun & Hc).
  set (e := {| Joi.label := Joi.name k; Joi.reason := c |}) in *.
  assert (Hin : In k predictionValidation)
    by (rewrite Hsplit; apply in_elt).
  pose proof (proj1 (forallb_forall _ _) schema_messages_ok k Hin) as Hok.
  apply andb_prop in Hok. destruct Hok as [Hreq Hrule].
  assert (Hmsg : message_ok k c = true).
  { destruct Hc as [[-> _] | [Hcode _]]; [exact Hreq|].
    exact (proj1 (forallb_forall _ _) Hrule c Hcode). }
  unfold message_ok in Hmsg. fold e in Hmsg. cbv zeta in Hmsg.
  apply andb_prop in Hmsg. destruct Hmsg as [Hmsg Hdisjoint].
  apply andb_prop in Hmsg. destruct Hmsg as [Hmsg Hhint].
  apply andb_prop in Hmsg. destruct Hmsg as [Hnames Hstarts].
  exists before, k, after, e, (error_message e).
  split; [exact Hsplit|]. split; [exact Hbefore|]. split; [exact Hk|].
  split; [reflexivity|].
  split.
  { apply create_invalid. unfold Joi.validate. rewrite Hobject, Hrun.
    reflexivity. }
  split; [exact Hnames|].
  split; [exact Hstarts|].
  split; [|split].
  - intros f Hf Hget.
    destruct (missing_required_violates coerceNumber p f Hf Hget)
      as (kf & Hkf & Hname & Hno).
    split.
    + rewrite Hsplit in Hkf. apply in_app_or in Hkf.
      destruct Hkf as [Hkf | Hkf].
      * exfalso. apply Hno.
        exact (proj1 (Forall_forall _ _) Hbefore kf Hkf).
      * rewrite <- Hname. apply in_map. exact Hkf.
    + intros Hkname.
      assert (Hcode : c = Joi.any_required).
      { destruct Hc as [[-> _] | [_ Hsome]]; [reflexivity|].
        rewrite Hkname in Hsome. contradiction. }
      assert (Hreqd : existsb (String.eqb (Joi.name k)) required_fields = true)
        by (apply In_existsb_eqb; rewrite Hkname; exact Hf).
      rewrite Hreqd, andb_true_r in Hdisjoint.
      apply negb_true_iff in Hdisjoint. rewrite Hdisjoint in Hhint.
      apply String.eqb_eq in Hhint. rewrite Hhint.
      unfold Joi.message, e. simpl. rewrite Hcode, Hkname.
      f_equal. rewrite string_append_assoc. reflexivity.
  - intros Hopt. apply In_existsb_eqb in Hopt. rewrite Hopt in Hhint.
    apply String.eqb_eq in Hhint. exact Hhint.
  - intros Hreqd. apply In_existsb_eqb in Hreqd.
    rewrite Hreqd, andb_true_r in Hdisjoint.
    apply negb_true_iff in Hdisjoint. rewrite Hdisjoint in Hhint.
    apply String.eqb_eq in Hhint. exact Hhint.
Qed.

(** C7, as stated, fails on a payload that is [null] (the payload of an
    empty body): it holds none of the required fields, and the message of
    the 400 names none of them. *)
Lemma a_null_payload_names_no_field :
  Joi.as_object JS.NullBody = None
  /\ forallb
       (fun f =>
          match JS.get f JS.NullBody with
          | None => true
          | Some _ => false
          end)
       required_fields = true
  /\ exists msg,
       createPrediction Sample.no_number Sample.no_number Sample.env_down
         (Sample.alice_sends JS.NullBody) Sample.empty_world
       = ({| code := 400; status := "error"; message := Some msg;
             data := None |}, Sample.empty_world)
       /\ msg = String.append Joi.dquote
                  (String.append "value"
                     (String.append Joi.dquote " must be of type object"))
       /\ forallb (fun f => negb (JS.includes msg f)) required_fields = true.
Proof.
  split; [reflexivity|]. split; [reflexivity|].
  eexists. split; [reflexivity|]. split; reflexivity.
Qed.
(** *** Lookup and delete against a connected store *)

Lemma matches_iff (id owner : string) (d : Prediction) :
  matches id owner d = true <-> _id d = id /\ user d = owner.
Proof.
  unfold matches. rewrite andb_true_iff, !String.eqb_eq. reflexivity.
Qed.

Lemma find_matches_none (id owner : string) (l : list Prediction) :
  (forall d, In d l -> ~ (_id d = id /\ user d = owner)) ->
  find (matches id owner) l = None.
Proof.
  intros Hnone. destruct (find (matches id owner) l) as [d|] eqn:E;
    [|reflexivity].
  apply find_some in E. destruct E as [Hin Hm].
  apply matches_iff in Hm. exfalso. exact (Hnone d Hin Hm).
Qed.

Lemma remove_first_none (f : Prediction -> bool) (l : list Prediction) :
  find f l = None -> remove_first f l = l.
Proof.
  induction l as [|d l IH]; simpl; [reflexivity|].
  destruct (f d); [discriminate|]. intros H. rewrite (IH H). reflexivity.
Qed.

Lemma remove_first_incl (f : Prediction -> bool) (l : list Prediction) :
  forall d, In d (remove_first f l) -> In d l.
Proof.
  induction l as [|x l IH]; simpl; [tauto|].
  intros d. destruct (f x); [tauto|].
  simpl. intros [-> | H]; [tauto | right; exact (IH d H)].
Qed.

(** With unique identifiers, the document a delete takes out was the only
    one to match. *)
Lemma find_after_remove_first (id owner : string) (l : list Prediction) :
  NoDup (map _id l) ->
  find (matches id owner) (remove_first (matches id owner) l) = None.
Proof.
  induction l as [|d l IH]; simpl; [reflexivity|].
  intros Hnd. inversion Hnd as [|? ? Hnotin Hnd']; subst.
  destruct (matches id owner d) eqn:Hd.
  - apply find_matches_none. intros x Hx [Hid _].
    apply matches_iff in Hd. destruct Hd as [Hdid _].
    apply Hnotin. rewrite Hdid, <- Hid. apply in_map. exact Hx.
  - simpl. rewrite Hd. exact (IH Hnd').
Qed.

Lemma real_lookup_unfold (env : Env) (request : Request) (w : World) :
  readyState env = 1 ->
  let op := FindOne (params_id request) (credentials_id request) in
  getPredictionById env request w
  = match storeError env op with
    | Some msg => (internal_error msg, record_call op w)
    | None =>
        (match
           find (matches (params_id request) (credentials_id request))
             (collection w)
         with
         | None => not_found
         | Some doc =>
             {| code := 200; status := "success"; message := None;
                data := Some (Single doc) |}
         end,
         record_call op w)
    end.
Proof.
  intros Hup op. unfold getPredictionById, answer.
  rewrite (disconnected_false env Hup).
  unfold findOne, store, bind. fold op.
  destruct (storeError env op); [reflexivity|]. simpl.
  destruct (find _ _); reflexivity.
Qed.

Lemma real_delete_unfold (env : Env) (request : Request) (w : World) :
  readyState env = 1 ->
  let op := FindOneAndDelete (params_id request) (credentials_id request) in
  let hit := matches (params_id request) (credentials_id request) in
  deletePrediction env request w
  = match storeError env op with
    | Some msg => (internal_error msg, record_call op w)
    | None =>
        (match find hit (collection w) with
         | None =>
             {| code := 404; status := "error";
                message :=
                  Some "Prediction not found or you don't have permission to delete it";
                data := None |}
         | Some _ =>
             {| code := 200; status := "success";
                message := Some "Prediction deleted successfully";
                data := None |}
         end,
         with_collection (remove_first hit (collection w))
           (record_call op w))
    end.
Proof.
  intros Hup op hit. unfold deletePrediction, answer.
  rewrite (disconnected_false env Hup).
  unfold findOneAndDelete, store, bind. fold op hit.
  destruct (storeError env op); [reflexivity|]. simpl.
  destruct (find _ _); reflexivity.
Qed.

(** Lookup and delete of an identifier no record of the requester has. *)
Lemma real_absent (env : Env) (request : Request) (w : World) :
  readyState env = 1 ->
  store_healthy env ->
  (forall d, In d (collection w) ->
             ~ (_id d = params_id request /\ user d = credentials_id request)) ->
  code (fst (getPredictionById env request w)) = 404
  /\ status (fst (getPredictionById env request w)) = "error"
  /\ code (fst (deletePrediction env request w)) = 404
  /\ status (fst (deletePrediction env request w)) = "error"
  /\ collection (snd (getPredictionById env request w)) = collection w
  /\ collection (snd (deletePrediction env request w)) = collection w.
Proof.
  intros Hup Hhealthy Hnone.
  pose proof (find_matches_none _ _ _ Hnone) as Hfind.
  rewrite (real_lookup_unfold env request w Hup).
  rewrite (real_delete_unfold env request w Hup).
  cbv zeta. rewrite !Hhealthy, Hfind. simpl.
  rewrite (remove_first_none _ _ Hfind). repeat split; reflexivity.
Qed.

(** Create against a connected and healthy store puts the record, owned
    by the requester, at the end of the collection. *)
Lemma create_real_stores (StringToNumber coerceNumber : string -> option Q)
    (env : Env) (request : Request) (w : World) :
  readyState env = 1 ->
  store_healthy env ->
  valid coerceNumber (payload request) ->
  fresh_id env w ->
  exists doc wA,
    createPrediction StringToNumber coerceNumber env request w
    = ({| code := 201; status := "success";
          message := Some "Prediction created successfully";
          data :=
            Some (Created (_id doc) (payload request) (result doc)
                    (createdAt doc)) |},
       wA)
    /\ collection wA = collection w ++ [doc]
    /\ _id doc = objectId env (minted w)
    /\ user doc = credentials_id request
    /\ inputData doc = payload request.
Proof.
  intros Hup Hhealthy Hvalid Hfresh.
  destruct (predict_returns StringToNumber env (payload request) w)
    as (res & w1 & Hrun & _ & Hminted & Hcoll & _).
  pose proof (create_real StringToNumber coerceNumber env request w
                Hvalid Hup res w1 Hrun) as Hcreate.
  cbv zeta in Hcreate. rewrite Hhealthy in Hcreate.
  eexists _, _. split; [exact Hcreate|]. simpl.
  rewrite Hcoll, Hminted. repeat split; reflexivity.
Qed.

(** C6.  Against a connected store that fails no operation: when no
    record has both the requested identifier and the requester as its
    owner, GetByOne and Delete answer 404 and the collection stays as it
    was; a record user A created is there, yet a lookup or a delete of
    its identifier under another identity answers 404 and leaves it
    there; and a second delete of the same identifier by the same user
    answers 404, neither 200 nor 500. *)
Theorem owner_scoped_lookup_and_delete :
  forall (StringToNumber coerceNumber : string -> option Q) (env : Env),
    readyState env = 1 ->
    store_healthy env ->
    (forall request w,
        (forall d, In d (collection w) ->
                   ~ (_id d = params_id request
                      /\ user d = credentials_id request)) ->
        code (fst (getPredictionById env request w)) = 404
        /\ code (fst (deletePrediction env request w)) = 404
        /\ collection (snd (deletePrediction env request w)) = collection w)
    /\ (forall requestA requestB w,
          valid coerceNumber (payload requestA) ->
          fresh_id env w ->
          credentials_id requestB <> credentials_id requestA ->
          exists doc wA,
            createPrediction StringToNumber coerceNumber env requestA w
            = ({| code := 201; status := "success";
                  message := Some "Prediction created successfully";
                  data :=
                    Some (Created (_id doc) (payload requestA) (result doc)
                            (createdAt doc)) |},
               wA)
            /\ In doc (collection wA)
            /\ user doc = credentials_id requestA
            /\ (params_id requestB = _id doc ->
                code (fst (getPredictionById env requestB wA)) = 404
                /\ code (fst (deletePrediction env requestB wA)) = 404
                /\ In doc (collection (snd (deletePrediction env requestB
                                              wA)))))
    /\ (forall request w,
          unique_ids w ->
          code (fst (deletePrediction env request
                       (snd (deletePrediction env request w)))) = 404).
Proof.
  intros StringToNumber coerceNumber env Hup Hhealthy.
  split; [|split].
  - intros request w Hnone.
    destruct (real_absent env request w Hup Hhealthy Hnone)
      as (Hget & _ & Hdel & _ & _ & Hcoll).
    repeat split; assumption.
  - intros requestA requestB w Hvalid Hfresh Hother.
    destruct (create_real_stores StringToNumber coerceNumber env requestA w
                Hup Hhealthy Hvalid Hfresh)
      as (doc & wA & Hcreate & Hcoll & Hid & Howner & _).
    exists doc, wA. split; [exact Hcreate|].
    split; [rewrite Hcoll; apply in_elt|].
    split; [exact Howner|].
    intros Hparam.
    assert (Hnone : forall d, In d (collection wA) ->
                      ~ (_id d = params_id requestB
                         /\ user d = credentials_id requestB)).
    { intros d Hd [Hdid Hduser]. rewrite Hcoll in Hd.
      apply in_app_or in Hd. destruct Hd as [Hold | [<- | []]].
      - apply Hfresh. rewrite <- Hid, <- Hparam, <- Hdid.
        apply in_map. exact Hold.
      - apply Hother. rewrite <- Hduser. exact Howner. }
    destruct (real_absent env requestB wA Hup Hhealthy Hnone)
      as (Hget & _ & Hdel & _ & _ & Hsame).
    split; [exact Hget|]. split; [exact Hdel|].
    rewrite Hsame, Hcoll. apply in_elt.
  - intros request w Hunique.
    rewrite (real_delete_unfold env request w Hup).
    cbv zeta. rewrite Hhealthy.
    match goal with
    | |- context [snd (?r, ?w1)] => change (snd (r, w1)) with w1
    end.
    rewrite (real_delete_unfold env request _ Hup).
    cbv zeta. rewrite Hhealthy. simpl.
    rewrite (find_after_remove_first _ _ _ Hunique). reflexivity.
Qed.

(** *** The history against a connected store *)

Lemma insert_desc_perm (d : Prediction) (l : list Prediction) :
  Permutation (insert_desc d l) (d :: l).
Proof.
  induction l as [|x l IH]; simpl; [reflexivity|].
  destruct (createdAt x <=? createdAt d); [reflexivity|].
  rewrite IH. apply perm_swap.
Qed.

Lemma sort_desc_perm (l : list Prediction) : Permutation (sort_desc l) l.
Proof.
  induction l as [|d l IH]; simpl; [reflexivity|].
  rewrite insert_desc_perm. apply perm_skip. exact IH.
Qed.










(* ================================================================== *)
(** ** The statements at sample inputs *)
(* ================================================================== *)

Lemma sample_store_healthy : store_healthy Sample.env_up.
Proof. intros op. reflexivity. Defined.

Lemma sample_entropy :
  forall k, (0 <= entropy Sample.env_up k)%Q /\ (entropy Sample.env_up k < 1)%Q.
Proof. intros k. split; [discriminate | reflexivity]. Defined.

(** The typed fallback at a sample: a payload with every key, the
    inference service down, the store connected and empty. *)
Lemma fallback_follows_the_payload_witness :
  valid Sample.no_number Sample.payload_with_every_key
  /\ inference_fails Sample.env_up Sample.payload_with_every_key
  /\ exists id res created w',
       createPrediction Sample.no_number Sample.no_number Sample.env_up
         (Sample.alice_sends Sample.payload_with_every_key)
         Sample.empty_world
       = ({| code := 201; status := "success";
             message := Some "Prediction created successfully";
             data :=
               Some (Created id Sample.payload_with_every_key res created) |},
          w')
       /\ factors res
          = [ ("bloodGlucoseLevel", "Normal"); ("hbA1cLevel", "Elevated");
              ("bmi", "Normal"); ("hypertension", "Present");
              ("heartDisease", "Absent") ]
       /\ recommendations res = Some static_recommendations.
Proof.
  split; [reflexivity|]. split; [exact I|].
  destruct (fallback_follows_the_payload Sample.no_number Sample.no_number
              Sample.env_up
              (Sample.alice_sends Sample.payload_with_every_key)
              Sample.empty_world
              eq_refl I sample_entropy (fun _ _ => eq_refl))
    as (id & res & created & w' & Hrun & _ & _ & _ & _ & _
        & (g & h & b & ht & hd & Hfactors & Hg & Hh & Hb & Hht & Hhd)
        & Hrecs).
  exists id, res, created, w'.
  split; [exact Hrun|]. split; [|exact Hrecs].
  rewrite Hfactors. simpl in Hg, Hh, Hb, Hht, Hhd.
  destruct Hg as [[Hlt _] | [_ ->]]; [discriminate Hlt|].
  destruct Hh as [[_ ->] | [Hle _]]; [|exfalso; apply Hle; reflexivity].
  destruct Hb as [[Hlt _] | [_ ->]]; [discriminate Hlt|].
  rewrite Hht, Hhd. reflexivity.
Defined.

(** C2, amended, at a sample: the store down, a valid payload and an
    accepted identifier. *)
Lemma mock_marker_witness :
  readyState Sample.env_down <> 1
  /\ marked (fst (createPrediction Sample.no_number Sample.no_number
                    Sample.env_down Sample.alice_creates Sample.empty_world))
  /\ marked (fst (deletePrediction Sample.env_down
                    (Sample.alice_deletes "mock-1") Sample.empty_world))
  /\ message (fst (getPredictionHistory Sample.env_down
                     (Sample.alice_deletes "mock-1") Sample.empty_world))
     = None.
Proof.
  assert (Hdown : readyState Sample.env_down <> 1) by discriminate.
  split; [exact Hdown|].
  destruct (mock_marker_where_a_message_is_written Sample.no_number
              Sample.no_number Sample.env_down Sample.alice_creates
              Sample.empty_world Hdown) as (Hcreate & _).
  destruct (mock_marker_where_a_message_is_written Sample.no_number
              Sample.no_number Sample.env_down (Sample.alice_deletes "mock-1")
              Sample.empty_world Hdown) as (_ & Hdelete & Hlist & _).
  split; [exact (proj2 (Hcreate eq_refl))|].
  split; [exact (proj2 (Hdelete (or_introl eq_refl)))|].
  exact (proj2 Hlist).
Defined.

(** C4 at a sample: the store down, page 3 and limit 50 asked for. *)
Lemma getPredictionHistory_mock_witness :
  readyState Sample.env_down <> 1
  /\ exists predictions w',
       getPredictionHistory Sample.env_down
         (Sample.alice_lists (Some "3") (Some "50")) Sample.empty_world
       = ({| code := 200; status := "success"; message := None;
             data :=
               Some (History predictions
                       {| total := 5; page := 1; limit := 10; pages := 1 |}) |},
          w')
       /\ length predictions = 5%nat.
Proof.
  assert (Hdown : readyState Sample.env_down <> 1) by discriminate.
  split; [exact Hdown|].
  destruct (getPredictionHistory_mock Sample.env_down
              (Sample.alice_lists (Some "3") (Some "50")) Sample.empty_world
              Hdown) as (predictions & w' & Hrun & Hlen & _).
  exists predictions, w'. split; [exact Hrun | exact Hlen].
Defined.

(** C5, amended, at a sample: the store down, the identifier "mock-1". *)
Lemma mock_lookup_and_delete_witness :
  readyState Sample.env_down <> 1
  /\ code (fst (getPredictionById Sample.env_down
                  (Sample.alice_looks_up "mock-1") Sample.empty_world)) = 200
  /\ code (fst (deletePrediction Sample.env_down
                  (Sample.alice_looks_up "mock-1") Sample.empty_world)) = 200.
Proof.
  assert (Hdown : readyState Sample.env_down <> 1) by discriminate.
  split; [exact Hdown|].
  destruct (mock_lookup_and_delete Sample.env_down
              (Sample.alice_looks_up "mock-1") Sample.empty_world Hdown)
    as (Hget & Hdel & _).
  split; [exact (proj2 Hget (or_introl eq_refl))
         | exact (proj2 Hdel (or_introl eq_refl))].
Defined.

(** C6 at a sample: bob asks for alice's record "a1", and alice deletes
    it twice. *)
Lemma owner_scoped_witness :
  readyState Sample.env_up = 1
  /\ store_healthy Sample.env_up
  /\ code (fst (getPredictionById Sample.env_up (Sample.bob_looks_up "a1")
                  Sample.busy_world)) = 404
  /\ code (fst (deletePrediction Sample.env_up (Sample.bob_looks_up "a1")
                  Sample.busy_world)) = 404
  /\ code (fst (deletePrediction Sample.env_up (Sample.alice_deletes "a1")
                  (snd (deletePrediction Sample.env_up
                          (Sample.alice_deletes "a1") Sample.busy_world))))
     = 404.
Proof.
  split; [reflexivity|]. split; [exact sample_store_healthy|].
  destruct (owner_scoped_lookup_and_delete Sample.no_number Sample.no_number
              Sample.env_up eq_refl sample_store_healthy)
    as (Habsent & _ & Htwice).
  assert (Hnone :
    forall d, In d (collection Sample.busy_world) ->
              ~ (_id d = params_id (Sample.bob_looks_up "a1")
                 /\ user d = credentials_id (Sample.bob_looks_up "a1"))).
  { intros d [<- | [<- | [<- | []]]] [Hid Huser]; discriminate. }
  destruct (Habsent (Sample.bob_looks_up "a1") Sample.busy_world Hnone)
    as (Hget & Hdel & _).
  split; [exact Hget|]. split; [exact Hdel|].
  apply Htwice. unfold unique_ids. simpl.
  repeat constructor; simpl; intros H;
    repeat (destruct H as [H | H]; [discriminate H|]); exact H.
Defined.

(** C7, amended, at three samples: a payload without [bmi], a required
    key; a payload whose [hypertension], an optional key, is [null]; and
    a payload that is [null]. *)
Lemma createPrediction_validation_error_witness :
  (In "bmi" required_fields
   /\ JS.own "bmi" Sample.payload_without_bmi = None
   /\ exists k after msg,
        createPrediction Sample.no_number Sample.no_number Sample.env_down
          (Sample.alice_sends Sample.payload_without_bmi) Sample.empty_world
        = ({| code := 400; status := "error"; message := Some msg;
              data := None |}, Sample.empty_world)
        /\ JS.includes msg (Joi.name k) = true
        /\ In "bmi" (map Joi.name (k :: after)))
  /\ (exists violated,
        In violated predictionValidation
        /\ In (Joi.name violated) optional_fields
        /\ ~ satisfies Sample.no_number Sample.payload_with_null_flag violated
        /\ exists k e msg,
             createPrediction Sample.no_number Sample.no_number
               Sample.env_down
               (Sample.alice_sends Sample.payload_with_null_flag)
               Sample.empty_world
             = ({| code := 400; status := "error"; message := Some msg;
                   data := None |}, Sample.empty_world)
             /\ JS.includes msg (Joi.name k) = true
             /\ (In (Joi.name k) optional_fields ->
                 msg = String.append (Joi.message e) optional_hint))
  /\ (Joi.as_object JS.NullBody = None
      /\ createPrediction Sample.no_number Sample.no_number Sample.env_down
           (Sample.alice_sends JS.NullBody) Sample.empty_world
         = ({| code := 400; status := "error";
               message := Some not_an_object_message; data := None |},
            Sample.empty_world)).
Proof.
  assert (Hin : In "bmi" required_fields) by (simpl; tauto).
  split; [|split].
  - split; [exact Hin|]. split; [reflexivity|].
    destruct (createPrediction_validation_error Sample.no_number
                Sample.no_number Sample.env_down
                (Sample.alice_sends Sample.payload_without_bmi)
                Sample.empty_world) as [Hobject _].
    destruct (Hobject Sample.payload_without_bmi eq_refl
                (or_introl (ex_intro _ "bmi" (conj Hin eq_refl))))
      as (before & k & after & e & msg & _ & _ & _ & _ & Hrun & Hnames
          & _ & Hfirst & _).
    exists k, after, msg. split; [exact Hrun|]. split; [exact Hnames|].
    exact (proj1 (Hfirst "bmi" Hin eq_refl)).
  - set (violated := {| Joi.name := "hypertension"; Joi.rule := Joi.boolean;
                        Joi.required := false;
                        Joi.default := Some (JS.Bool false) |}).
    assert (Hk : In violated predictionValidation) by (simpl; tauto).
    assert (Hno : ~ satisfies Sample.no_number Sample.payload_with_null_flag
                      violated)
      by (intros H; exact H).
    destruct (createPrediction_validation_error Sample.no_number
                Sample.no_number Sample.env_down
                (Sample.alice_sends Sample.payload_with_null_flag)
                Sample.empty_world) as [Hobject _].
    destruct (Hobject Sample.payload_with_null_flag eq_refl
                (or_intror (ex_intro _ violated (conj Hk Hno))))
      as (before & k & after & e & msg & _ & _ & _ & _ & Hrun & Hnames
          & _ & _ & Hhint & _).
    exists violated. split; [exact Hk|]. split; [simpl; tauto|].
    split; [exact Hno|].
    exists k, e, msg. split; [exact Hrun|]. split; [exact Hnames | exact Hhint].
  - split; [reflexivity|].
    exact (proj2 (createPrediction_validation_error Sample.no_number
                    Sample.no_number Sample.env_down
                    (Sample.alice_sends JS.NullBody) Sample.empty_world)
             eq_refl).
Defined.


(** C9 at a sample: alice's valid payload while the store is down. *)
Lemma createPrediction_mock_witness :
  readyState Sample.env_down <> 1
  /\ valid Sample.no_number (payload Sample.alice_creates)
  /\ exists res w',
       createPrediction Sample.no_number Sample.no_number Sample.env_down
         Sample.alice_creates Sample.empty_world
       = ({| code := 201; status := "success";
             message := Some "Prediction created successfully (MOCK - No DB)";
             data :=
               Some (Created "mock-1700000000000"
                       (payload Sample.alice_creates) res 1700000000001) |},
          w')
       /\ collection w' = [] /\ calls w' = [].
Proof.
  assert (Hdown : readyState Sample.env_down <> 1) by discriminate.
  split; [exact Hdown|]. split; [reflexivity|].
  destruct (createPrediction_mock Sample.no_number Sample.no_number
              Sample.env_down Sample.alice_creates Sample.empty_world
              Hdown eq_refl)
    as (res & w1 & w' & _ & Hrun & _ & Hcoll & Hcalls & _).
  exists res, w'. split; [exact Hrun|]. split; [exact Hcoll | exact Hcalls].
Defined.

(** *** The built-ins at sample inputs *)

Example parseInt_leading_digits : JS.parseInt (Some " 12abc") = JS.Fin 12.
Proof. reflexivity. Qed.

Example parseInt_hexadecimal : JS.parseInt (Some "-0x1A") = JS.Fin (-26).
Proof. reflexivity. Qed.

Example parseInt_a_word : JS.parseInt (Some "ten") = JS.NaN.
Proof. reflexivity. Qed.

(** A no-break space, U+00A0, is white space. *)
Example parseInt_no_break_space :
  JS.parseInt
    (Some (String (ascii_of_nat 194) (String (ascii_of_nat 160) "7")))
  = JS.Fin 7.
Proof. reflexivity. Qed.

(** 2^53 + 1 is not a double: it reads as 2^53. *)
Example parseInt_rounds :
  JS.parseInt (Some "9007199254740993") = JS.Fin 9007199254740992.
Proof. reflexivity. Qed.

(** The skip of page 2^53 + 1 with the default limit. *)
Example skip_rounds :
  skip_number (Sample.alice_lists (Some "9007199254740993") None)
  = JS.Fin 90071992547409904.
Proof. reflexivity. Qed.

Example parseInt_zero_limit :
  limit_of (Sample.alice_lists None (Some "0")) = 10.
Proof. reflexivity. Qed.

Example keys_in_order :
  JS.keys [ ("zzz", JS.Null); ("10", JS.Null); ("b", JS.Null);
            ("01", JS.Null); ("2", JS.Null) ]
  = ["2"; "10"; "zzz"; "b"; "01"].
Proof. reflexivity. Qed.

(** 0.1 as a double, and the largest mock [bmi]. *)
Example fl_tenth : (JS.fl (1 # 10) == 3602879701896397 # 36028797018963968)%Q.
Proof. reflexivity. Qed.

Example mock_bmi_at_the_top :
  exists q, mock_bmi (1 - (1 # 9007199254740992)) = JS.Num q /\ (q == 32)%Q.
Proof. eexists. split; reflexivity. Qed.

Example includes_inside : JS.includes "abcde" "cd" = true.
Proof. reflexivity. Qed.

Example string_of_Z_timestamp :
  JS.string_of_Z 1700000000000 = "1700000000000".
Proof. reflexivity. Qed.

Example toLowerCase_mixed : JS.toLowerCase "FaLse" = "false".
Proof. reflexivity. Qed.

Example not_an_object_message_text :
  not_an_object_message
  = String.append Joi.dquote
      (String.append "value"
         (String.append Joi.dquote " must be of type object")).
Proof. reflexivity. Qed.

(** A number that is not safe is refused, before a later key that is
    missing. *)
Example unsafe_age_message :
  message
    (fst (createPrediction Sample.no_number Sample.no_number Sample.env_down
            (Sample.alice_sends
               (JS.Fields
                  [ ("gender", JS.Str "Male");
                    ("age", JS.Num 100000000000000000000) ]))
            Sample.empty_world))
  = Some (String.append Joi.dquote
            (String.append "age"
               (String.append Joi.dquote " must be a safe number"))).
Proof. reflexivity. Qed.

(** So is a numeral beyond the doubles, which is parsed to an infinity. *)
Example infinite_age_message :
  message
    (fst (createPrediction Sample.no_number Sample.no_number Sample.env_down
            (Sample.alice_sends
               (JS.Fields
                  [ ("gender", JS.Str "Male");
                    ("age", JS.Infinity true) ]))
            Sample.empty_world))
  = Some (String.append Joi.dquote
            (String.append "age"
               (String.append Joi.dquote " cannot be infinity"))).
Proof. reflexivity. Qed.

(** A key the schema does not know is refused after the keys it knows;
    its message carries the hint when its name contains the name of an
    optional key. *)
Example unknown_key_message :
  message
    (fst (createPrediction Sample.no_number Sample.no_number Sample.env_down
            (Sample.request_of "alice"
               (("hypertension2", JS.Null)
                  :: Sample.payload_without_hypertension) "" None None)
            Sample.empty_world))
  = Some (String.append
            (String.append Joi.dquote
               (String.append "hypertension2"
                  (String.append Joi.dquote " is not allowed")))
            optional_hint).
Proof. reflexivity. Qed.

(** Joi converts the string "false" to the boolean in its [value], but
    the fallback reads the payload, where the string is truthy. *)
Example string_flag_reads_as_present :
  let p := Sample.payload_with_string_flag in
  Joi.error_of (Joi.validate Sample.no_number predictionValidation p) = None
  /\ JS.get "hypertension"
       (Joi.value (Joi.validate Sample.no_number predictionValidation p))
     = Some (JS.Bool false)
  /\ nth_error (threshold_factors Sample.no_number p) 3
     = Some ("hypertension", "Present").
Proof. cbv zeta. repeat split; reflexivity. Qed.

(** The required and the optional keys are those of the schema, in its
    order. *)
Example schema_fields :
  map Joi.name (filter Joi.required predictionValidation) = required_fields
  /\ map Joi.name
       (filter (fun k => negb (Joi.required k)) predictionValidation)
     = optional_fields.
Proof. split; reflexivity. Qed.

(* ================================================================== *)
(** ** Further properties of the real path *)
(* ================================================================== *)

Lemma find_matches_last (id owner : string) (l : list Prediction)
    (doc : Prediction) :
  ~ In id (map _id l) ->
  _id doc = id -> user doc = owner ->
  find (matches id owner) (l ++ [doc]) = Some doc.
Proof.
  intros Hnew Hid Howner.
  induction l as [|d l IH]; simpl.
  - replace (matches id owner doc) with true; [reflexivity|].
    symmetry. apply matches_iff. split; assumption.
  - destruct (matches id owner d) eqn:Hd.
    + apply matches_iff in Hd. exfalso. apply Hnew. left. exact (proj1 Hd).
    + apply IH. intros Hin. apply Hnew. right. exact Hin.
Qed.

(** Creating a record and fetching it by the returned identifier, as the
    same user, gives back the same [inputData] and [result]. *)
Theorem create_then_lookup :
  forall (StringToNumber coerceNumber : string -> option Q) (env : Env)
         (create lookup : Request) (w : World),
    readyState env = 1 ->
    store_healthy env ->
    valid coerceNumber (payload create) ->
    fresh_id env w ->
    credentials_id lookup = credentials_id create ->
    exists id res created wA doc,
      createPrediction StringToNumber coerceNumber env create w
      = ({| code := 201; status := "success";
            message := Some "Prediction created successfully";
            data := Some (Created id (payload create) res created) |}, wA)
      /\ (params_id lookup = id ->
          fst (getPredictionById env lookup wA)
          = {| code := 200; status := "success"; message := None;
               data := Some (Single doc) |}
          /\ _id doc = id
          /\ inputData doc = payload create
          /\ result doc = res
          /\ createdAt doc = created).
Proof.
  intros StringToNumber coerceNumber env create lookup w Hup Hhealthy Hvalid
         Hfresh Hsame.
  destruct (create_real_stores StringToNumber coerceNumber env create w
              Hup Hhealthy Hvalid Hfresh)
    as (doc & wA & Hcreate & Hcoll & Hid & Howner & Hinput).
  exists (_id doc), (result doc), (createdAt doc), wA, doc.
  split; [exact Hcreate|].
  intros Hparam.
  rewrite (real_lookup_unfold env lookup wA Hup). cbv zeta.
  rewrite Hhealthy, Hcoll, Hparam, Hsame.
  rewrite (find_matches_last (_id doc) (credentials_id create)
             (collection w) doc);
    [repeat split; try reflexivity; exact Hinput | | reflexivity | exact Howner].
  rewrite Hid. exact Hfresh.
Qed.

Lemma create_then_lookup_witness :
  exists id res created wA doc,
    createPrediction Sample.no_number Sample.no_number Sample.env_up
      Sample.alice_creates Sample.empty_world
    = ({| code := 201; status := "success";
          message := Some "Prediction created successfully";
          data :=
            Some (Created id (payload Sample.alice_creates) res created) |},
       wA)
    /\ (params_id (Sample.alice_looks_up "id-0") = id ->
        fst (getPredictionById Sample.env_up (Sample.alice_looks_up "id-0") wA)
        = {| code := 200; status := "success"; message := None;
             data := Some (Single doc) |}
        /\ _id doc = id
        /\ inputData doc = payload Sample.alice_creates
        /\ result doc = res
        /\ createdAt doc = created).
Proof.
  exact (create_then_lookup Sample.no_number Sample.no_number Sample.env_up
           Sample.alice_creates (Sample.alice_looks_up "id-0")
           Sample.empty_world eq_refl sample_store_healthy eq_refl
           (fun H : False => H) eq_refl).
Defined.

(** A connected store that fails an operation a handler sends: the
    handler answers 500 with the message of the failure.  This is so for
    Create on a valid payload when the save of its record fails, for List
    when the find fails or when the count fails after a find that did
    not, for GetByOne when the lookup fails and for Delete when the
    removal fails; a failed save and a failed removal leave the collection
    as it was. *)
Theorem store_failure_is_500 :
  forall (StringToNumber coerceNumber : string -> option Q) (env : Env)
         (request : Request) (w : World) (msg : string),
    readyState env = 1 ->
    (valid coerceNumber (payload request) ->
     (forall doc,
         user doc = credentials_id request ->
         inputData doc = payload request ->
         storeError env (Save doc) = Some msg) ->
     fst (createPrediction StringToNumber coerceNumber env request w)
     = internal_error msg
     /\ collection
          (snd (createPrediction StringToNumber coerceNumber env request w))
        = collection w)
    /\ (storeError env
          (Find (credentials_id request) (skip_number request)
             (limit_number request)) = Some msg ->
        fst (getPredictionHistory env request w) = internal_error msg)
    /\ (storeError env
          (Find (credentials_id request) (skip_number request)
             (limit_number request)) = None ->
        bad_skip (skip_number request) = false ->
        storeError env (CountDocuments (credentials_id request)) = Some msg ->
        fst (getPredictionHistory env request w) = internal_error msg)
    /\ (storeError env (FindOne (params_id request) (credentials_id request))
        = Some msg ->
        fst (getPredictionById env request w) = internal_error msg)
    /\ (storeError env
          (FindOneAndDelete (params_id request) (credentials_id request))
        = Some msg ->
        fst (deletePrediction env request w) = internal_error msg
        /\ collection (snd (deletePrediction env request w)) = collection w).
Proof.
  intros StringToNumber coerceNumber env request w msg Hup.
  split; [|split; [|split; [|split]]].
  - intros Hvalid Hfail.
    destruct (predict_returns StringToNumber env (payload request) w)
      as (res & w1 & Hrun & _ & _ & Hcoll & _).
    rewrite (create_real StringToNumber coerceNumber env request w
               Hvalid Hup res w1 Hrun).
    cbv zeta. rewrite Hfail by reflexivity.
    split; [reflexivity | exact Hcoll].
  - intros Hfail.
    rewrite (real_history_unfold env request w Hup). cbv zeta.
    rewrite Hfail. reflexivity.
  - intros Hfind Hskip Hfail.
    rewrite (real_history_unfold env request w Hup). cbv zeta.
    rewrite Hfind, Hskip, Hfail. reflexivity.
  - intros Hfail.
    rewrite (real_lookup_unfold env request w Hup). cbv zeta.
    rewrite Hfail. reflexivity.
  - intros Hfail.
    rewrite (real_delete_unfold env request w Hup). cbv zeta.
    rewrite Hfail. split; reflexivity.
Qed.

(** At a sample: a store that fails the count only. *)
Lemma store_failure_is_500_witness :
  storeError Sample.env_count_fails (CountDocuments "alice")
  = Some "connection reset"
  /\ fst (getPredictionHistory Sample.env_count_fails
            (Sample.alice_lists None None) Sample.busy_world)
     = internal_error "connection reset".
Proof.
  split; [reflexivity|].
  destruct (store_failure_is_500 Sample.no_number Sample.no_number
              Sample.env_count_fails (Sample.alice_lists None None)
              Sample.busy_world "connection reset" eq_refl)
    as (_ & _ & Hcount & _).
  exact (Hcount eq_refl eq_refl eq_refl).
Defined.

(* ================================================================== *)
(** ** Further properties of Create *)
(* ================================================================== *)

(** An object that satisfies every rule passes the keys of the schema. *)
Lemma validate_keys_satisfied (coerceNumber : string -> option Q)
    (raw : JS.object) (ks : list Joi.key) :
  Forall (satisfies coerceNumber raw) ks ->
  forall acc, exists v, Joi.validate_keys coerceNumber ks raw acc = inr v.
Proof.
  induction ks as [|k ks IH]; intros Hall acc; simpl.
  - exists acc. reflexivity.
  - inversion Hall as [|? ? Hk Hks]; subst. rewrite satisfies_check in Hk.
    destruct (JS.own (Joi.name k) raw) as [v|].
    + destruct Hk as (v' & ->). apply IH. exact Hks.
    + rewrite Hk. apply IH. exact Hks.
Qed.

(** And an object that passes them satisfies every rule. *)
Lemma validate_keys_passed (coerceNumber : string -> option Q)
    (raw : JS.object) (ks : list Joi.key) :
  forall acc v,
    Joi.validate_keys coerceNumber ks raw acc = inr v ->
    Forall (satisfies coerceNumber raw) ks.
Proof.
  induction ks as [|k ks IH]; intros acc v; simpl; [constructor|].
  destruct (JS.own (Joi.name k) raw) as [x|] eqn:Hget.
  - destruct (Joi.check coerceNumber (Joi.rule k) x) as [c | x'] eqn:Hcheck;
      [discriminate|].
    intros H. constructor; [|exact (IH _ _ H)].
    rewrite satisfies_check. rewrite Hget, Hcheck. exists x'. reflexivity.
  - destruct (Joi.required k) eqn:Hreq; [discriminate|].
    intros H. constructor; [|exact (IH _ _ H)].
    rewrite satisfies_check. rewrite Hget. exact Hreq.
Qed.

Lemma find_unknown_none (names l : list string) :
  find (fun k => negb (existsb (String.eqb k) names)) l = None
  <-> Forall (fun k => In k names) l.
Proof.
  induction l as [|k l IH]; simpl.
  - split; [constructor | reflexivity].
  - destruct (existsb (String.eqb k) names) eqn:E; simpl.
    + apply In_existsb_eqb in E. destruct IH as [IH1 IH2]. split.
      * intros H. constructor; [exact E | exact (IH1 H)].
      * intros H. inversion H; subst. apply IH2. assumption.
    + split; [discriminate|].
      intros H. inversion H as [|? ? Hin _]; subst.
      apply In_existsb_eqb in Hin. congruence.
Qed.


Lemma unknown_key_none (p : JS.object) :
  Joi.unknown_key predictionValidation p = None <-> known_keys p.
Proof. exact (find_unknown_none schema_names (JS.keys p)). Qed.


(** [Object.keys] lists the keys of the object, each of them. *)
Lemma insert_index_In (i : Z) (k : string) (l : list (Z * string))
    (x : Z * string) :
  In x (JS.insert_index i k l) <-> x = (i, k) \/ In x l.
Proof.
  induction l as [|[j k'] l IH]; simpl.
  - split; [intros [H | []]; left; symmetry; exact H
           | intros [H | []]; left; symmetry; exact H].
  - destruct (i <? j); simpl.
    + split; [intros [H | H]; [left; symmetry; exact H | right; exact H]
             | intros [H | H]; [left; symmetry; exact H | right; exact H]].
    + rewrite IH. tauto.
Qed.

Lemma index_keys_In (ks : list string) (k : string) :
  In k (map snd (JS.index_keys ks))
  <-> In k ks /\ JS.index_of k <> None.
Proof.
  induction ks as [|k' ks IH]; simpl.
  - tauto.
  - destruct (JS.index_of k') as [i|] eqn:E.
    + rewrite in_map_iff. split.
      * intros ([j x] & Hx & Hin). simpl in Hx. subst x.
        apply insert_index_In in Hin. destruct Hin as [Heq | Hin].
        -- injection Heq as -> ->. split; [left; reflexivity | congruence].
        -- assert (H : In k (map snd (JS.index_keys ks)))
             by (apply in_map_iff; exists (j, k); tauto).
           apply IH in H. tauto.
      * intros [[-> | Hin] Hidx].
        -- exists (i, k). split; [reflexivity|].
           apply insert_index_In. left. reflexivity.
        -- assert (H : In k (map snd (JS.index_keys ks)))
             by (apply IH; tauto).
           apply in_map_iff in H. destruct H as ([j x] & Hx & H).
           simpl in Hx. subst x. exists (j, k). split; [reflexivity|].
           apply insert_index_In. right. exact H.
    + rewrite IH. split.
      * intros [Hin Hidx]. tauto.
      * intros [[-> | Hin] Hidx]; [congruence | tauto].
Qed.

Lemma keys_In (o : JS.object) (k : string) :
  In k (JS.keys o) <-> In k (map fst o).
Proof.
  unfold JS.keys. rewrite in_app_iff, index_keys_In, filter_In.
  destruct (JS.index_of k); split.
  - intros [[H _] | [_ H]]; [exact H | discriminate].
  - intros H. left. split; [exact H | discriminate].
  - intros [[_ H] | [H _]]; [congruence | exact H].
  - intros H. right. split; [exact H | reflexivity].
Qed.

(** The schema accepts exactly the payloads that are an object, or a
    string that spells one, which satisfies the rule of every key and
    has no key the schema does not know. *)
Lemma valid_iff (coerceNumber : string -> option Q) (p : JS.body) :
  valid coerceNumber p
  <-> exists o,
        Joi.as_object p = Some o
        /\ Forall (satisfies coerceNumber o) predictionValidation
        /\ known_keys o.
Proof.
  unfold valid, Joi.validate.
  destruct (Joi.as_object p) as [o|];
    [|split; [discriminate | intros (o & H & _); discriminate]].
  split.
  - destruct (Joi.validate_keys coerceNumber predictionValidation o o)
      as [e | v] eqn:Hkeys; [discriminate|].
    destruct (Joi.unknown_key predictionValidation o) eqn:Hunknown;
      [discriminate|].
    intros _. exists o. split; [reflexivity|].
    split; [exact (validate_keys_passed _ _ _ _ _ Hkeys)|].
    apply unknown_key_none. exact Hunknown.
  - intros (o' & Ho & Hall & Hknown). injection Ho as <-.
    destruct (validate_keys_satisfied coerceNumber o predictionValidation
                Hall o) as (v & ->).
    apply unknown_key_none in Hknown. rewrite Hknown. reflexivity.
Qed.

(** On a valid payload Create answers 201 or 500, never 400. *)
Lemma create_valid_codes (StringToNumber coerceNumber : string -> option Q)
    (env : Env) (request : Request) (w : World) :
  valid coerceNumber (payload request) ->
  let r := fst (createPrediction StringToNumber coerceNumber env request w) in
  (code r = 201 /\ status r = "success" /\ message r <> None)
  \/ (readyState env = 1 /\ code r = 500 /\ status r = "error"
      /\ message r <> None /\ data r = None).
Proof.
  intros Hvalid.
  destruct (predict_returns StringToNumber env (payload request) w)
    as (res & w1 & Hrun & _).
  destruct (Z.eq_dec (readyState env) 1) as [Hup | Hdown].
  - rewrite (create_real StringToNumber coerceNumber env request w
               Hvalid Hup res w1 Hrun). cbv zeta.
    destruct (storeError env _);
      [right | left]; simpl; repeat split; try assumption; discriminate.
  - rewrite (create_mock StringToNumber coerceNumber env request w
               Hvalid Hdown res w1 Hrun).
    left. simpl. repeat split; discriminate.
Qed.

(** Create answers 400 exactly on the payloads the schema refuses, and
    the schema takes exactly the payloads that are an object, or a string
    that spells one, in which every key of the schema is either missing
    and optional or holds a value its rule takes, and in which every key
    is one of the schema.  A refused request leaves the clock, the random
    source and the store untouched. *)
Theorem create_rejects_exactly_invalid :
  forall (StringToNumber coerceNumber : string -> option Q) (env : Env)
         (request : Request) (w : World),
    (valid coerceNumber (payload request)
     <-> exists o,
           Joi.as_object (payload request) = Some o
           /\ (forall k,
                 In k predictionValidation ->
                 match JS.own (Joi.name k) o with
                 | None => Joi.required k = false
                 | Some v => acceptable coerceNumber (Joi.rule k) v
                 end)
           /\ (forall k, In k (map fst o) -> In k schema_names))
    /\ (code (fst (createPrediction StringToNumber coerceNumber env request w))
        = 400
        <-> ~ valid coerceNumber (payload request))
    /\ (~ valid coerceNumber (payload request) ->
        status (fst (createPrediction StringToNumber coerceNumber env
                       request w)) = "error"
        /\ data (fst (createPrediction StringToNumber coerceNumber env
                        request w)) = None
        /\ snd (createPrediction StringToNumber coerceNumber env request w)
           = w).
Proof.
  intros StringToNumber coerceNumber env request w.
  split.
  { rewrite valid_iff. split; intros (o & Ho & Hall & Hknown); exists o;
      (split; [exact Ho|]; split).
    - intros k Hk.
      pose proof (proj1 (Forall_forall _ _) Hall k Hk) as Hsat.
      rewrite satisfies_check in Hsat.
      destruct (JS.own (Joi.name k) o); [|exact Hsat].
      apply check_accepts. exact Hsat.
    - intros k Hk. apply keys_In in Hk.
      exact (proj1 (Forall_forall _ _) Hknown k Hk).
    - apply Forall_forall. intros k Hk. pose proof (Hall k Hk) as Hsat.
      rewrite satisfies_check.
      destruct (JS.own (Joi.name k) o); [|exact Hsat].
      apply check_accepts. exact Hsat.
    - apply Forall_forall. intros k Hk. apply Hknown, keys_In. exact Hk. }
  unfold valid.
  destruct (Joi.error_of
              (Joi.validate coerceNumber predictionValidation
                 (payload request))) as [e|] eqn:Hv.
  - rewrite (create_invalid StringToNumber coerceNumber env request w e Hv).
    simpl. split.
    + split; [intros _; discriminate | reflexivity].
    + intros _. repeat split.
  - split.
    + split; [|intros H; contradiction H; reflexivity].
      intros H400.
      destruct (create_valid_codes StringToNumber coerceNumber env request w
                  Hv) as [(H & _) | (_ & H & _)];
        cbv zeta in H; rewrite H in H400; discriminate.
    + intros H. contradiction H. reflexivity.
Qed.

(** *** Unknown keys *)







(** *** The result of the inference service *)

Lemma predict_success (StringToNumber : string -> option Q) (env : Env)
    (input : JS.body) (w : World) (r : PredictionResult)
    (recs : Recommendations) :
  makePrediction env input = Returns r ->
  getRecommendations env r = Returns recs ->
  predict StringToNumber env input w
  = (Returns (with_recommendations r recs), w).
Proof.
  intros Hr Hrecs. unfold predict, try_catch, bind, call, ret.
  rewrite Hr, Hrecs. reflexivity.
Qed.

(** When the inference service answers, Create answers 201 with the
    payload and the service's [prediction], [riskScore] and [factors];
    the [recommendations] are those [getRecommendations] returned, in
    place of any the service's result came with.  [Math.random] is not
    called.  On the real path the same result is what is stored. *)
Theorem create_returns_the_service_result :
  forall (StringToNumber coerceNumber : string -> option Q) (env : Env)
         (request : Request) (w : World) (r : PredictionResult)
         (recs : Recommendations),
    valid coerceNumber (payload request) ->
    makePrediction env (payload request) = Returns r ->
    getRecommendations env r = Returns recs ->
    (readyState env = 1 -> store_healthy env /\ fresh_id env w) ->
    exists id created w',
      createPrediction StringToNumber coerceNumber env request w
      = ({| code := 201; status := "success";
            message :=
              Some (if disconnected env
                    then "Prediction created successfully (MOCK - No DB)"
                    else "Prediction created successfully");
            data :=
              Some (Created id (payload request)
                      (with_recommendations r recs) created) |},
         w')
      /\ draws w' = draws w
      /\ (readyState env = 1 ->
          exists doc,
            collection w' = collection w ++ [doc]
            /\ _id doc = id
            /\ user doc = credentials_id request
            /\ inputData doc = payload request
            /\ result doc = with_recommendations r recs).
Proof.
  intros StringToNumber coerceNumber env request w r recs Hvalid Hr Hrecs
         Hstore.
  pose proof (predict_success StringToNumber env (payload request) w r recs
                Hr Hrecs) as Hrun.
  destruct (Z.eq_dec (readyState env) 1) as [Hup | Hdown].
  - destruct (Hstore Hup) as [Hhealthy Hfresh].
    pose proof (create_real StringToNumber coerceNumber env request w
                  Hvalid Hup _ _ Hrun) as Hcreate.
    cbv zeta in Hcreate. rewrite Hhealthy in Hcreate.
    rewrite (disconnected_false env Hup).
    eexists _, _, _. split; [exact Hcreate|].
    split; [reflexivity|]. intros _.
    eexists. split; [reflexivity|]. repeat split; reflexivity.
  - pose proof (create_mock StringToNumber coerceNumber env request w
                  Hvalid Hdown _ _ Hrun) as Hcreate.
    rewrite (disconnected_true env Hdown).
    eexists _, _, _. split; [exact Hcreate|].
    split; [reflexivity | contradiction].
Qed.

Lemma create_returns_the_service_result_witness :
  exists id created w',
    createPrediction Sample.no_number Sample.no_number Sample.env_echo
      Sample.alice_creates Sample.empty_world
    = ({| code := 201; status := "success";
          message := Some "Prediction created successfully (MOCK - No DB)";
          data :=
            Some (Created id (payload Sample.alice_creates)
                    (with_recommendations
                       {| prediction := "Low Risk"; riskScore := 1 # 10;
                          factors := [("hypertension", "undefined")];
                          recommendations := None |}
                       static_recommendations) created) |},
       w')
    /\ draws w' = 0%nat.
Proof.
  destruct (create_returns_the_service_result Sample.no_number
              Sample.no_number Sample.env_echo Sample.alice_creates
              Sample.empty_world _ _ eq_refl eq_refl eq_refl
              (fun H : 0 = 1 =>
                 match Z.eqb_neq 0 1 with
                 | conj f _ => False_ind _ (f eq_refl H)
                 end))
    as (id & created & w' & Hrun & Hdraws & _).
  exists id, created, w'. split; [exact Hrun | exact Hdraws].
Defined.

(** *** The validated value *)

Lemma get_set_same (k : string) (v : JS.value) (o : JS.object) :
  JS.own k (JS.set k v o) = Some v.
Proof.
  induction o as [|[k' v'] o IH]; simpl.
  - rewrite String.eqb_refl. reflexivity.
  - destruct (String.eqb k k') eqn:E; simpl; rewrite ?String.eqb_refl, ?E;
      [reflexivity | exact IH].
Qed.

Lemma get_set_other (k n : string) (v : JS.value) (o : JS.object) :
  n <> k -> JS.own n (JS.set k v o) = JS.own n o.
Proof.
  intros Hne. apply String.eqb_neq in Hne.
  induction o as [|[k' v'] o IH]; simpl.
  - rewrite Hne. reflexivity.
  - destruct (String.eqb k k') eqn:E; simpl.
    + apply String.eqb_eq in E. subst k'. rewrite Hne. reflexivity.
    + rewrite IH. reflexivity.
Qed.

(** What the keys of a schema leave in the copy: for each key the
    converted value of the payload, else its default, else what the copy
    held; the other keys are as the copy held them. *)
Lemma validate_keys_value (coerceNumber : string -> option Q)
    (raw : JS.object) (ks : list Joi.key) :
  NoDup (map Joi.name ks) ->
  forall acc v,
    Joi.validate_keys coerceNumber ks raw acc = inr v ->
    (forall k, In k ks ->
       JS.own (Joi.name k) v
       = match JS.own (Joi.name k) raw with
         | Some x =>
             match Joi.check coerceNumber (Joi.rule k) x with
             | inr x' => Some x'
             | inl _ => None
             end
         | None =>
             match Joi.default k with
             | Some d => Some d
             | None => JS.own (Joi.name k) acc
             end
         end)
    /\ (forall n, ~ In n (map Joi.name ks) -> JS.own n v = JS.own n acc).
Proof.
  induction ks as [|k ks IH]; intros Hnd acc v Hrun; simpl in *.
  - injection Hrun as <-. split; [intros k []| reflexivity].
  - inversion Hnd as [|? ? Hnotin Hnd']; subst.
    assert (Hstep : exists acc',
              Joi.validate_keys coerceNumber ks raw acc' = inr v
              /\ (forall n, n <> Joi.name k -> JS.own n acc' = JS.own n acc)
              /\ JS.own (Joi.name k) acc'
                 = match JS.own (Joi.name k) raw with
                   | Some x =>
                       match Joi.check coerceNumber (Joi.rule k) x with
                       | inr x' => Some x'
                       | inl _ => None
                       end
                   | None =>
                       match Joi.default k with
                       | Some d => Some d
                       | None => JS.own (Joi.name k) acc
                       end
                   end).
    { destruct (JS.own (Joi.name k) raw) as [x|].
      - destruct (Joi.check coerceNumber (Joi.rule k) x) as [c | x'];
          [discriminate|].
        eexists. split; [exact Hrun|].
        split; [intros n Hn; apply get_set_other; exact Hn
               | apply get_set_same].
      - destruct (Joi.required k); [discriminate|].
        destruct (Joi.default k) as [d|].
        + eexists. split; [exact Hrun|].
          split; [intros n Hn; apply get_set_other; exact Hn
                 | apply get_set_same].
        + exists acc. split; [exact Hrun|]. split; reflexivity. }
    destruct Hstep as (acc' & Hrun' & Hother & Hsame).
    destruct (IH Hnd' acc' v Hrun') as [Hkeys Hrest].
    split.
    + intros k' [<- | Hin].
      * rewrite (Hrest _ Hnotin). exact Hsame.
      * rewrite (Hkeys k' Hin).
        assert (Hne : Joi.name k' <> Joi.name k).
        { intros Heq. apply Hnotin. rewrite <- Heq. apply in_map. exact Hin. }
        rewrite (Hother _ Hne). reflexivity.
    + intros n Hn. rewrite (Hrest n (fun H => Hn (or_intror H))).
      apply Hother. intros Heq. apply Hn. left. symmetry. exact Heq.
Qed.

Lemma schema_names_unique : NoDup schema_names.
Proof.
  unfold schema_names. simpl.
  repeat constructor; simpl; intros H;
    repeat (destruct H as [H | H]; [discriminate H|]); exact H.
Qed.

(** The value [validate] returns for a valid payload holds, for every key
    of the schema, the converted value of the payload when the key is
    there and the default of the key when it is not: [hypertension] is
    always in it, as a boolean, and is [false] when the payload leaves it
    out. *)
Theorem validated_value :
  forall (coerceNumber : string -> option Q) (p : JS.object),
    valid coerceNumber p ->
    (forall k,
       In k predictionValidation ->
       JS.get (Joi.name k)
         (Joi.value (Joi.validate coerceNumber predictionValidation p))
       = match JS.get (Joi.name k) p with
         | Some x =>
             match Joi.check coerceNumber (Joi.rule k) x with
             | inr x' => Some x'
             | inl _ => None
             end
         | None => Joi.default k
         end)
    /\ (exists b,
          JS.get "hypertension"
            (Joi.value (Joi.validate coerceNumber predictionValidation p))
          = Some (JS.Bool b))
    /\ (JS.get "hypertension" p = None ->
        JS.get "hypertension"
          (Joi.value (Joi.validate coerceNumber predictionValidation p))
        = Some (JS.Bool false)).
Proof.
  intros coerceNumber p Hvalid.
  assert (Hkeys : forall k,
    In k predictionValidation ->
    JS.get (Joi.name k)
      (Joi.value (Joi.validate coerceNumber predictionValidation p))
    = match JS.get (Joi.name k) p with
      | Some x =>
          match Joi.check coerceNumber (Joi.rule k) x with
          | inr x' => Some x'
          | inl _ => None
          end
      | None => Joi.default k
      end).
  { intros k Hk. unfold valid, Joi.validate in *.
    cbn [Joi.as_object] in *.
    destruct (Joi.validate_keys coerceNumber predictionValidation p p)
      as [e | v] eqn:Hrun; [discriminate|].
    destruct (Joi.unknown_key predictionValidation p); [discriminate|].
    cbn [Joi.value JS.get].
    destruct (validate_keys_value coerceNumber p predictionValidation
                schema_names_unique p v Hrun) as [Hv _].
    rewrite (Hv k Hk).
    destruct (JS.own (Joi.name k) p); [reflexivity|].
    destruct (Joi.default k); reflexivity. }
  split; [exact Hkeys|].
  pose proof (Hkeys
                {| Joi.name := "hypertension"; Joi.rule := Joi.boolean;
                   Joi.required := false;
                   Joi.default := Some (JS.Bool false) |}
                ltac:(simpl; tauto)) as Hh.
  cbn [Joi.name Joi.rule Joi.default JS.get] in Hh.
  split.
  - apply valid_iff in Hvalid.
    destruct Hvalid as (o & Ho & Hall & _). injection Ho as <-.
    pose proof (proj1 (Forall_forall _ _) Hall
                  {| Joi.name := "hypertension"; Joi.rule := Joi.boolean;
                     Joi.required := false;
                     Joi.default := Some (JS.Bool false) |}
                  ltac:(simpl; tauto)) as Hsat.
    rewrite satisfies_check in Hsat. cbn [Joi.name Joi.rule Joi.required] in Hsat.
    destruct (JS.own "hypertension" p) as [x|];
      [|exists false; exact Hh].
    destruct Hsat as (x' & Hx'). rewrite Hx' in Hh.
    destruct x as [| b | q | i | s |]; simpl in Hx'; try discriminate.
    + injection Hx' as <-. exists b. exact Hh.
    + destruct (String.eqb (JS.toLowerCase s) "true");
        [injection Hx' as <-; exists true; exact Hh|].
      destruct (String.eqb (JS.toLowerCase s) "false");
        [injection Hx' as <-; exists false; exact Hh | discriminate].
  - intros Hnone. cbn [JS.get] in Hnone. rewrite Hnone in Hh. exact Hh.
Qed.

Lemma validated_value_witness :
  JS.get "hypertension"
    (Joi.value
       (Joi.validate Sample.no_number predictionValidation
          Sample.payload_without_hypertension))
  = Some (JS.Bool false).
Proof.
  exact (proj2 (proj2 (validated_value Sample.no_number
                         Sample.payload_without_hypertension eq_refl))
           eq_refl).
Defined.

(** A valid payload may give [hypertension] or [heartDisease] as a
    string: it is then "true" or "false" up to case, and the validated
    value holds the boolean it spells; the fallback, which reads the
    payload, labels the factor "Present" whichever of the two it is. *)
Theorem string_flags_read_as_present :
  forall (StringToNumber coerceNumber : string -> option Q)
         (p : JS.object) (f s : string),
    valid coerceNumber p ->
    f = "hypertension" \/ f = "heartDisease" ->
    JS.get f p = Some (JS.Str s) ->
    (JS.toLowerCase s = "true" \/ JS.toLowerCase s = "false")
    /\ JS.get f (Joi.value (Joi.validate coerceNumber predictionValidation p))
       = Some (JS.Bool (String.eqb (JS.toLowerCase s) "true"))
    /\ In (f, "Present") (threshold_factors StringToNumber p).
Proof.
  intros StringToNumber coerceNumber p f s Hvalid Hf Hget.
  assert (Hkey : exists k,
            In k predictionValidation /\ Joi.name k = f
            /\ Joi.rule k = Joi.boolean).
  { destruct Hf as [-> | ->].
    - exists {| Joi.name := "hypertension"; Joi.rule := Joi.boolean;
                Joi.required := false;
                Joi.default := Some (JS.Bool false) |}.
      split; [simpl; tauto | split; reflexivity].
    - exists {| Joi.name := "heartDisease"; Joi.rule := Joi.boolean;
                Joi.required := true; Joi.default := None |}.
      split; [simpl; tauto | split; reflexivity]. }
  destruct Hkey as (k & Hk & Hname & Hrule).
  destruct (validated_value coerceNumber p Hvalid) as [Hvalue _].
  pose proof (Hvalue k Hk) as Hv. rewrite Hname, Hget, Hrule in Hv.
  apply valid_iff in Hvalid.
  destruct Hvalid as (o & Ho & Hall & _). injection Ho as <-.
  pose proof (proj1 (Forall_forall _ _) Hall k Hk) as Hsat.
  rewrite satisfies_check in Hsat. cbn [JS.get] in Hget.
  rewrite Hname, Hget, Hrule in Hsat.
  destruct Hsat as (x' & Hx'). simpl in Hx', Hv.
  assert (Hspelled :
    JS.toLowerCase s = "true" \/ JS.toLowerCase s = "false").
  { destruct (String.eqb_spec (JS.toLowerCase s) "true") as [E | _];
      [left; exact E|].
    destruct (String.eqb_spec (JS.toLowerCase s) "false") as [E | _];
      [right; exact E | discriminate]. }
  split; [exact Hspelled|]. split.
  - rewrite Hv. destruct Hspelled as [E | E]; rewrite E; reflexivity.
  - assert (Htruthy : JS.truthy (JS.get f p) = true).
    { cbn [JS.get]. rewrite Hget. simpl. destruct s; [|reflexivity].
      destruct Hspelled as [E | E]; discriminate E. }
    unfold threshold_factors. destruct Hf as [-> | ->]; rewrite Htruthy;
      simpl; tauto.
Qed.

Lemma string_flags_read_as_present_witness :
  JS.get "hypertension"
    (Joi.value
       (Joi.validate Sample.no_number predictionValidation
          (JS.Fields
             (("hypertension", JS.Str "False")
                :: Sample.payload_without_hypertension))))
  = Some (JS.Bool false)
  /\ In ("hypertension", "Present")
       (threshold_factors Sample.no_number
          (JS.Fields
             (("hypertension", JS.Str "False")
                :: Sample.payload_without_hypertension))).
Proof.
  exact (proj2 (string_flags_read_as_present Sample.no_number
                  Sample.no_number
                  (("hypertension", JS.Str "False")
                     :: Sample.payload_without_hypertension)
                  "hypertension" "False" eq_refl (or_introl eq_refl)
                  eq_refl)).
Defined.

(* ================================================================== *)
(** ** Further properties of lookup and delete *)
(* ================================================================== *)

Lemma find_matches_some (id owner : string) (l : list Prediction) :
  (exists d, In d l /\ _id d = id /\ user d = owner)
  <-> exists d, find (matches id owner) l = Some d.
Proof.
  split.
  - intros (d & Hin & Hid & Howner).
    destruct (find (matches id owner) l) as [x|] eqn:E; [exists x; reflexivity|].
    pose proof (find_none _ _ E d Hin) as Hno.
    assert (Hyes : matches id owner d = true)
      by (apply matches_iff; split; assumption).
    congruence.
  - intros (d & Hfind). apply find_some in Hfind. destruct Hfind as [Hin Hm].
    apply matches_iff in Hm. exists d. tauto.
Qed.

Lemma remove_first_keeps (f : Prediction -> bool) (l : list Prediction)
    (d : Prediction) :
  In d l -> f d = false -> In d (remove_first f l).
Proof.
  induction l as [|x l IH]; simpl; [tauto|].
  intros [-> | Hin] Hd.
  - rewrite Hd. left. reflexivity.
  - destruct (f x); [exact Hin | right; exact (IH Hin Hd)].
Qed.

Lemma remove_first_length (f : Prediction -> bool) (l : list Prediction)
    (d : Prediction) :
  find f l = Some d -> S (length (remove_first f l)) = length l.
Proof.
  induction l as [|x l IH]; simpl; [discriminate|].
  destruct (f x); [reflexivity|]. intros H. simpl. rewrite (IH H). reflexivity.
Qed.

Lemma remove_first_last (f : Prediction -> bool) (l : list Prediction)
    (d : Prediction) :
  (forall x, In x l -> f x = false) -> f d = true ->
  remove_first f (l ++ [d]) = l.
Proof.
  intros Hl Hd. induction l as [|x l IH]; simpl.
  - rewrite Hd. reflexivity.
  - rewrite (Hl x (or_introl eq_refl)). rewrite IH; [reflexivity|].
    intros y Hy. apply Hl. right. exact Hy.
Qed.

(** With unique identifiers, the records a delete leaves are those that
    do not match. *)
Lemma remove_first_exactly (id owner : string) (l : list Prediction) :
  NoDup (map _id l) ->
  forall d,
    In d (remove_first (matches id owner) l)
    <-> In d l /\ ~ (_id d = id /\ user d = owner).
Proof.
  intros Hnd d. split.
  - intros Hin. split; [exact (remove_first_incl _ _ _ Hin)|].
    intros Hm. apply matches_iff in Hm.
    pose proof (find_after_remove_first id owner l Hnd) as Hnone.
    pose proof (find_none _ _ Hnone d Hin). congruence.
  - intros [Hin Hno]. apply remove_first_keeps; [exact Hin|].
    destruct (matches id owner d) eqn:E; [|reflexivity].
    apply matches_iff in E. contradiction.
Qed.

(** Against a connected store that fails no operation, GetByOne answers
    200 exactly when a record has the requested identifier and the
    requester as its owner, and 404 otherwise; the record it returns is
    one of the collection, with that identifier and that owner, never a
    record of another user.  The lookup is one [findOne] and changes
    nothing. *)
Theorem lookup_is_owner_scoped :
  forall (env : Env) (request : Request) (w : World),
    readyState env = 1 ->
    store_healthy env ->
    (code (fst (getPredictionById env request w)) = 200
     <-> exists d, In d (collection w) /\ _id d = params_id request
                   /\ user d = credentials_id request)
    /\ (code (fst (getPredictionById env request w)) = 200
        \/ code (fst (getPredictionById env request w)) = 404)
    /\ (forall d,
          data (fst (getPredictionById env request w)) = Some (Single d) ->
          In d (collection w) /\ _id d = params_id request
          /\ user d = credentials_id request)
    /\ collection (snd (getPredictionById env request w)) = collection w
    /\ calls (snd (getPredictionById env request w))
       = FindOne (params_id request) (credentials_id request) :: calls w.
Proof.
  intros env request w Hup Hhealthy.
  rewrite (real_lookup_unfold env request w Hup). cbv zeta.
  rewrite Hhealthy. simpl.
  rewrite (find_matches_some (params_id request) (credentials_id request)
             (collection w)).
  destruct (find (matches (params_id request) (credentials_id request))
              (collection w)) as [doc|] eqn:Hfind; simpl.
  - apply find_some in Hfind. destruct Hfind as [Hin Hm].
    apply matches_iff in Hm.
    split; [split; [intros _; exists doc; reflexivity | reflexivity]|].
    split; [left; reflexivity|].
    split; [|split; reflexivity].
    intros d Hd. injection Hd as <-. tauto.
  - split; [split; [discriminate | intros (d & Hd); discriminate]|].
    split; [right; reflexivity|].
    split; [discriminate | split; reflexivity].
Qed.

Lemma lookup_is_owner_scoped_witness :
  code (fst (getPredictionById Sample.env_up (Sample.alice_looks_up "a1")
               Sample.busy_world)) = 200
  /\ (code (fst (getPredictionById Sample.env_up (Sample.bob_looks_up "a1")
                   Sample.busy_world)) = 200
      \/ code (fst (getPredictionById Sample.env_up
                      (Sample.bob_looks_up "a1") Sample.busy_world)) = 404).
Proof.
  destruct (lookup_is_owner_scoped Sample.env_up (Sample.alice_looks_up "a1")
              Sample.busy_world eq_refl sample_store_healthy)
    as (Hiff & _).
  destruct (lookup_is_owner_scoped Sample.env_up (Sample.bob_looks_up "a1")
              Sample.busy_world eq_refl sample_store_healthy)
    as (_ & Hcodes & _).
  split; [|exact Hcodes].
  apply Hiff. exists (Sample.stored "a1" "alice" 100).
  split; [simpl; tauto | split; reflexivity].
Defined.

(** Against a connected store that fails no operation, Delete answers 200
    exactly when a record has the requested identifier and the requester
    as its owner, and 404 otherwise.  It removes at most one record and
    never one of another user or with another identifier; on 200 the
    collection is one record shorter, on 404 it is unchanged; and with
    unique identifiers the records that stay are exactly those that do
    not have both the identifier and the owner. *)
Theorem delete_is_owner_scoped :
  forall (env : Env) (request : Request) (w : World),
    readyState env = 1 ->
    store_healthy env ->
    let r := fst (deletePrediction env request w) in
    let w' := snd (deletePrediction env request w) in
    (code r = 200
     <-> exists d, In d (collection w) /\ _id d = params_id request
                   /\ user d = credentials_id request)
    /\ (code r = 200 \/ code r = 404)
    /\ (forall d, In d (collection w') -> In d (collection w))
    /\ (forall d,
          In d (collection w) ->
          user d <> credentials_id request \/ _id d <> params_id request ->
          In d (collection w'))
    /\ (code r = 200 -> S (length (collection w')) = length (collection w))
    /\ (code r = 404 -> collection w' = collection w)
    /\ (unique_ids w ->
        forall d,
          In d (collection w')
          <-> In d (collection w)
              /\ ~ (_id d = params_id request
                    /\ user d = credentials_id request)).
Proof.
  intros env request w Hup Hhealthy.
  rewrite (real_delete_unfold env request w Hup). cbv zeta.
  rewrite Hhealthy. simpl.
  rewrite (find_matches_some (params_id request) (credentials_id request)
             (collection w)).
  split; [|split; [|split; [|split; [|split; [|split]]]]].
  - destruct (find _ _) as [doc|]; simpl.
    + split; [intros _; exists doc; reflexivity | reflexivity].
    + split; [discriminate | intros (d & Hd); discriminate].
  - destruct (find _ _); [left | right]; reflexivity.
  - apply remove_first_incl.
  - intros d Hin Hother. apply remove_first_keeps; [exact Hin|].
    destruct (matches _ _ d) eqn:E; [|reflexivity].
    apply matches_iff in E. destruct Hother as [H | H]; tauto.
  - destruct (find _ _) as [doc|] eqn:Hfind; simpl; [|discriminate].
    intros _. exact (remove_first_length _ _ _ Hfind).
  - destruct (find _ _) as [doc|] eqn:Hfind; simpl; [discriminate|].
    intros _. exact (remove_first_none _ _ Hfind).
  - intros Hunique. apply remove_first_exactly. exact Hunique.
Qed.

Lemma delete_is_owner_scoped_witness :
  code (fst (deletePrediction Sample.env_up (Sample.alice_deletes "a1")
               Sample.busy_world)) = 200
  /\ In (Sample.stored "b1" "bob" 200)
       (collection (snd (deletePrediction Sample.env_up
                           (Sample.alice_deletes "a1") Sample.busy_world))).
Proof.
  destruct (delete_is_owner_scoped Sample.env_up (Sample.alice_deletes "a1")
              Sample.busy_world eq_refl sample_store_healthy)
    as (Hiff & _ & _ & Hkeeps & _).
  split.
  - apply Hiff. exists (Sample.stored "a1" "alice" 100).
    split; [simpl; tauto | split; reflexivity].
  - apply Hkeeps; [simpl; tauto | left; discriminate].
Defined.

(* ================================================================== *)
(** ** How the handlers compose *)
(* ================================================================== *)

(** Creating a record and deleting it by the returned identifier, as the
    same user, answers 200 and leaves the collection as it was before the
    two requests; a lookup of the identifier then answers 404. *)
Theorem create_then_delete_restores :
  forall (StringToNumber coerceNumber : string -> option Q) (env : Env)
         (create remove : Request) (w : World),
    readyState env = 1 ->
    store_healthy env ->
    valid coerceNumber (payload create) ->
    fresh_id env w ->
    credentials_id remove = credentials_id create ->
    exists id res created wA,
      createPrediction StringToNumber coerceNumber env create w
      = ({| code := 201; status := "success";
            message := Some "Prediction created successfully";
            data := Some (Created id (payload create) res created) |}, wA)
      /\ (params_id remove = id ->
          fst (deletePrediction env remove wA)
          = {| code := 200; status := "success";
               message := Some "Prediction deleted successfully";
               data := None |}
          /\ collection (snd (deletePrediction env remove wA)) = collection w
          /\ code (fst (getPredictionById env remove
                          (snd (deletePrediction env remove wA)))) = 404).
Proof.
  intros StringToNumber coerceNumber env create remove w Hup Hhealthy Hvalid
         Hfresh Hsame.
  destruct (create_real_stores StringToNumber coerceNumber env create w
              Hup Hhealthy Hvalid Hfresh)
    as (doc & wA & Hcreate & Hcoll & Hid & Howner & _).
  exists (_id doc), (result doc), (createdAt doc), wA.
  split; [exact Hcreate|]. intros Hparam.
  assert (Hold : forall x, In x (collection w) ->
                   matches (params_id remove) (credentials_id remove) x
                   = false).
  { intros x Hx.
    destruct (matches _ _ x) eqn:E; [|reflexivity].
    apply matches_iff in E. exfalso. apply Hfresh.
    rewrite <- Hid, <- Hparam, <- (proj1 E). apply in_map. exact Hx. }
  assert (Hdoc : matches (params_id remove) (credentials_id remove) doc
                 = true).
  { apply matches_iff. rewrite Hparam, Hsame. split; [reflexivity|].
    exact Howner. }
  assert (Hfind : find (matches (params_id remove) (credentials_id remove))
                    (collection wA) = Some doc).
  { rewrite Hcoll. apply find_matches_last.
    - rewrite Hparam, Hid. exact Hfresh.
    - symmetry. exact Hparam.
    - rewrite Hsame. exact Howner. }
  rewrite (real_delete_unfold env remove wA Hup). cbv zeta.
  rewrite Hhealthy, Hfind. simpl.
  split; [reflexivity|].
  rewrite Hcoll, (remove_first_last _ _ _ Hold Hdoc).
  split; [reflexivity|].
  rewrite (real_lookup_unfold env remove _ Hup). cbv zeta.
  rewrite Hhealthy. simpl.
  destruct (find _ (collection w)) as [x|] eqn:E; [|reflexivity].
  apply find_some in E. destruct E as [Hx Hm].
  rewrite (Hold x Hx) in Hm. discriminate.
Qed.

Lemma create_then_delete_restores_witness :
  exists id res created wA,
    createPrediction Sample.no_number Sample.no_number Sample.env_up
      Sample.alice_creates Sample.busy_world
    = ({| code := 201; status := "success";
          message := Some "Prediction created successfully";
          data :=
            Some (Created id (payload Sample.alice_creates) res created) |},
       wA)
    /\ (params_id (Sample.alice_deletes "id-3") = id ->
        collection (snd (deletePrediction Sample.env_up
                           (Sample.alice_deletes "id-3") wA))
        = collection Sample.busy_world).
Proof.
  assert (Hfresh : fresh_id Sample.env_up Sample.busy_world).
  { unfold fresh_id. simpl. intros H.
    repeat (destruct H as [H | H]; [discriminate H|]). exact H. }
  destruct (create_then_delete_restores Sample.no_number Sample.no_number
              Sample.env_up Sample.alice_creates
              (Sample.alice_deletes "id-3") Sample.busy_world
              eq_refl sample_store_healthy eq_refl Hfresh eq_refl)
    as (id & res & created & wA & Hrun & Hthen).
  exists id, res, created, wA. split; [exact Hrun|].
  intros Hid. exact (proj1 (proj2 (Hthen Hid))).
Defined.

(** With the store down, what Create returns cannot be fetched again: the
    identifier it hands out is accepted by GetByOne, but the record that
    comes back is the canned one, whose [inputData] is never the payload
    that was sent; nothing was stored. *)
Theorem mock_create_is_not_retrievable :
  forall (StringToNumber coerceNumber : string -> option Q) (env : Env)
         (create lookup : Request) (w : World),
    readyState env <> 1 ->
    valid coerceNumber (payload create) ->
    exists id res created w',
      createPrediction StringToNumber coerceNumber env create w
      = ({| code := 201; status := "success";
            message := Some "Prediction created successfully (MOCK - No DB)";
            data := Some (Created id (payload create) res created) |}, w')
      /\ collection w' = collection w
      /\ (params_id lookup = id ->
          exists d,
            fst (getPredictionById env lookup w')
            = {| code := 200; status := "success"; message := None;
                 data := Some (Single d) |}
            /\ inputData d = canned_inputData
            /\ result d = canned_result
            /\ inputData d <> payload create).
Proof.
  intros StringToNumber coerceNumber env create lookup w Hdown Hvalid.
  destruct (predict_returns StringToNumber env (payload create) w)
    as (res & w1 & Hrun & _ & _ & Hcoll & _).
  pose proof (create_mock StringToNumber coerceNumber env create w
                Hvalid Hdown res w1 Hrun) as Hcreate.
  eexists _, res, _, _. split; [exact Hcreate|].
  split; [exact Hcoll|]. intros Hparam.
  assert (Hok : refused (params_id lookup) = false).
  { apply refused_iff. left. rewrite Hparam. apply startsWith_append. }
  rewrite (mock_lookup_accepted env lookup _ Hdown Hok).
  eexists. split; [reflexivity|]. simpl.
  split; [reflexivity|]. split; [reflexivity|].
  intros Heq. apply valid_iff in Hvalid.
  destruct Hvalid as (o & Ho & Hall & _).
  rewrite <- Heq in Ho. injection Ho as <-.
  pose proof (proj1 (Forall_forall _ _) Hall
                {| Joi.name := "gender";
                   Joi.rule := Joi.string_valid ["Male"; "Female"];
                   Joi.required := true; Joi.default := None |}
                ltac:(simpl; tauto)) as Hgender.
  rewrite satisfies_check in Hgender. cbn [Joi.name Joi.required] in Hgender.
  simpl in Hgender. discriminate.
Qed.

Lemma mock_create_is_not_retrievable_witness :
  exists id res created w',
    createPrediction Sample.no_number Sample.no_number Sample.env_down
      Sample.alice_creates Sample.empty_world
    = ({| code := 201; status := "success";
          message := Some "Prediction created successfully (MOCK - No DB)";
          data :=
            Some (Created id (payload Sample.alice_creates) res created) |},
       w')
    /\ collection w' = [].
Proof.
  destruct (mock_create_is_not_retrievable Sample.no_number Sample.no_number
              Sample.env_down Sample.alice_creates
              (Sample.alice_looks_up "mock-1700000000000") Sample.empty_world
              (fun H : 0 = 1 =>
                 match Z.eqb_neq 0 1 with
                 | conj f _ => False_ind _ (f eq_refl H)
                 end)
              eq_refl)
    as (id & res & created & w' & Hrun & Hcoll & _).
  exists id, res, created, w'. split; [exact Hrun | exact Hcoll].
Defined.

(** *** Paging through the history *)

(** The skip of a request whose page and limit are finite and at least
    1. *)
Lemma skip_of_request (request : Request) :
  1 <= page_of request ->
  1 <= limit_of request ->
  page_number request = JS.Fin (page_of request)
  /\ limit_number request = JS.Fin (limit_of request)
  /\ skip_number request
     = JS.mul (JS.sub (JS.Fin (page_of request)) 1)
         (JS.Fin (limit_of request)).
Proof.
  intros Hpage Hlimit.
  pose proof (integer_finite _ Hpage) as Hp.
  pose proof (integer_finite _ Hlimit) as Hl.
  fold (page_of request) in Hp. fold (limit_of request) in Hl.
  split; [exact Hp|]. split; [exact Hl|].
  unfold skip_number. rewrite Hp at 1. rewrite Hl at 1. reflexivity.
Qed.

(** The records and the total of a List response against a connected and
    healthy store. *)
Lemma real_history_items (env : Env) (request : Request) (w : World) :
  readyState env = 1 ->
  store_healthy env ->
  1 <= page_of request ->
  1 <= limit_of request ->
  code (fst (getPredictionHistory env request w)) = 200
  /\ items (fst (getPredictionHistory env request w))
     = firstn (Z.to_nat (limit_of request))
         (skip_docs (skip_number request)
            (sort_desc
               (filter (owned_by (credentials_id request)) (collection w))))
  /\ reported_total (fst (getPredictionHistory env request w))
     = Some (Z.of_nat
               (length (filter (owned_by (credentials_id request))
                          (collection w)))).
Proof.
  intros Hup Hhealthy Hpage Hlimit.
  destruct (skip_of_request request Hpage Hlimit) as (Hp & Hl & _).
  rewrite (real_history_page env request w _ _ Hup Hhealthy Hp Hl Hpage
             Hlimit).
  repeat split; reflexivity.
Qed.

(** Cutting a list into [k] pieces of [n] elements loses and repeats
    nothing, once [k] pieces are enough. *)
Lemma concat_chunks (n : nat) (l : list Prediction) (k : nat) :
  (0 < n)%nat -> (length l <= k * n)%nat ->
  concat (map (fun p => firstn n (skipn (p * n) l)) (seq 0 k)) = l.
Proof.
  intros Hn. revert l. induction k as [|k IH]; intros l Hlen.
  - simpl in *. destruct l; [reflexivity | simpl in Hlen; lia].
  - simpl seq. simpl map. simpl concat. rewrite <- seq_shift, map_map.
    rewrite (map_ext _ (fun p => firstn n (skipn (p * n) (skipn n l)))).
    + rewrite (IH (skipn n l)); [apply firstn_skipn|].
      rewrite length_skipn. simpl in Hlen. lia.
    + intros p. rewrite skipn_skipn. f_equal. f_equal. simpl. lia.
Qed.


(** Against a connected store that fails no operation, paging through the
    history with a limit of [n] records loses and repeats nothing: the
    pages 1 to [ceil(total / n)], one after the other, are the user's
    records, most recent first, whatever else the requests are and as long
    as the collection, of fewer than 2^53 records, does not change in
    between; and any later page is empty. *)
Theorem pages_partition_the_history :
  forall (env : Env) (owner : string) (n : Z) (collected : list Prediction)
         (request : nat -> Request) (world : nat -> World),
    readyState env = 1 ->
    store_healthy env ->
    1 <= n ->
    Z.of_nat (length collected) < 2 ^ 53 ->
    let mine := sort_desc (filter (owned_by owner) collected) in
    let last_page := Z.to_nat (JS.ceil_div (Z.of_nat (length mine)) n) in
    (forall p,
        credentials_id (request p) = owner
        /\ limit_of (request p) = n
        /\ collection (world p) = collected) ->
    (forall p, (p < last_page)%nat ->
               page_of (request p) = Z.of_nat (S p)) ->
    concat
      (map (fun p =>
              items (fst (getPredictionHistory env (request p) (world p))))
         (seq 0 last_page))
    = mine
    /\ (forall p,
          Z.of_nat last_page < page_of (request p) ->
          items (fst (getPredictionHistory env (request p) (world p))) = []).
Proof.
  intros env owner n collected request world Hup Hhealthy Hn Hsize mine
         last_page Hsame Hpages.
  assert (Hceil : (JS.ceil_div (Z.of_nat (length mine)) n - 1) * n
                  < Z.of_nat (length mine)
                  <= JS.ceil_div (Z.of_nat (length mine)) n * n)
    by (apply ceil_div_bounds; lia).
  assert (Hlast : Z.of_nat last_page
                  = JS.ceil_div (Z.of_nat (length mine)) n).
  { unfold last_page. apply Z2Nat.id. nia. }
  assert (Hmine : Z.of_nat (length mine) < 2 ^ 53).
  { unfold mine. rewrite (Permutation_length (sort_desc_perm _)).
    pose proof (filter_length_le (owned_by owner) collected). lia. }
  assert (Hitems : forall p,
    1 <= page_of (request p) ->
    items (fst (getPredictionHistory env (request p) (world p)))
    = firstn (Z.to_nat n)
        (skip_docs
           (JS.mul (JS.sub (JS.Fin (page_of (request p))) 1) (JS.Fin n))
           mine)).
  { intros p Hp. destruct (Hsame p) as (Howner & Hlimit & Hcoll).
    destruct (real_history_items env (request p) (world p) Hup Hhealthy Hp
                ltac:(lia)) as (_ & -> & _).
    destruct (skip_of_request (request p) Hp ltac:(lia)) as (_ & _ & ->).
    rewrite Howner, Hlimit, Hcoll. reflexivity. }
  split.
  - transitivity
      (concat
         (map (fun p => firstn (Z.to_nat n) (skipn (p * Z.to_nat n) mine))
            (seq 0 last_page)));
      [|apply concat_chunks; [lia | nia]].
    f_equal. apply map_ext_in. intros p Hp. apply in_seq in Hp.
    rewrite (Hitems p) by (rewrite Hpages; lia).
    rewrite (Hpages p) by lia.
    destruct (skip_of_page (Z.of_nat (S p)) n ltac:(lia) Hn)
      as (_ & Hexact & _).
    assert (Hbelow : (Z.of_nat (S p) - 1) * n
                     <= (JS.ceil_div (Z.of_nat (length mine)) n - 1) * n)
      by (apply Z.mul_le_mono_nonneg_r; lia).
    rewrite Hexact by lia. cbn [skip_docs].
    f_equal. f_equal.
    replace (Z.of_nat (S p) - 1) with (Z.of_nat p) by lia.
    rewrite Z2Nat.inj_mul, Nat2Z.id by lia. reflexivity.
  - intros p Hp. rewrite (Hitems p) by lia.
    destruct (skip_of_page (page_of (request p)) n ltac:(lia) Hn)
      as (_ & _ & Hlow).
    assert (Habove : JS.ceil_div (Z.of_nat (length mine)) n * n
                     <= (page_of (request p) - 1) * n)
      by (apply Z.mul_le_mono_nonneg_r; lia).
    destruct (Hlow (Z.of_nat (length mine)) Hmine ltac:(lia))
      as [-> | (s & -> & Hs)]; cbn [skip_docs].
    + apply firstn_nil.
    + rewrite skipn_all2 by lia. apply firstn_nil.
Qed.

Lemma pages_partition_the_history_witness :
  concat
    (map (fun p =>
            items (fst (getPredictionHistory Sample.env_up
                          (Sample.alice_lists
                             (Some (match p with
                                    | O => "1"
                                    | _ => "2"
                                    end)) (Some "1"))
                          Sample.busy_world)))
       (seq 0 2))
  = [Sample.stored "a2" "alice" 300; Sample.stored "a1" "alice" 100].
Proof.
  apply (pages_partition_the_history Sample.env_up "alice" 1
           (collection Sample.busy_world)
           (fun p => Sample.alice_lists
                       (Some (match p with O => "1" | _ => "2" end))
                       (Some "1"))
           (fun _ => Sample.busy_world)
           eq_refl sample_store_healthy (Z.le_refl 1) eq_refl).
  - intros p. repeat split.
  - intros p Hp. destruct p as [|[|p]]; [reflexivity | reflexivity|].
    exfalso. apply (Nat.lt_irrefl 2).
    apply (Nat.le_lt_trans _ (S (S p))); [|exact Hp].
    apply le_n_S, le_n_S, Nat.le_0_l.
Defined.

(** After a user created a record against a connected and healthy store,
    the total her history reports, for a page and a limit that are finite
    and at least 1, has grown by one and the total of any other user is
    what it was; and a first page long enough to hold all of her records
    shows the new one. *)
Theorem create_then_list :
  forall (StringToNumber coerceNumber : string -> option Q) (env : Env)
         (create list : Request) (w : World),
    readyState env = 1 ->
    store_healthy env ->
    valid coerceNumber (payload create) ->
    fresh_id env w ->
    1 <= page_of list ->
    1 <= limit_of list ->
    exists doc wA before,
      snd (createPrediction StringToNumber coerceNumber env create w) = wA
      /\ code (fst (createPrediction StringToNumber coerceNumber env create w))
         = 201
      /\ reported_total (fst (getPredictionHistory env list w)) = Some before
      /\ (credentials_id list = credentials_id create ->
          reported_total (fst (getPredictionHistory env list wA))
          = Some (before + 1)
          /\ (page_of list = 1 -> before < limit_of list ->
              In doc (items (fst (getPredictionHistory env list wA)))
              /\ inputData doc = payload create))
      /\ (credentials_id list <> credentials_id create ->
          reported_total (fst (getPredictionHistory env list wA))
          = Some before
          /\ items (fst (getPredictionHistory env list wA))
             = items (fst (getPredictionHistory env list w))).
Proof.
  intros StringToNumber coerceNumber env create list w Hup Hhealthy Hvalid
         Hfresh Hpage Hlimit.
  destruct (create_real_stores StringToNumber coerceNumber env create w
              Hup Hhealthy Hvalid Hfresh)
    as (doc & wA & Hcreate & Hcoll & _ & Howner & Hinput).
  destruct (real_history_items env list w Hup Hhealthy Hpage Hlimit)
    as (_ & Hitems & Htotal).
  destruct (real_history_items env list wA Hup Hhealthy Hpage Hlimit)
    as (_ & HitemsA & HtotalA).
  exists doc, wA,
    (Z.of_nat
       (length (filter (owned_by (credentials_id list)) (collection w)))).
  rewrite Hcreate. split; [reflexivity|]. split; [reflexivity|].
  split; [exact Htotal|].
  rewrite Hcoll, filter_app in HitemsA, HtotalA. simpl in HitemsA, HtotalA.
  split.
  - intros Hsame.
    assert (Hmine : owned_by (credentials_id list) doc = true)
      by (apply String.eqb_eq; rewrite Hsame; exact Howner).
    rewrite Hmine in HitemsA, HtotalA.
    split.
    + rewrite HtotalA, length_app. simpl. f_equal. lia.
    + intros Hfirst Hroom. split; [|exact Hinput].
      destruct (skip_of_request list Hpage Hlimit) as (_ & _ & Hskip).
      rewrite HitemsA, Hskip, Hfirst.
      change (JS.mul (JS.sub (JS.Fin 1) 1) (JS.Fin (limit_of list)))
        with (JS.Fin 0).
      cbn [skip_docs]. simpl skipn.
      rewrite firstn_all2.
      * apply (Permutation_in doc (Permutation_sym (sort_desc_perm _))).
        apply in_elt.
      * rewrite (Permutation_length (sort_desc_perm _)), length_app.
        simpl. lia.
  - intros Hother.
    assert (Hnot : owned_by (credentials_id list) doc = false).
    { apply String.eqb_neq. rewrite Howner. intros H. apply Hother.
      symmetry. exact H. }
    rewrite Hnot, app_nil_r in HitemsA, HtotalA.
    split; [exact HtotalA|]. rewrite HitemsA, Hitems. reflexivity.
Qed.

Lemma create_then_list_witness :
  exists wA,
    snd (createPrediction Sample.no_number Sample.no_number Sample.env_up
           Sample.alice_creates Sample.busy_world) = wA
    /\ reported_total (fst (getPredictionHistory Sample.env_up
                              (Sample.alice_lists None None) wA))
       = Some 3.
Proof.
  assert (Hfresh : fresh_id Sample.env_up Sample.busy_world).
  { unfold fresh_id. simpl. intros H.
    repeat (destruct H as [H | H]; [discriminate H|]). exact H. }
  assert (Hpage : 1 <= page_of (Sample.alice_lists None None))
    by discriminate.
  assert (Hlimit : 1 <= limit_of (Sample.alice_lists None None))
    by discriminate.
  destruct (create_then_list Sample.no_number Sample.no_number Sample.env_up
              Sample.alice_creates (Sample.alice_lists None None)
              Sample.busy_world eq_refl sample_store_healthy eq_refl Hfresh
              Hpage Hlimit)
    as (doc & wA & before & HwA & _ & Hbefore & Hsame & _).
  exists wA. split; [exact HwA|].
  injection Hbefore as <-.
  exact (proj1 (Hsame eq_refl)).
Defined.

(* ================================================================== *)
(** ** The envelope of every response *)
(* ================================================================== *)

Lemma create_shape (StringToNumber coerceNumber : string -> option Q)
    (env : Env) (request : Request) (w : World) :
  let r := fst (createPrediction StringToNumber coerceNumber env request w) in
  envelope r
  /\ (code r = 201 \/ code r = 400 \/ code r = 500)
  /\ (readyState env <> 1 ->
      code r <> 500
      /\ collection
           (snd (createPrediction StringToNumber coerceNumber env request w))
         = collection w
      /\ calls
           (snd (createPrediction StringToNumber coerceNumber env request w))
         = calls w).
Proof.
  destruct (Joi.error_of
              (Joi.validate coerceNumber predictionValidation
                 (payload request))) as [e|] eqn:Hv.
  - rewrite (create_invalid StringToNumber coerceNumber env request w e Hv).
    simpl. split; [right; repeat split; try tauto; discriminate|].
    split; [tauto|]. intros _. repeat split. discriminate.
  - destruct (predict_returns StringToNumber env (payload request) w)
      as (res & w1 & Hrun & _ & _ & Hcoll & Hcalls).
    destruct (Z.eq_dec (readyState env) 1) as [Hup | Hdown].
    + rewrite (create_real StringToNumber coerceNumber env request w
                 Hv Hup res w1 Hrun). cbv zeta.
      destruct (storeError env _); simpl.
      * split; [right; repeat split; try tauto; discriminate|].
        split; [tauto | contradiction].
      * split; [left; split; [reflexivity | tauto]|].
        split; [tauto | contradiction].
    + rewrite (create_mock StringToNumber coerceNumber env request w
                 Hv Hdown res w1 Hrun). simpl.
      split; [left; split; [reflexivity | tauto]|].
      split; [tauto|]. intros _.
      split; [discriminate | split; assumption].
Qed.

Lemma list_shape (env : Env) (request : Request) (w : World) :
  envelope (fst (getPredictionHistory env request w))
  /\ (code (fst (getPredictionHistory env request w)) = 200
      \/ code (fst (getPredictionHistory env request w)) = 500)
  /\ (readyState env <> 1 ->
      code (fst (getPredictionHistory env request w)) = 200
      /\ collection (snd (getPredictionHistory env request w))
         = collection w
      /\ calls (snd (getPredictionHistory env request w)) = calls w).
Proof.
  destruct (Z.eq_dec (readyState env) 1) as [Hup | Hdown].
  - rewrite (real_history_unfold env request w Hup). cbv zeta.
    assert (Herr : forall msg,
              envelope (internal_error msg)
              /\ (code (internal_error msg) = 200
                  \/ code (internal_error msg) = 500))
      by (intros msg; split;
          [right; simpl; repeat split; try tauto; discriminate
          | right; reflexivity]).
    destruct (storeError env _);
      [destruct (Herr s); repeat split; try assumption; contradiction|].
    destruct (bad_skip _);
      [destruct (Herr "Skip value must be non-negative");
       repeat split; try assumption; contradiction|].
    destruct (storeError env _);
      [destruct (Herr s); repeat split; try assumption; contradiction|].
    cbn [fst snd code status message data].
    split; [left; split; [reflexivity | tauto]|].
    split; [tauto | contradiction].
  - destruct (mock_history_unfold env request w Hdown)
      as (d0 & d1 & d2 & d3 & d4 & w' & -> & _ & _ & _ & _ & _ & _
          & Hcoll & Hcalls).
    simpl. split; [left; split; [reflexivity | tauto]|].
    split; [tauto|]. intros _. repeat split; assumption.
Qed.

Lemma lookup_shape (env : Env) (request : Request) (w : World) :
  envelope (fst (getPredictionById env request w))
  /\ (code (fst (getPredictionById env request w)) = 200
      \/ code (fst (getPredictionById env request w)) = 404
      \/ code (fst (getPredictionById env request w)) = 500)
  /\ (readyState env <> 1 ->
      code (fst (getPredictionById env request w)) <> 500
      /\ collection (snd (getPredictionById env request w)) = collection w
      /\ calls (snd (getPredictionById env request w)) = calls w).
Proof.
  destruct (Z.eq_dec (readyState env) 1) as [Hup | Hdown].
  - rewrite (real_lookup_unfold env request w Hup). cbv zeta.
    destruct (storeError env _); simpl.
    + split; [right; repeat split; try tauto; discriminate|].
      split; [tauto | contradiction].
    + destruct (find _ _); simpl.
      * split; [left; split; [reflexivity | tauto]|].
        split; [tauto | contradiction].
      * split; [right; repeat split; try tauto; discriminate|].
        split; [tauto | contradiction].
  - destruct (refused (params_id request)) eqn:Hid.
    + rewrite (mock_lookup_refused env request w Hdown Hid). simpl.
      split; [right; repeat split; try tauto; discriminate|].
      split; [tauto|]. intros _. repeat split. discriminate.
    + rewrite (mock_lookup_accepted env request w Hdown Hid). simpl.
      split; [left; split; [reflexivity | tauto]|].
      split; [tauto|]. intros _. repeat split. discriminate.
Qed.

Lemma remove_shape (env : Env) (request : Request) (w : World) :
  envelope (fst (deletePrediction env request w))
  /\ (code (fst (deletePrediction env request w)) = 200
      \/ code (fst (deletePrediction env request w)) = 404
      \/ code (fst (deletePrediction env request w)) = 500)
  /\ (readyState env <> 1 ->
      code (fst (deletePrediction env request w)) <> 500
      /\ collection (snd (deletePrediction env request w)) = collection w
      /\ calls (snd (deletePrediction env request w)) = calls w).
Proof.
  destruct (Z.eq_dec (readyState env) 1) as [Hup | Hdown].
  - rewrite (real_delete_unfold env request w Hup). cbv zeta.
    destruct (storeError env _); simpl.
    + split; [right; repeat split; try tauto; discriminate|].
      split; [tauto | contradiction].
    + destruct (find _ _); simpl.
      * split; [left; split; [reflexivity | tauto]|].
        split; [tauto | contradiction].
      * split; [right; repeat split; try tauto; discriminate|].
        split; [tauto | contradiction].
  - destruct (refused (params_id request)) eqn:Hid.
    + rewrite (mock_delete_refused env request w Hdown Hid). simpl.
      split; [right; repeat split; try tauto; discriminate|].
      split; [tauto|]. intros _. repeat split. discriminate.
    + rewrite (mock_delete_accepted env request w Hdown Hid). simpl.
      split; [left; split; [reflexivity | tauto]|].
      split; [tauto|]. intros _. repeat split. discriminate.
Qed.

(** Every response of every handler is a well-formed envelope: status
    "success" with 200 or 201, or status "error" with 400, 404 or 500, a
    message and no data.  Create answers 201, 400 or 500, List 200 or
    500, GetByOne and Delete 200, 404 or 500.  While the store is down no
    handler answers 500, sends an operation to the store or changes the
    collection, and List always answers 200. *)
Theorem responses_are_envelopes :
  forall (StringToNumber coerceNumber : string -> option Q) (env : Env)
         (request : Request) (w : World),
    let create := createPrediction StringToNumber coerceNumber env request w in
    let list := getPredictionHistory env request w in
    let lookup := getPredictionById env request w in
    let remove := deletePrediction env request w in
    (envelope (fst create) /\ envelope (fst list)
     /\ envelope (fst lookup) /\ envelope (fst remove))
    /\ (code (fst create) = 201 \/ code (fst create) = 400
        \/ code (fst create) = 500)
    /\ (code (fst list) = 200 \/ code (fst list) = 500)
    /\ (code (fst lookup) = 200 \/ code (fst lookup) = 404
        \/ code (fst lookup) = 500)
    /\ (code (fst remove) = 200 \/ code (fst remove) = 404
        \/ code (fst remove) = 500)
    /\ (readyState env <> 1 ->
        code (fst create) <> 500 /\ code (fst list) = 200
        /\ code (fst lookup) <> 500 /\ code (fst remove) <> 500
        /\ Forall (fun w' => collection w' = collection w
                             /\ calls w' = calls w)
             [snd create; snd list; snd lookup; snd remove]).
Proof.
  intros StringToNumber coerceNumber env request w.
  destruct (create_shape StringToNumber coerceNumber env request w)
    as (Hc1 & Hc2 & Hc3).
  destruct (list_shape env request w) as (Hl1 & Hl2 & Hl3).
  destruct (lookup_shape env request w) as (Hg1 & Hg2 & Hg3).
  destruct (remove_shape env request w) as (Hd1 & Hd2 & Hd3).
  cbv zeta in *.
  split; [repeat split; assumption|].
  split; [exact Hc2|]. split; [exact Hl2|].
  split; [exact Hg2|]. split; [exact Hd2|].
  intros Hdown.
  destruct (Hc3 Hdown) as (? & ? & ?). destruct (Hl3 Hdown) as (? & ? & ?).
  destruct (Hg3 Hdown) as (? & ? & ?). destruct (Hd3 Hdown) as (? & ? & ?).
  repeat split; try assumption.
  repeat constructor; assumption.
Qed.

(* ================================================================== *)
(** ** The records of the mock history *)
(* ================================================================== *)

(** *** Rounding to a double *)

Lemma round_half_even_close (p d : Z) :
  0 < d ->
  2 * d * JS.round_half_even p d <= 2 * p + d
  /\ 2 * p - d <= 2 * d * JS.round_half_even p d.
Proof.
  intros Hd. unfold JS.round_half_even.
  pose proof (Z.div_mod p d ltac:(lia)) as Hdm.
  pose proof (Z.mod_pos_bound p d Hd) as Hmod.
  set (f := p / d) in *. set (r := p mod d) in *.
  assert (H0 : 2 * d * f = 2 * p - 2 * r) by lia.
  assert (H1 : 2 * d * (f + 1) = 2 * p - 2 * r + 2 * d) by lia.
  destruct (Z.ltb_spec (2 * r) d); [split; lia|].
  destruct (Z.ltb_spec d (2 * r)); [split; lia|].
  destruct (Z.even f); split; lia.
Qed.

Lemma round_Q_close (x : Q) :
  (inject_Z (JS.round_Q x) <= x + (1 # 2))%Q /\ (x - (1 # 2) <= inject_Z (JS.round_Q x))%Q.
Proof.
  destruct x as [p d]. unfold JS.round_Q. cbn [Qnum Qden].
  destruct (round_half_even_close p (Zpos d) ltac:(lia)) as [Hup Hlow].
  set (M := JS.round_half_even p (Zpos d)) in *.
  clearbody M. unfold Qminus. unfold Qle, Qplus, Qopp, inject_Z.
  cbn [Qnum Qden]. rewrite !Pos2Z.inj_mul. split; lia.
Qed.

Lemma round_Q_le_int (x : Q) (N : Z) :
  (x <= inject_Z N)%Q -> JS.round_Q x <= N.
Proof.
  intros H. destruct (round_Q_close x) as [Hup _].
  assert (H2 : (inject_Z (JS.round_Q x) <= inject_Z N + (1 # 2))%Q).
  { eapply Qle_trans; [exact Hup|]. apply Qplus_le_l. exact H. }
  unfold Qle, Qplus in H2. simpl in H2. lia.
Qed.

Lemma round_Q_ge_int (x : Q) (N : Z) :
  (inject_Z N <= x)%Q -> N <= JS.round_Q x.
Proof.
  intros H. destruct (round_Q_close x) as [_ Hlow].
  assert (H2 : (inject_Z N - (1 # 2) <= inject_Z (JS.round_Q x))%Q).
  { eapply Qle_trans; [|exact Hlow]. apply Qplus_le_l. exact H. }
  unfold Qle, Qminus, Qplus, Qopp in H2. simpl in H2. lia.
Qed.

Lemma round_Q_lt_int (x : Q) (N : Z) :
  (x + (1 # 2) < inject_Z N)%Q -> JS.round_Q x <= N - 1.
Proof.
  intros H. destruct (round_Q_close x) as [Hup _].
  assert (H2 : (inject_Z (JS.round_Q x) < inject_Z N)%Q)
    by (eapply Qle_lt_trans; [exact Hup | exact H]).
  rewrite <- Zlt_Qlt in H2. lia.
Qed.

Lemma pow2_pos (k : Z) : (0 < JS.pow2 k)%Q.
Proof. apply Qpower_0_lt. reflexivity. Qed.

Lemma pow2_add (a b : Z) : (JS.pow2 (a + b) == JS.pow2 a * JS.pow2 b)%Q.
Proof. apply Qpower_plus. discriminate. Qed.

Lemma pow2_le (a b : Z) : a <= b -> (JS.pow2 a <= JS.pow2 b)%Q.
Proof. intros H. apply Qpower_le_compat_l; [exact H | discriminate]. Qed.

Lemma pow2_int (k : Z) : 0 <= k -> (JS.pow2 k == inject_Z (2 ^ k))%Q.
Proof. intros H. unfold JS.pow2. rewrite Zpower_Qpower by exact H. reflexivity. Qed.

Lemma pow2_cancel (k : Z) : (JS.pow2 (- k) * JS.pow2 k == 1)%Q.
Proof. rewrite <- pow2_add. replace (- k + k) with 0 by lia. reflexivity. Qed.

(** The JS.exponent of a positive rational. *)
Lemma exponent_spec (x : Q) :
  (0 < x)%Q -> (JS.pow2 (JS.exponent x) <= x)%Q /\ (x < JS.pow2 (JS.exponent x + 1))%Q.
Proof.
  intros Hx. destruct x as [a d].
  assert (Ha : 0 < a) by (unfold Qlt in Hx; simpl in Hx; lia).
  unfold JS.exponent. simpl Qnum. simpl Qden.
  set (la := Z.log2 a). set (ld := Z.log2 (Zpos d)).
  destruct (Z.log2_spec a Ha) as [Ha1 Ha2]. fold la in Ha1, Ha2.
  destruct (Z.log2_spec (Zpos d) ltac:(lia)) as [Hd1 Hd2]. fold ld in Hd1, Hd2.
  assert (Hla : 0 <= la) by apply Z.log2_nonneg.
  assert (Hld : 0 <= ld) by apply Z.log2_nonneg.
  (* a # d as a quotient *)
  assert (Hq : (a # d == inject_Z a / inject_Z (Zpos d))%Q)
    by (rewrite Qmake_Qdiv; reflexivity).
  assert (HdQ : (0 < inject_Z (Zpos d))%Q) by reflexivity.
  assert (Hlow : (JS.pow2 (la - ld - 1) <= a # d)%Q).
  { rewrite Hq. apply Qle_shift_div_l; [exact HdQ|].
    apply (Qle_trans _ (JS.pow2 (la - ld - 1) * JS.pow2 (ld + 1))).
    - apply Qmult_le_l; [apply pow2_pos|].
      rewrite pow2_int by lia. rewrite <- Zle_Qle. lia.
    - rewrite <- pow2_add. replace (la - ld - 1 + (ld + 1)) with la by lia.
      rewrite pow2_int by lia. rewrite <- Zle_Qle. exact Ha1. }
  assert (Hhigh : (a # d < JS.pow2 (la - ld + 1))%Q).
  { rewrite Hq. apply Qlt_shift_div_r; [exact HdQ|].
    apply (Qlt_le_trans _ (JS.pow2 (la + 1))).
    - rewrite pow2_int by lia. rewrite <- Zlt_Qlt. rewrite Z.add_1_r. exact Ha2.
    - replace (la + 1) with (la - ld + 1 + ld) by lia. rewrite pow2_add.
      apply Qmult_le_l; [apply pow2_pos|].
      rewrite pow2_int by lia. rewrite <- Zle_Qle. exact Hd1. }
  destruct (Qle_bool (JS.pow2 (la - ld)) (a # d)) eqn:E.
  - apply Qle_bool_iff in E. split; [exact E | exact Hhigh].
  - split; [exact Hlow|].
    replace (la - ld - 1 + 1) with (la - ld) by lia.
    apply Qnot_le_lt. intros H. apply Qle_bool_iff in H. congruence.
Qed.

(** The double nearest to a positive rational, by its JS.exponent. *)
Lemma fl_positive (x : Q) :
  (0 < x)%Q ->
  JS.fl x
  = (inject_Z (JS.round_Q (x * JS.pow2 (- Z.max (JS.exponent x - 52) (- 1074))))
     * JS.pow2 (Z.max (JS.exponent x - 52) (- 1074)))%Q.
Proof.
  intros Hx. destruct x as [[|a|a] d]; try discriminate Hx.
  unfold JS.fl.
  replace (Qeq_bool (Z.pos a # d) 0) with false by reflexivity.
  change (Qabs (Z.pos a # d)) with (Z.pos a # d).
  cbv zeta. cbn [Qnum Z.sgn]. rewrite Z.mul_1_l. reflexivity.
Qed.

Lemma fl_zero (x : Q) : (x == 0)%Q -> JS.fl x = 0%Q.
Proof.
  intros H. unfold JS.fl. apply Qeq_bool_iff in H. rewrite H. reflexivity.
Qed.

(** Below 2^53 the last bit of a double is worth 1 at most. *)
Lemma quantum_small (x : Q) :
  (0 < x)%Q -> (x < JS.pow2 53)%Q -> Z.max (JS.exponent x - 52) (- 1074) <= 0.
Proof.
  intros Hx Hbig. destruct (exponent_spec x Hx) as [Hlow _].
  assert (H : JS.exponent x < 53).
  { apply (Qpower_lt_compat_l_inv 2); [|reflexivity].
    eapply Qle_lt_trans; [exact Hlow | exact Hbig]. }
  lia.
Qed.

(** Rounding does not cross a multiple of the last bit. *)
Lemma fl_le_multiple (x : Q) (k N : Z) :
  (x <= inject_Z N * JS.pow2 k)%Q ->
  (inject_Z (JS.round_Q (x * JS.pow2 (- k))) * JS.pow2 k <= inject_Z N * JS.pow2 k)%Q.
Proof.
  intros H. apply Qmult_le_compat_r; [|apply Qlt_le_weak, pow2_pos].
  rewrite <- Zle_Qle. apply round_Q_le_int.
  apply (Qle_trans _ (inject_Z N * JS.pow2 k * JS.pow2 (- k))).
  - apply Qmult_le_compat_r; [exact H | apply Qlt_le_weak, pow2_pos].
  - rewrite <- Qmult_assoc, (Qmult_comm (JS.pow2 k)), pow2_cancel, Qmult_1_r.
    apply Qle_refl.
Qed.

Lemma fl_ge_multiple (x : Q) (k N : Z) :
  (inject_Z N * JS.pow2 k <= x)%Q ->
  (inject_Z N * JS.pow2 k <= inject_Z (JS.round_Q (x * JS.pow2 (- k))) * JS.pow2 k)%Q.
Proof.
  intros H. apply Qmult_le_compat_r; [|apply Qlt_le_weak, pow2_pos].
  rewrite <- Zle_Qle. apply round_Q_ge_int.
  apply (Qle_trans _ (inject_Z N * JS.pow2 k * JS.pow2 (- k))).
  - rewrite <- Qmult_assoc, (Qmult_comm (JS.pow2 k)), pow2_cancel, Qmult_1_r.
    apply Qle_refl.
  - apply Qmult_le_compat_r; [exact H | apply Qlt_le_weak, pow2_pos].
Qed.

(** An integer is a multiple of a last bit that is worth 1 at most. *)
Lemma integer_multiple (N k : Z) :
  k <= 0 -> (inject_Z N == inject_Z (N * 2 ^ (- k)) * JS.pow2 k)%Q.
Proof.
  intros Hk. rewrite inject_Z_mult, <- (pow2_int (- k)) by lia.
  rewrite <- Qmult_assoc, pow2_cancel, Qmult_1_r. reflexivity.
Qed.

(** Rounding does not cross an integer, below 2^53. *)
Lemma fl_le_int (x : Q) (N : Z) :
  (0 <= x)%Q -> (x < JS.pow2 53)%Q -> (x <= inject_Z N)%Q ->
  (JS.fl x <= inject_Z N)%Q.
Proof.
  intros H0 Hbig HN.
  destruct (Qle_lt_or_eq _ _ H0) as [Hx | Hx].
  - rewrite (fl_positive x Hx).
    pose proof (quantum_small x Hx Hbig) as Hk.
    set (k := Z.max (JS.exponent x - 52) (- 1074)) in *.
    rewrite (integer_multiple N k Hk). apply fl_le_multiple.
    rewrite <- (integer_multiple N k Hk). exact HN.
  - rewrite (fl_zero x) by (symmetry; exact Hx). rewrite <- Hx in HN. exact HN.
Qed.

Lemma fl_ge_int (x : Q) (N : Z) :
  (0 <= x)%Q -> (x < JS.pow2 53)%Q -> (inject_Z N <= x)%Q ->
  (inject_Z N <= JS.fl x)%Q.
Proof.
  intros H0 Hbig HN.
  destruct (Qle_lt_or_eq _ _ H0) as [Hx | Hx].
  - rewrite (fl_positive x Hx).
    pose proof (quantum_small x Hx Hbig) as Hk.
    set (k := Z.max (JS.exponent x - 52) (- 1074)) in *.
    rewrite (integer_multiple N k Hk). apply fl_ge_multiple.
    rewrite <- (integer_multiple N k Hk). exact HN.
  - rewrite (fl_zero x) by (symmetry; exact Hx). rewrite <- Hx in HN. exact HN.
Qed.

(** Rounding stays below an integer [n] between 2^j and 2^(j+1) when the
    rational is nearer to the double before [n] than to [n]. *)
Lemma fl_lt_int (x : Q) (n j : Z) :
  (0 <= x)%Q -> 0 <= j <= 52 -> 2 ^ j < n ->
  (x < inject_Z n)%Q ->
  (inject_Z n < JS.pow2 (j + 1))%Q ->
  (x * JS.pow2 (52 - j) + (1 # 2) < inject_Z (n * 2 ^ (52 - j)))%Q ->
  (JS.fl x < inject_Z n)%Q.
Proof.
  intros H0 Hj Hjn Hxn Hn Hnear.
  destruct (Qle_lt_or_eq _ _ H0) as [Hx | Hx].
  2:{ rewrite (fl_zero x) by (symmetry; exact Hx).
      change 0%Q with (inject_Z 0). rewrite <- Zlt_Qlt.
      pose proof (Z.pow_pos_nonneg 2 j). lia. }
  rewrite (fl_positive x Hx).
  destruct (exponent_spec x Hx) as [Hlow Hhigh].
  assert (He : JS.exponent x <= j).
  { assert (H : JS.exponent x < j + 1); [|lia].
    apply (Qpower_lt_compat_l_inv 2); [|reflexivity].
    eapply Qle_lt_trans; [exact Hlow|].
    eapply Qlt_trans; [exact Hxn | exact Hn]. }
  set (k := Z.max (JS.exponent x - 52) (- 1074)) in *.
  assert (Hk : k <= 0) by (unfold k; lia).
  destruct (Z.eq_dec (JS.exponent x) j) as [Heq | Hne].
  - assert (Hkj : k = j - 52) by (unfold k; lia).
    assert (HM : JS.round_Q (x * JS.pow2 (- k)) <= n * 2 ^ (52 - j) - 1).
    { apply round_Q_lt_int. rewrite Hkj.
      replace (- (j - 52)) with (52 - j) by lia. exact Hnear. }
    apply (Qle_lt_trans _ (inject_Z (n * 2 ^ (52 - j) - 1) * JS.pow2 k)).
    + apply Qmult_le_compat_r; [|apply Qlt_le_weak, pow2_pos].
      rewrite <- Zle_Qle. exact HM.
    + rewrite (integer_multiple n k Hk).
      apply Qmult_lt_compat_r; [apply pow2_pos|].
      rewrite <- Zlt_Qlt. rewrite Hkj.
      replace (- (j - 52)) with (52 - j) by lia. lia.
  - assert (Hxj : (x <= inject_Z (2 ^ j))%Q).
    { rewrite <- pow2_int by lia. apply Qlt_le_weak.
      eapply Qlt_le_trans; [exact Hhigh|]. apply pow2_le. lia. }
    apply (Qle_lt_trans _ (inject_Z (2 ^ j))).
    + rewrite (integer_multiple (2 ^ j) k Hk). apply fl_le_multiple.
      rewrite <- (integer_multiple (2 ^ j) k Hk). exact Hxj.
    + rewrite <- Zlt_Qlt. exact Hjn.
Qed.

Lemma fl_nonneg (x : Q) : (0 <= x)%Q -> (x < JS.pow2 53)%Q -> (0 <= JS.fl x)%Q.
Proof. intros H0 Hbig. exact (fl_ge_int x 0 H0 Hbig H0). Qed.

(** *** The vital signs *)

(** [Math.floor(Math.random() * n)] is one of 0 to [n - 1], for an [n]
    between 2^j and 2^(j+1) that a draw of at most 1 - 2^-53 does not
    reach. *)
Lemma vital_bounds (base n j : Z) (r : Q) :
  random_double r ->
  0 <= j <= 51 -> 2 ^ j < n < 2 ^ (j + 1) ->
  ((1 - (1 # 9007199254740992)) * inject_Z n * JS.pow2 (52 - j) + (1 # 2)
   < inject_Z (n * 2 ^ (52 - j)))%Q ->
  exists m, vital base n r = JS.Num (inject_Z m)
            /\ base <= m <= base + n - 1.
Proof.
  intros [H0 H1] Hj Hn Hnear. unfold vital.
  exists (base + Qfloor (JS.fl (r * inject_Z n))). split; [reflexivity|].
  assert (Hpos : (0 < inject_Z n)%Q).
  { change 0%Q with (inject_Z 0). rewrite <- Zlt_Qlt.
    pose proof (Z.pow_pos_nonneg 2 j). lia. }
  assert (Hx0 : (0 <= r * inject_Z n)%Q)
    by (apply Qmult_le_0_compat; [exact H0 | apply Qlt_le_weak; exact Hpos]).
  assert (Hxtop : (r * inject_Z n
                   <= (1 - (1 # 9007199254740992)) * inject_Z n)%Q)
    by (apply Qmult_le_compat_r; [exact H1 | apply Qlt_le_weak; exact Hpos]).
  assert (Hxn : (r * inject_Z n < inject_Z n)%Q).
  { eapply Qle_lt_trans; [exact Hxtop|].
    rewrite <- (Qmult_1_l (inject_Z n)) at 2.
    apply Qmult_lt_compat_r; [exact Hpos | reflexivity]. }
  assert (Hnj : (inject_Z n < JS.pow2 (j + 1))%Q)
    by (rewrite pow2_int by lia; rewrite <- Zlt_Qlt; lia).
  assert (Hbig : (r * inject_Z n < JS.pow2 53)%Q).
  { eapply Qlt_trans; [exact Hxn|].
    eapply Qlt_le_trans; [exact Hnj | apply pow2_le; lia]. }
  assert (Hlt : (JS.fl (r * inject_Z n) < inject_Z n)%Q).
  { apply (fl_lt_int _ n j Hx0 ltac:(lia) ltac:(lia) Hxn Hnj).
    eapply Qle_lt_trans; [|exact Hnear].
    apply Qplus_le_l.
    apply Qmult_le_compat_r; [exact Hxtop | apply Qlt_le_weak, pow2_pos]. }
  pose proof (fl_nonneg _ Hx0 Hbig) as Hge.
  assert (Hlow : 0 <= Qfloor (JS.fl (r * inject_Z n))).
  { rewrite <- (Qfloor_Z 0). apply Qfloor_resp_le. exact Hge. }
  assert (Hhigh : Qfloor (JS.fl (r * inject_Z n)) < n).
  { rewrite Zlt_Qlt. eapply Qle_lt_trans; [apply Qfloor_le | exact Hlt]. }
  lia.
Qed.

Lemma vital_is_between (base n j hi : Z) (r : Q) :
  random_double r ->
  0 <= j <= 51 -> 2 ^ j < n < 2 ^ (j + 1) ->
  ((1 - (1 # 9007199254740992)) * inject_Z n * JS.pow2 (52 - j) + (1 # 2)
   < inject_Z (n * 2 ^ (52 - j)))%Q ->
  hi = base + n - 1 ->
  vital_between base hi (Some (vital base n r)).
Proof.
  intros Hr Hj Hn Hnear ->.
  destruct (vital_bounds base n j r Hr Hj Hn Hnear) as (m & -> & Hm).
  exists m. split; [reflexivity | exact Hm].
Qed.

(** [22 + Math.random() * 10] lies between 22 and 32, and can be 32. *)
Lemma mock_bmi_bounds (r : Q) :
  random_double r ->
  exists q, mock_bmi r = JS.Num q /\ (22 <= q)%Q /\ (q <= 32)%Q.
Proof.
  intros [H0 H1]. unfold mock_bmi. eexists. split; [reflexivity|].
  assert (Hx0 : (0 <= r * 10)%Q)
    by (apply Qmult_le_0_compat; [exact H0 | discriminate]).
  assert (Hx10 : (r * 10 <= 10)%Q).
  { apply (Qle_trans _ ((1 - (1 # 9007199254740992)) * 10));
      [|discriminate].
    apply Qmult_le_compat_r; [exact H1 | discriminate]. }
  assert (Hxbig : (r * 10 < JS.pow2 53)%Q)
    by (eapply Qle_lt_trans; [exact Hx10 | reflexivity]).
  pose proof (fl_ge_int _ 0 Hx0 Hxbig Hx0) as Hy0.
  pose proof (fl_le_int _ 10 Hx0 Hxbig Hx10) as Hy10.
  set (y := JS.fl (r * 10)) in *.
  assert (Hz22 : (inject_Z 22 <= 22 + y)%Q).
  { rewrite <- (Qplus_0_r (inject_Z 22)). apply Qplus_le_r. exact Hy0. }
  assert (Hz32 : (22 + y <= inject_Z 32)%Q).
  { apply (Qle_trans _ (22 + inject_Z 10)); [|discriminate].
    apply Qplus_le_r. exact Hy10. }
  assert (Hz0 : (0 <= 22 + y)%Q)
    by (eapply Qle_trans; [|exact Hz22]; discriminate).
  assert (Hzbig : (22 + y < JS.pow2 53)%Q)
    by (eapply Qle_lt_trans; [exact Hz32 | reflexivity]).
  split.
  - exact (fl_ge_int _ 22 Hz0 Hzbig Hz22).
  - exact (fl_le_int _ 32 Hz0 Hzbig Hz32).
Qed.

(** A record made as lines 150-167 make it, from draws of [Math.random]. *)
Lemma mock_record_plausible (owner suffix : string) (at_ms : Z)
    (glucose bloodPressure skinThickness insulin bmi age r1 r2 : Q) :
  (forall r, In r [glucose; bloodPressure; skinThickness; insulin; bmi; age;
                   r1; r2] -> random_double r) ->
  plausible_mock_record owner
    {| _id := String.append "mock-" suffix;
       inputData :=
         JS.Fields
           [ ("glucose", vital 110 70 glucose);
             ("bloodPressure", vital 70 40 bloodPressure);
             ("skinThickness", vital 20 15 skinThickness);
             ("insulin", vital 50 100 insulin);
             ("bmi", mock_bmi bmi);
             ("age", vital 25 40 age) ];
       result :=
         {| prediction :=
              if negb (Qle_bool r1 (1 # 2)) then "High Risk" else "Low Risk";
            riskScore := r2;
            factors := [];
            recommendations := None |};
       createdAt := at_ms;
       user := owner |}.
Proof.
  intros Hr.
  assert (Hv : forall base n j hi r,
            In r [glucose; bloodPressure; skinThickness; insulin; bmi; age;
                  r1; r2] ->
            0 <= j <= 51 -> 2 ^ j < n < 2 ^ (j + 1) ->
            ((1 - (1 # 9007199254740992)) * inject_Z n * JS.pow2 (52 - j)
             + (1 # 2) < inject_Z (n * 2 ^ (52 - j)))%Q ->
            hi = base + n - 1 ->
            vital_between base hi (Some (vital base n r))).
  { intros base n j hi r Hin Hj Hn Hnear Hhi.
    exact (vital_is_between base n j hi r (Hr r Hin) Hj Hn Hnear Hhi). }
  unfold plausible_mock_record.
  cbn -[vital mock_bmi accepted vital_between String.append].
  split; [reflexivity|].
  split; [left; apply startsWith_append|].
  split; [eexists; split; reflexivity|].
  split; [apply (Hv 110 70 6); [simpl; tauto | lia | split; reflexivity
                               | reflexivity | reflexivity]|].
  split; [apply (Hv 70 40 5); [simpl; tauto | lia | split; reflexivity
                              | reflexivity | reflexivity]|].
  split; [apply (Hv 20 15 3); [simpl; tauto | lia | split; reflexivity
                              | reflexivity | reflexivity]|].
  split; [apply (Hv 50 100 6); [simpl; tauto | lia | split; reflexivity
                               | reflexivity | reflexivity]|].
  split; [apply (Hv 25 40 5); [simpl; tauto | lia | split; reflexivity
                              | reflexivity | reflexivity]|].
  split.
  { destruct (mock_bmi_bounds bmi (Hr bmi ltac:(simpl; tauto)))
      as (q & -> & Hq).
    exists q. split; [reflexivity | exact Hq]. }
  split; [destruct (negb _); [left | right]; reflexivity|].
  destruct (Hr r2 ltac:(simpl; tauto)) as [H0 H1].
  split; [exact H0|].
  split; [eapply Qle_lt_trans; [exact H1 | reflexivity]|].
  split; reflexivity.
Qed.

(** With the store down and [Math.random] drawing doubles of [0, 1), each
    of the five records of the history names the requester, has the vital
    signs within glucose 110-179, bloodPressure 70-109, skinThickness
    20-34, insulin 50-149, age 25-64 and bmi from 22 to 32, a risk label
    with a score in [0, 1), and neither factors nor recommendations.  The
    five identifiers are pairwise distinct and each is one the mock
    GetByOne and the mock Delete accept. *)
Theorem mock_history_records :
  forall (env : Env) (request : Request) (w : World),
    readyState env <> 1 ->
    (forall k, random_double (entropy env k)) ->
    Forall (plausible_mock_record (credentials_id request))
      (items (fst (getPredictionHistory env request w)))
    /\ NoDup (map _id (items (fst (getPredictionHistory env request w))))
    /\ (forall d lookup,
          In d (items (fst (getPredictionHistory env request w))) ->
          params_id lookup = _id d ->
          code (fst (getPredictionById env lookup w)) = 200
          /\ code (fst (deletePrediction env lookup w)) = 200).
Proof.
  intros env request w Hdown Hrand.
  assert (Hall :
    Forall (plausible_mock_record (credentials_id request))
      (items (fst (getPredictionHistory env request w)))).
  { unfold getPredictionHistory, answer.
    rewrite (disconnected_true env Hdown).
    cbn -[JS.string_of_Z String.append vital mock_bmi Z.mul Z.sub Z.add].
    repeat (apply Forall_cons;
            [apply mock_record_plausible; intros r Hin; simpl in Hin;
             repeat (destruct Hin as [<- | Hin]; [apply Hrand|]);
             contradiction|]).
    apply Forall_nil. }
  split; [exact Hall|].
  split.
  - unfold getPredictionHistory, answer.
    rewrite (disconnected_true env Hdown).
    cbn -[JS.string_of_Z vital mock_bmi Z.mul Z.sub Z.add].
    repeat constructor; simpl; intros H;
      repeat (destruct H as [H | H]; [discriminate H|]); exact H.
  - intros d lookup Hin Hid.
    pose proof (proj1 (Forall_forall _ _) Hall d Hin) as (_ & Hacc & _).
    rewrite <- Hid in Hacc. apply refused_iff in Hacc.
    rewrite (mock_lookup_accepted env lookup w Hdown Hacc).
    rewrite (mock_delete_accepted env lookup w Hdown Hacc).
    split; reflexivity.
Qed.

Lemma sample_random : forall k, random_double (entropy Sample.env_down k).
Proof. intros k. split; discriminate. Defined.

Lemma mock_history_records_witness :
  Forall (plausible_mock_record "alice")
    (items (fst (getPredictionHistory Sample.env_down
                   (Sample.alice_lists (Some "7") None) Sample.empty_world)))
  /\ NoDup
       (map _id
          (items (fst (getPredictionHistory Sample.env_down
                         (Sample.alice_lists (Some "7") None)
                         Sample.empty_world)))).
Proof.
  destruct (mock_history_records Sample.env_down
              (Sample.alice_lists (Some "7") None) Sample.empty_world
              (fun H : 0 = 1 =>
                 match Z.eqb_neq 0 1 with
                 | conj f _ => False_ind _ (f eq_refl H)
                 end)
              sample_random)
    as (Hall & Hnodup & _).
  split; [exact Hall | exact Hnodup].
Defined.

(* ================================================================== *)
(** ** The history of a user without records *)
(* ================================================================== *)

(** A user without records, against a connected store that fails no
    operation: List answers 200 with no record, a total of 0 and 0 pages,
    whatever page and limit of at least 1 are asked for (the mock history
    reports 1 page). *)
Theorem empty_history :
  forall (env : Env) (request : Request) (w : World),
    readyState env = 1 ->
    store_healthy env ->
    1 <= page_of request ->
    1 <= limit_of request ->
    (forall d, In d (collection w) -> user d <> credentials_id request) ->
    fst (getPredictionHistory env request w)
    = {| code := 200; status := "success"; message := None;
         data :=
           Some (History []
                   {| total := 0; page := page_of request;
                      limit := limit_of request; pages := 0 |}) |}.
Proof.
  intros env request w Hup Hhealthy Hpage Hlimit Hnone.
  assert (Hfilter : filter (owned_by (credentials_id request)) (collection w)
                    = []).
  { induction (collection w) as [|d l IH]; simpl; [reflexivity|].
    destruct (owned_by (credentials_id request) d) eqn:E.
    - apply String.eqb_eq in E. exfalso.
      exact (Hnone d (or_introl eq_refl) E).
    - apply IH. intros x Hx. apply Hnone. right. exact Hx. }
  destruct (skip_of_request request Hpage Hlimit) as (Hp & Hl & _).
  rewrite (real_history_page env request w _ _ Hup Hhealthy Hp Hl Hpage
             Hlimit).
  cbv zeta. rewrite Hfilter. cbn [fst sort_desc fold_right length Z.of_nat].
  assert (Hskip : forall s, skip_docs s [] = [])
    by (intros [|z|positive]; [reflexivity | apply skipn_nil | reflexivity]).
  rewrite Hskip, firstn_nil.
  unfold JS.ceil_div. rewrite Z.opp_0, Zdiv_0_l. reflexivity.
Qed.

Lemma empty_history_witness :
  fst (getPredictionHistory Sample.env_up
         (Sample.request_of "carol" [] "" (Some "4") (Some "2"))
         Sample.busy_world)
  = {| code := 200; status := "success"; message := None;
       data :=
         Some (History []
                 {| total := 0; page := 4; limit := 2; pages := 0 |}) |}.
Proof.
  apply (empty_history Sample.env_up
           (Sample.request_of "carol" [] "" (Some "4") (Some "2"))
           Sample.busy_world eq_refl sample_store_healthy).
  - discriminate.
  - discriminate.
  - intros d [<- | [<- | [<- | []]]]; discriminate.
Defined.
